(** * Habit-tracking CSV validator: [scripts/validate_and_compute_stability.py]

    A shallow embedding of the validator and the properties its specification
    states about it.

    Modelling choices.
    - A [str] is the [string] of its UTF-8 encoding (the file is read and
      written as UTF-8); [str.strip], [float] and [repr] work on its
      characters, with the white space, decimal digits and printable
      characters of Unicode as CPython has them.
    - A Python [float] is an IEEE-754 binary64 value, here [spec_float] with
      precision 53 and maximal exponent 1024; [float(s)], [round(x, 1)],
      [format(x, ".1f")] and [repr(x)] are correctly rounded as in CPython.
    - The file is the sequence of records that [csv.reader] yields (a list of
      lists of cells); [csv.DictReader] is modelled on top of it.  A row of the
      [DictReader] is a dict whose string keys hold [str] or [None] (the
      [restval]) and whose [None] key (the [restkey]) holds a list of cells.
    - [validate_csv] reads and possibly rewrites one path: it takes the content
      of the file and returns its result with the content afterwards.
    - [main] runs on the files and directories that exist; a path that cannot
      be opened or read as UTF-8 text ends the run with an exception that
      nothing catches. *)

From Stdlib Require Import ZArith Lia Bool Ascii String DecimalString.
From Stdlib Require Import Floats.SpecFloat.
From stdpp Require Import gmap strings list fin_maps sorting.

Local Open Scope string_scope.
Local Open Scope Z_scope.

(** ** Text *)

Module Text.

(** The value of a byte. *)
Definition code (c : ascii) : Z := Z.of_N (N_of_ascii c).

(** *** The characters of a string

    A [str] is given by its UTF-8 encoding; a character is a UTF-8 sequence. *)

(** The length of the sequence that the byte [b] leads. *)
Definition sequence_length (b : ascii) : nat :=
  let n := code b in
  if n <? 0xC0 then 1
  else if n <? 0xE0 then 2
  else if n <? 0xF0 then 3
  else if n <? 0xF8 then 4
  else 1.

Fixpoint chars_of (fuel : nat) (l : list ascii) : list (list ascii) :=
  match fuel, l with
  | S fuel', b :: l' =>
      (b :: take (sequence_length b - 1) l')
      :: chars_of fuel' (drop (sequence_length b - 1) l')
  | _, _ => []
  end.

(** The characters of a string, each as its bytes. *)
Definition chars (l : list ascii) : list (list ascii) := chars_of (length l) l.

Definition continuation (b : ascii) : option Z :=
  let n := code b in
  if (0x80 <=? n) && (n <? 0xC0) then Some (n - 0x80) else None.

(** The code point of a character, [-1] for bytes that are no UTF-8 sequence. *)
Definition code_point (ch : list ascii) : Z :=
  match ch with
  | [b] => if code b <? 0x80 then code b else -1
  | [b; c1] =>
      match continuation c1 with
      | Some x1 =>
          let cp := (code b - 0xC0) * 0x40 + x1 in
          if (0xC0 <=? code b) && (code b <? 0xE0) && (0x80 <=? cp)
          then cp else -1
      | None => -1
      end
  | [b; c1; c2] =>
      match continuation c1, continuation c2 with
      | Some x1, Some x2 =>
          let cp := (code b - 0xE0) * 0x1000 + x1 * 0x40 + x2 in
          if (0xE0 <=? code b) && (code b <? 0xF0) && (0x800 <=? cp)
             && negb ((0xD800 <=? cp) && (cp <=? 0xDFFF))
          then cp else -1
      | _, _ => -1
      end
  | [b; c1; c2; c3] =>
      match continuation c1, continuation c2, continuation c3 with
      | Some x1, Some x2, Some x3 =>
          let cp := (code b - 0xF0) * 0x40000 + x1 * 0x1000 + x2 * 0x40 + x3 in
          if (0xF0 <=? code b) && (code b <? 0xF8) && (0x10000 <=? cp)
             && (cp <=? 0x10FFFF)
          then cp else -1
      | _, _, _ => -1
      end
  | _ => -1
  end.

Definition in_ranges (cp : Z) (ranges : list (Z * Z)) : bool :=
  existsb (fun r => (fst r <=? cp) && (cp <=? snd r)) ranges.

(** The code points that [str.isspace] takes for white space. *)
Definition WHITE_SPACE : list (Z * Z) :=
  [ (0x9, 0xD); (0x1C, 0x20); (0x85, 0x85); (0xA0, 0xA0); (0x1680, 0x1680);
    (0x2000, 0x200A); (0x2028, 0x2029); (0x202F, 0x202F); (0x205F, 0x205F);
    (0x3000, 0x3000) ].

Definition isspace (cp : Z) : bool := in_ranges cp WHITE_SPACE.

(** The character [ch] is white space. *)
Definition space (ch : list ascii) : bool := isspace (code_point ch).

(** The bytes [l] are the UTF-8 encoding of a [str]: they decode. *)
Definition utf8 (l : list ascii) : bool :=
  forallb (fun ch => 0 <=? code_point ch) (chars l).

(** The code points of the digits zero above ASCII, each followed by the
    digits one to nine (the decimal digits of Unicode 14.0, as in CPython 3.11). *)
Definition DECIMAL_DIGITS : list Z :=
  [
    0x660; 0x6F0; 0x7C0; 0x966; 0x9E6; 0xA66; 0xAE6; 0xB66; 0xBE6; 0xC66;
    0xCE6; 0xD66; 0xDE6; 0xE50; 0xED0; 0xF20; 0x1040; 0x1090; 0x17E0; 0x1810;
    0x1946; 0x19D0; 0x1A80; 0x1A90; 0x1B50; 0x1BB0; 0x1C40; 0x1C50; 0xA620;
    0xA8D0; 0xA900; 0xA9D0; 0xA9F0; 0xAA50; 0xABF0; 0xFF10; 0x104A0; 0x10D30;
    0x11066; 0x110F0; 0x11136; 0x111D0; 0x112F0; 0x11450; 0x114D0; 0x11650;
    0x116C0; 0x11730; 0x118E0; 0x11950; 0x11C50; 0x11D50; 0x11DA0; 0x16A60;
    0x16AC0; 0x16B50; 0x1D7CE; 0x1D7D8; 0x1D7E2; 0x1D7EC; 0x1D7F6; 0x1E140;
    0x1E2F0; 0x1E950; 0x1FBF0 ].

(** [Py_UNICODE_TODECIMAL] above ASCII. *)
Definition decimal (cp : Z) : option Z :=
  match List.find (fun z => (z <=? cp) && (cp <? z + 10)) DECIMAL_DIGITS with
  | Some z => Some (cp - z)
  | None => None
  end.

(** The code points above ASCII that are not printable (Unicode 14.0, as in
    CPython 3.11): controls, formats, surrogates, private use, unassigned,
    separators. *)
Definition UNPRINTABLE : list (Z * Z) :=
  [
    (0x80, 0xA0); (0xAD, 0xAD); (0x378, 0x379); (0x380, 0x383);
    (0x38B, 0x38B); (0x38D, 0x38D); (0x3A2, 0x3A2); (0x530, 0x530);
    (0x557, 0x558); (0x58B, 0x58C); (0x590, 0x590); (0x5C8, 0x5CF);
    (0x5EB, 0x5EE); (0x5F5, 0x605); (0x61C, 0x61C); (0x6DD, 0x6DD);
    (0x70E, 0x70F); (0x74B, 0x74C); (0x7B2, 0x7BF); (0x7FB, 0x7FC);
    (0x82E, 0x82F); (0x83F, 0x83F); (0x85C, 0x85D); (0x85F, 0x85F);
    (0x86B, 0x86F); (0x88F, 0x897); (0x8E2, 0x8E2); (0x984, 0x984);
    (0x98D, 0x98E); (0x991, 0x992); (0x9A9, 0x9A9); (0x9B1, 0x9B1);
    (0x9B3, 0x9B5); (0x9BA, 0x9BB); (0x9C5, 0x9C6); (0x9C9, 0x9CA);
    (0x9CF, 0x9D6); (0x9D8, 0x9DB); (0x9DE, 0x9DE); (0x9E4, 0x9E5);
    (0x9FF, 0xA00); (0xA04, 0xA04); (0xA0B, 0xA0E); (0xA11, 0xA12);
    (0xA29, 0xA29); (0xA31, 0xA31); (0xA34, 0xA34); (0xA37, 0xA37);
    (0xA3A, 0xA3B); (0xA3D, 0xA3D); (0xA43, 0xA46); (0xA49, 0xA4A);
    (0xA4E, 0xA50); (0xA52, 0xA58); (0xA5D, 0xA5D); (0xA5F, 0xA65);
    (0xA77, 0xA80); (0xA84, 0xA84); (0xA8E, 0xA8E); (0xA92, 0xA92);
    (0xAA9, 0xAA9); (0xAB1, 0xAB1); (0xAB4, 0xAB4); (0xABA, 0xABB);
    (0xAC6, 0xAC6); (0xACA, 0xACA); (0xACE, 0xACF); (0xAD1, 0xADF);
    (0xAE4, 0xAE5); (0xAF2, 0xAF8); (0xB00, 0xB00); (0xB04, 0xB04);
    (0xB0D, 0xB0E); (0xB11, 0xB12); (0xB29, 0xB29); (0xB31, 0xB31);
    (0xB34, 0xB34); (0xB3A, 0xB3B); (0xB45, 0xB46); (0xB49, 0xB4A);
    (0xB4E, 0xB54); (0xB58, 0xB5B); (0xB5E, 0xB5E); (0xB64, 0xB65);
    (0xB78, 0xB81); (0xB84, 0xB84); (0xB8B, 0xB8D); (0xB91, 0xB91);
    (0xB96, 0xB98); (0xB9B, 0xB9B); (0xB9D, 0xB9D); (0xBA0, 0xBA2);
    (0xBA5, 0xBA7); (0xBAB, 0xBAD); (0xBBA, 0xBBD); (0xBC3, 0xBC5);
    (0xBC9, 0xBC9); (0xBCE, 0xBCF); (0xBD1, 0xBD6); (0xBD8, 0xBE5);
    (0xBFB, 0xBFF); (0xC0D, 0xC0D); (0xC11, 0xC11); (0xC29, 0xC29);
    (0xC3A, 0xC3B); (0xC45, 0xC45); (0xC49, 0xC49); (0xC4E, 0xC54);
    (0xC57, 0xC57); (0xC5B, 0xC5C); (0xC5E, 0xC5F); (0xC64, 0xC65);
    (0xC70, 0xC76); (0xC8D, 0xC8D); (0xC91, 0xC91); (0xCA9, 0xCA9);
    (0xCB4, 0xCB4); (0xCBA, 0xCBB); (0xCC5, 0xCC5); (0xCC9, 0xCC9);
    (0xCCE, 0xCD4); (0xCD7, 0xCDC); (0xCDF, 0xCDF); (0xCE4, 0xCE5);
    (0xCF0, 0xCF0); (0xCF3, 0xCFF); (0xD0D, 0xD0D); (0xD11, 0xD11);
    (0xD45, 0xD45); (0xD49, 0xD49); (0xD50, 0xD53); (0xD64, 0xD65);
    (0xD80, 0xD80); (0xD84, 0xD84); (0xD97, 0xD99); (0xDB2, 0xDB2);
    (0xDBC, 0xDBC); (0xDBE, 0xDBF); (0xDC7, 0xDC9); (0xDCB, 0xDCE);
    (0xDD5, 0xDD5); (0xDD7, 0xDD7); (0xDE0, 0xDE5); (0xDF0, 0xDF1);
    (0xDF5, 0xE00); (0xE3B, 0xE3E); (0xE5C, 0xE80); (0xE83, 0xE83);
    (0xE85, 0xE85); (0xE8B, 0xE8B); (0xEA4, 0xEA4); (0xEA6, 0xEA6);
    (0xEBE, 0xEBF); (0xEC5, 0xEC5); (0xEC7, 0xEC7); (0xECE, 0xECF);
    (0xEDA, 0xEDB); (0xEE0, 0xEFF); (0xF48, 0xF48); (0xF6D, 0xF70);
    (0xF98, 0xF98); (0xFBD, 0xFBD); (0xFCD, 0xFCD); (0xFDB, 0xFFF);
    (0x10C6, 0x10C6); (0x10C8, 0x10CC); (0x10CE, 0x10CF); (0x1249, 0x1249);
    (0x124E, 0x124F); (0x1257, 0x1257); (0x1259, 0x1259); (0x125E, 0x125F);
    (0x1289, 0x1289); (0x128E, 0x128F); (0x12B1, 0x12B1); (0x12B6, 0x12B7);
    (0x12BF, 0x12BF); (0x12C1, 0x12C1); (0x12C6, 0x12C7); (0x12D7, 0x12D7);
    (0x1311, 0x1311); (0x1316, 0x1317); (0x135B, 0x135C); (0x137D, 0x137F);
    (0x139A, 0x139F); (0x13F6, 0x13F7); (0x13FE, 0x13FF); (0x1680, 0x1680);
    (0x169D, 0x169F); (0x16F9, 0x16FF); (0x1716, 0x171E); (0x1737, 0x173F);
    (0x1754, 0x175F); (0x176D, 0x176D); (0x1771, 0x1771); (0x1774, 0x177F);
    (0x17DE, 0x17DF); (0x17EA, 0x17EF); (0x17FA, 0x17FF); (0x180E, 0x180E);
    (0x181A, 0x181F); (0x1879, 0x187F); (0x18AB, 0x18AF); (0x18F6, 0x18FF);
    (0x191F, 0x191F); (0x192C, 0x192F); (0x193C, 0x193F); (0x1941, 0x1943);
    (0x196E, 0x196F); (0x1975, 0x197F); (0x19AC, 0x19AF); (0x19CA, 0x19CF);
    (0x19DB, 0x19DD); (0x1A1C, 0x1A1D); (0x1A5F, 0x1A5F); (0x1A7D, 0x1A7E);
    (0x1A8A, 0x1A8F); (0x1A9A, 0x1A9F); (0x1AAE, 0x1AAF); (0x1ACF, 0x1AFF);
    (0x1B4D, 0x1B4F); (0x1B7F, 0x1B7F); (0x1BF4, 0x1BFB); (0x1C38, 0x1C3A);
    (0x1C4A, 0x1C4C); (0x1C89, 0x1C8F); (0x1CBB, 0x1CBC); (0x1CC8, 0x1CCF);
    (0x1CFB, 0x1CFF); (0x1F16, 0x1F17); (0x1F1E, 0x1F1F); (0x1F46, 0x1F47);
    (0x1F4E, 0x1F4F); (0x1F58, 0x1F58); (0x1F5A, 0x1F5A); (0x1F5C, 0x1F5C);
    (0x1F5E, 0x1F5E); (0x1F7E, 0x1F7F); (0x1FB5, 0x1FB5); (0x1FC5, 0x1FC5);
    (0x1FD4, 0x1FD5); (0x1FDC, 0x1FDC); (0x1FF0, 0x1FF1); (0x1FF5, 0x1FF5);
    (0x1FFF, 0x200F); (0x2028, 0x202F); (0x205F, 0x206F); (0x2072, 0x2073);
    (0x208F, 0x208F); (0x209D, 0x209F); (0x20C1, 0x20CF); (0x20F1, 0x20FF);
    (0x218C, 0x218F); (0x2427, 0x243F); (0x244B, 0x245F); (0x2B74, 0x2B75);
    (0x2B96, 0x2B96); (0x2CF4, 0x2CF8); (0x2D26, 0x2D26); (0x2D28, 0x2D2C);
    (0x2D2E, 0x2D2F); (0x2D68, 0x2D6E); (0x2D71, 0x2D7E); (0x2D97, 0x2D9F);
    (0x2DA7, 0x2DA7); (0x2DAF, 0x2DAF); (0x2DB7, 0x2DB7); (0x2DBF, 0x2DBF);
    (0x2DC7, 0x2DC7); (0x2DCF, 0x2DCF); (0x2DD7, 0x2DD7); (0x2DDF, 0x2DDF);
    (0x2E5E, 0x2E7F); (0x2E9A, 0x2E9A); (0x2EF4, 0x2EFF); (0x2FD6, 0x2FEF);
    (0x2FFC, 0x3000); (0x3040, 0x3040); (0x3097, 0x3098); (0x3100, 0x3104);
    (0x3130, 0x3130); (0x318F, 0x318F); (0x31E4, 0x31EF); (0x321F, 0x321F);
    (0xA48D, 0xA48F); (0xA4C7, 0xA4CF); (0xA62C, 0xA63F); (0xA6F8, 0xA6FF);
    (0xA7CB, 0xA7CF); (0xA7D2, 0xA7D2); (0xA7D4, 0xA7D4); (0xA7DA, 0xA7F1);
    (0xA82D, 0xA82F); (0xA83A, 0xA83F); (0xA878, 0xA87F); (0xA8C6, 0xA8CD);
    (0xA8DA, 0xA8DF); (0xA954, 0xA95E); (0xA97D, 0xA97F); (0xA9CE, 0xA9CE);
    (0xA9DA, 0xA9DD); (0xA9FF, 0xA9FF); (0xAA37, 0xAA3F); (0xAA4E, 0xAA4F);
    (0xAA5A, 0xAA5B); (0xAAC3, 0xAADA); (0xAAF7, 0xAB00); (0xAB07, 0xAB08);
    (0xAB0F, 0xAB10); (0xAB17, 0xAB1F); (0xAB27, 0xAB27); (0xAB2F, 0xAB2F);
    (0xAB6C, 0xAB6F); (0xABEE, 0xABEF); (0xABFA, 0xABFF); (0xD7A4, 0xD7AF);
    (0xD7C7, 0xD7CA); (0xD7FC, 0xF8FF); (0xFA6E, 0xFA6F); (0xFADA, 0xFAFF);
    (0xFB07, 0xFB12); (0xFB18, 0xFB1C); (0xFB37, 0xFB37); (0xFB3D, 0xFB3D);
    (0xFB3F, 0xFB3F); (0xFB42, 0xFB42); (0xFB45, 0xFB45); (0xFBC3, 0xFBD2);
    (0xFD90, 0xFD91); (0xFDC8, 0xFDCE); (0xFDD0, 0xFDEF); (0xFE1A, 0xFE1F);
    (0xFE53, 0xFE53); (0xFE67, 0xFE67); (0xFE6C, 0xFE6F); (0xFE75, 0xFE75);
    (0xFEFD, 0xFF00); (0xFFBF, 0xFFC1); (0xFFC8, 0xFFC9); (0xFFD0, 0xFFD1);
    (0xFFD8, 0xFFD9); (0xFFDD, 0xFFDF); (0xFFE7, 0xFFE7); (0xFFEF, 0xFFFB);
    (0xFFFE, 0xFFFF); (0x1000C, 0x1000C); (0x10027, 0x10027);
    (0x1003B, 0x1003B); (0x1003E, 0x1003E); (0x1004E, 0x1004F);
    (0x1005E, 0x1007F); (0x100FB, 0x100FF); (0x10103, 0x10106);
    (0x10134, 0x10136); (0x1018F, 0x1018F); (0x1019D, 0x1019F);
    (0x101A1, 0x101CF); (0x101FE, 0x1027F); (0x1029D, 0x1029F);
    (0x102D1, 0x102DF); (0x102FC, 0x102FF); (0x10324, 0x1032C);
    (0x1034B, 0x1034F); (0x1037B, 0x1037F); (0x1039E, 0x1039E);
    (0x103C4, 0x103C7); (0x103D6, 0x103FF); (0x1049E, 0x1049F);
    (0x104AA, 0x104AF); (0x104D4, 0x104D7); (0x104FC, 0x104FF);
    (0x10528, 0x1052F); (0x10564, 0x1056E); (0x1057B, 0x1057B);
    (0x1058B, 0x1058B); (0x10593, 0x10593); (0x10596, 0x10596);
    (0x105A2, 0x105A2); (0x105B2, 0x105B2); (0x105BA, 0x105BA);
    (0x105BD, 0x105FF); (0x10737, 0x1073F); (0x10756, 0x1075F);
    (0x10768, 0x1077F); (0x10786, 0x10786); (0x107B1, 0x107B1);
    (0x107BB, 0x107FF); (0x10806, 0x10807); (0x10809, 0x10809);
    (0x10836, 0x10836); (0x10839, 0x1083B); (0x1083D, 0x1083E);
    (0x10856, 0x10856); (0x1089F, 0x108A6); (0x108B0, 0x108DF);
    (0x108F3, 0x108F3); (0x108F6, 0x108FA); (0x1091C, 0x1091E);
    (0x1093A, 0x1093E); (0x10940, 0x1097F); (0x109B8, 0x109BB);
    (0x109D0, 0x109D1); (0x10A04, 0x10A04); (0x10A07, 0x10A0B);
    (0x10A14, 0x10A14); (0x10A18, 0x10A18); (0x10A36, 0x10A37);
    (0x10A3B, 0x10A3E); (0x10A49, 0x10A4F); (0x10A59, 0x10A5F);
    (0x10AA0, 0x10ABF); (0x10AE7, 0x10AEA); (0x10AF7, 0x10AFF);
    (0x10B36, 0x10B38); (0x10B56, 0x10B57); (0x10B73, 0x10B77);
    (0x10B92, 0x10B98); (0x10B9D, 0x10BA8); (0x10BB0, 0x10BFF);
    (0x10C49, 0x10C7F); (0x10CB3, 0x10CBF); (0x10CF3, 0x10CF9);
    (0x10D28, 0x10D2F); (0x10D3A, 0x10E5F); (0x10E7F, 0x10E7F);
    (0x10EAA, 0x10EAA); (0x10EAE, 0x10EAF); (0x10EB2, 0x10EFF);
    (0x10F28, 0x10F2F); (0x10F5A, 0x10F6F); (0x10F8A, 0x10FAF);
    (0x10FCC, 0x10FDF); (0x10FF7, 0x10FFF); (0x1104E, 0x11051);
    (0x11076, 0x1107E); (0x110BD, 0x110BD); (0x110C3, 0x110CF);
    (0x110E9, 0x110EF); (0x110FA, 0x110FF); (0x11135, 0x11135);
    (0x11148, 0x1114F); (0x11177, 0x1117F); (0x111E0, 0x111E0);
    (0x111F5, 0x111FF); (0x11212, 0x11212); (0x1123F, 0x1127F);
    (0x11287, 0x11287); (0x11289, 0x11289); (0x1128E, 0x1128E);
    (0x1129E, 0x1129E); (0x112AA, 0x112AF); (0x112EB, 0x112EF);
    (0x112FA, 0x112FF); (0x11304, 0x11304); (0x1130D, 0x1130E);
    (0x11311, 0x11312); (0x11329, 0x11329); (0x11331, 0x11331);
    (0x11334, 0x11334); (0x1133A, 0x1133A); (0x11345, 0x11346);
    (0x11349, 0x1134A); (0x1134E, 0x1134F); (0x11351, 0x11356);
    (0x11358, 0x1135C); (0x11364, 0x11365); (0x1136D, 0x1136F);
    (0x11375, 0x113FF); (0x1145C, 0x1145C); (0x11462, 0x1147F);
    (0x114C8, 0x114CF); (0x114DA, 0x1157F); (0x115B6, 0x115B7);
    (0x115DE, 0x115FF); (0x11645, 0x1164F); (0x1165A, 0x1165F);
    (0x1166D, 0x1167F); (0x116BA, 0x116BF); (0x116CA, 0x116FF);
    (0x1171B, 0x1171C); (0x1172C, 0x1172F); (0x11747, 0x117FF);
    (0x1183C, 0x1189F); (0x118F3, 0x118FE); (0x11907, 0x11908);
    (0x1190A, 0x1190B); (0x11914, 0x11914); (0x11917, 0x11917);
    (0x11936, 0x11936); (0x11939, 0x1193A); (0x11947, 0x1194F);
    (0x1195A, 0x1199F); (0x119A8, 0x119A9); (0x119D8, 0x119D9);
    (0x119E5, 0x119FF); (0x11A48, 0x11A4F); (0x11AA3, 0x11AAF);
    (0x11AF9, 0x11BFF); (0x11C09, 0x11C09); (0x11C37, 0x11C37);
    (0x11C46, 0x11C4F); (0x11C6D, 0x11C6F); (0x11C90, 0x11C91);
    (0x11CA8, 0x11CA8); (0x11CB7, 0x11CFF); (0x11D07, 0x11D07);
    (0x11D0A, 0x11D0A); (0x11D37, 0x11D39); (0x11D3B, 0x11D3B);
    (0x11D3E, 0x11D3E); (0x11D48, 0x11D4F); (0x11D5A, 0x11D5F);
    (0x11D66, 0x11D66); (0x11D69, 0x11D69); (0x11D8F, 0x11D8F);
    (0x11D92, 0x11D92); (0x11D99, 0x11D9F); (0x11DAA, 0x11EDF);
    (0x11EF9, 0x11FAF); (0x11FB1, 0x11FBF); (0x11FF2, 0x11FFE);
    (0x1239A, 0x123FF); (0x1246F, 0x1246F); (0x12475, 0x1247F);
    (0x12544, 0x12F8F); (0x12FF3, 0x12FFF); (0x1342F, 0x143FF);
    (0x14647, 0x167FF); (0x16A39, 0x16A3F); (0x16A5F, 0x16A5F);
    (0x16A6A, 0x16A6D); (0x16ABF, 0x16ABF); (0x16ACA, 0x16ACF);
    (0x16AEE, 0x16AEF); (0x16AF6, 0x16AFF); (0x16B46, 0x16B4F);
    (0x16B5A, 0x16B5A); (0x16B62, 0x16B62); (0x16B78, 0x16B7C);
    (0x16B90, 0x16E3F); (0x16E9B, 0x16EFF); (0x16F4B, 0x16F4E);
    (0x16F88, 0x16F8E); (0x16FA0, 0x16FDF); (0x16FE5, 0x16FEF);
    (0x16FF2, 0x16FFF); (0x187F8, 0x187FF); (0x18CD6, 0x18CFF);
    (0x18D09, 0x1AFEF); (0x1AFF4, 0x1AFF4); (0x1AFFC, 0x1AFFC);
    (0x1AFFF, 0x1AFFF); (0x1B123, 0x1B14F); (0x1B153, 0x1B163);
    (0x1B168, 0x1B16F); (0x1B2FC, 0x1BBFF); (0x1BC6B, 0x1BC6F);
    (0x1BC7D, 0x1BC7F); (0x1BC89, 0x1BC8F); (0x1BC9A, 0x1BC9B);
    (0x1BCA0, 0x1CEFF); (0x1CF2E, 0x1CF2F); (0x1CF47, 0x1CF4F);
    (0x1CFC4, 0x1CFFF); (0x1D0F6, 0x1D0FF); (0x1D127, 0x1D128);
    (0x1D173, 0x1D17A); (0x1D1EB, 0x1D1FF); (0x1D246, 0x1D2DF);
    (0x1D2F4, 0x1D2FF); (0x1D357, 0x1D35F); (0x1D379, 0x1D3FF);
    (0x1D455, 0x1D455); (0x1D49D, 0x1D49D); (0x1D4A0, 0x1D4A1);
    (0x1D4A3, 0x1D4A4); (0x1D4A7, 0x1D4A8); (0x1D4AD, 0x1D4AD);
    (0x1D4BA, 0x1D4BA); (0x1D4BC, 0x1D4BC); (0x1D4C4, 0x1D4C4);
    (0x1D506, 0x1D506); (0x1D50B, 0x1D50C); (0x1D515, 0x1D515);
    (0x1D51D, 0x1D51D); (0x1D53A, 0x1D53A); (0x1D53F, 0x1D53F);
    (0x1D545, 0x1D545); (0x1D547, 0x1D549); (0x1D551, 0x1D551);
    (0x1D6A6, 0x1D6A7); (0x1D7CC, 0x1D7CD); (0x1DA8C, 0x1DA9A);
    (0x1DAA0, 0x1DAA0); (0x1DAB0, 0x1DEFF); (0x1DF1F, 0x1DFFF);
    (0x1E007, 0x1E007); (0x1E019, 0x1E01A); (0x1E022, 0x1E022);
    (0x1E025, 0x1E025); (0x1E02B, 0x1E0FF); (0x1E12D, 0x1E12F);
    (0x1E13E, 0x1E13F); (0x1E14A, 0x1E14D); (0x1E150, 0x1E28F);
    (0x1E2AF, 0x1E2BF); (0x1E2FA, 0x1E2FE); (0x1E300, 0x1E7DF);
    (0x1E7E7, 0x1E7E7); (0x1E7EC, 0x1E7EC); (0x1E7EF, 0x1E7EF);
    (0x1E7FF, 0x1E7FF); (0x1E8C5, 0x1E8C6); (0x1E8D7, 0x1E8FF);
    (0x1E94C, 0x1E94F); (0x1E95A, 0x1E95D); (0x1E960, 0x1EC70);
    (0x1ECB5, 0x1ED00); (0x1ED3E, 0x1EDFF); (0x1EE04, 0x1EE04);
    (0x1EE20, 0x1EE20); (0x1EE23, 0x1EE23); (0x1EE25, 0x1EE26);
    (0x1EE28, 0x1EE28); (0x1EE33, 0x1EE33); (0x1EE38, 0x1EE38);
    (0x1EE3A, 0x1EE3A); (0x1EE3C, 0x1EE41); (0x1EE43, 0x1EE46);
    (0x1EE48, 0x1EE48); (0x1EE4A, 0x1EE4A); (0x1EE4C, 0x1EE4C);
    (0x1EE50, 0x1EE50); (0x1EE53, 0x1EE53); (0x1EE55, 0x1EE56);
    (0x1EE58, 0x1EE58); (0x1EE5A, 0x1EE5A); (0x1EE5C, 0x1EE5C);
    (0x1EE5E, 0x1EE5E); (0x1EE60, 0x1EE60); (0x1EE63, 0x1EE63);
    (0x1EE65, 0x1EE66); (0x1EE6B, 0x1EE6B); (0x1EE73, 0x1EE73);
    (0x1EE78, 0x1EE78); (0x1EE7D, 0x1EE7D); (0x1EE7F, 0x1EE7F);
    (0x1EE8A, 0x1EE8A); (0x1EE9C, 0x1EEA0); (0x1EEA4, 0x1EEA4);
    (0x1EEAA, 0x1EEAA); (0x1EEBC, 0x1EEEF); (0x1EEF2, 0x1EFFF);
    (0x1F02C, 0x1F02F); (0x1F094, 0x1F09F); (0x1F0AF, 0x1F0B0);
    (0x1F0C0, 0x1F0C0); (0x1F0D0, 0x1F0D0); (0x1F0F6, 0x1F0FF);
    (0x1F1AE, 0x1F1E5); (0x1F203, 0x1F20F); (0x1F23C, 0x1F23F);
    (0x1F249, 0x1F24F); (0x1F252, 0x1F25F); (0x1F266, 0x1F2FF);
    (0x1F6D8, 0x1F6DC); (0x1F6ED, 0x1F6EF); (0x1F6FD, 0x1F6FF);
    (0x1F774, 0x1F77F); (0x1F7D9, 0x1F7DF); (0x1F7EC, 0x1F7EF);
    (0x1F7F1, 0x1F7FF); (0x1F80C, 0x1F80F); (0x1F848, 0x1F84F);
    (0x1F85A, 0x1F85F); (0x1F888, 0x1F88F); (0x1F8AE, 0x1F8AF);
    (0x1F8B2, 0x1F8FF); (0x1FA54, 0x1FA5F); (0x1FA6E, 0x1FA6F);
    (0x1FA75, 0x1FA77); (0x1FA7D, 0x1FA7F); (0x1FA87, 0x1FA8F);
    (0x1FAAD, 0x1FAAF); (0x1FABB, 0x1FABF); (0x1FAC6, 0x1FACF);
    (0x1FADA, 0x1FADF); (0x1FAE8, 0x1FAEF); (0x1FAF7, 0x1FAFF);
    (0x1FB93, 0x1FB93); (0x1FBCB, 0x1FBEF); (0x1FBFA, 0x1FFFF);
    (0x2A6E0, 0x2A6FF); (0x2B739, 0x2B73F); (0x2B81E, 0x2B81F);
    (0x2CEA2, 0x2CEAF); (0x2EBE1, 0x2F7FF); (0x2FA1E, 0x2FFFF);
    (0x3134B, 0xE00FF); (0xE01F0, 0x10FFFF) ].

(** [str.isprintable] on one code point. *)
Definition isprintable (cp : Z) : bool :=
  if cp <? 0x80 then (0x20 <=? cp) && (cp <? 0x7F)
  else negb (in_ranges cp UNPRINTABLE).

(** *** ASCII classes of C *)

(** C's [isspace] in the "C" locale, as [Py_ISSPACE]. *)
Definition c_isspace (c : ascii) : bool :=
  let n := code c in
  ((9 <=? n) && (n <=? 13)) || (n =? 32).

Definition isdigit (c : ascii) : bool :=
  let n := code c in (48 <=? n) && (n <=? 57).

Definition digit_value (c : ascii) : Z := code c - 48.

Definition tolower (c : ascii) : ascii :=
  let n := code c in
  if (65 <=? n) && (n <=? 90) then ascii_of_N (Z.to_N (n + 32)) else c.

(** *** [str.strip] *)

Fixpoint lstrip_with {A : Type} (sp : A -> bool) (l : list A) : list A :=
  match l with
  | c :: l' => if sp c then lstrip_with sp l' else l
  | [] => []
  end.

Definition strip_with {A : Type} (sp : A -> bool) (l : list A) : list A :=
  rev (lstrip_with sp (rev (lstrip_with sp l))).

(** [s.strip()]: the white space characters at both ends are removed. *)
Definition strip (s : string) : string :=
  string_of_list_ascii
    (List.concat (strip_with space (chars (list_ascii_of_string s)))).

(** *** Numbers as text *)

Definition of_N (n : N) : string := NilZero.string_of_uint (N.to_uint n).
Definition of_Z (z : Z) : string :=
  if z <? 0 then "-" ++ of_N (Z.to_N (- z)) else of_N (Z.to_N z).

Fixpoint zeros (n : nat) : string :=
  match n with O => "" | S n' => String "0" (zeros n') end.

Fixpoint join (sep : string) (l : list string) : string :=
  match l with
  | [] => ""
  | [x] => x
  | x :: l' => x ++ sep ++ join sep l'
  end.

Definition hex_digit (n : Z) : ascii :=
  ascii_of_N (Z.to_N (if n <? 10 then 48 + n else 87 + n)).

(** [n] in [width] hexadecimal digits. *)
Fixpoint hex (width : nat) (n : Z) : string :=
  match width with
  | O => ""
  | S width' => hex width' (n / 16) ++ String (hex_digit (n mod 16)) ""
  end.

(** *** [repr] of a string *)

(** The escape of a code point that is not printable. *)
Definition escape (cp : Z) : string :=
  if cp <? 0x100 then "\x" ++ hex 2 cp
  else if cp <? 0x10000 then "\u" ++ hex 4 cp
  else "\U" ++ hex 8 cp.

(** One character of [repr(s)] inside the quote [q]. *)
Definition repr_char (q : ascii) (ch : list ascii) : string :=
  let cp := code_point ch in
  if (cp =? code q) || (cp =? 92) then String "\"%char (string_of_list_ascii ch)
  else if cp =? 9 then "\t"
  else if cp =? 10 then "\n"
  else if cp =? 13 then "\r"
  else if (0 <=? cp) && negb (isprintable cp) then escape cp
  else string_of_list_ascii ch.

Definition has_char (c : ascii) (s : string) : bool :=
  existsb (fun d => code d =? code c) (list_ascii_of_string s).

(** [repr(s)]: single quotes, unless [s] holds a single quote and no double
    quote. *)
Definition repr (s : string) : string :=
  let q := if has_char "'"%char s && negb (has_char "034"%char s)
           then "034"%char else "'"%char in
  String q (String.concat "" (map (repr_char q) (chars (list_ascii_of_string s))))
  ++ String q "".

(** [repr(l)] for a list of strings. *)
Definition repr_list (l : list string) : string :=
  "[" ++ join ", " (map repr l) ++ "]".

End Text.

(** ** Floating point: IEEE-754 binary64 *)

Module Float.

Abbreviation float := spec_float.

Definition prec : Z := 53.
Definition emax : Z := 1024.

Definition add (x y : float) : float := SFadd prec emax x y.
Definition sub (x y : float) : float := SFsub prec emax x y.
Definition div (x y : float) : float := SFdiv prec emax x y.
Definition abs (x : float) : float := SFabs x.

(** [x < y] and [x > y]; both are false when an operand is a NaN. *)
Definition ltb (x y : float) : bool := SFltb x y.
Definition gtb (x y : float) : bool := SFltb y x.
Definition leb (x y : float) : bool := SFleb x y.
Definition eqb (x y : float) : bool := SFeqb x y.

Definition is_nan (x : float) : bool :=
  match x with S754_nan => true | _ => false end.

Definition is_finite (x : float) : bool :=
  match x with S754_zero _ | S754_finite _ _ _ => true | _ => false end.

(** The binary64 value nearest to [n / d] (ties to even), with sign [s];
    [0 <= n] and [0 < d]. *)
Definition of_fraction (s : bool) (n d : Z) : float :=
  match n with
  | Z0 => S754_zero s
  | _ =>
      let '(q, e, l) := SFdiv_core_binary prec emax n 0 d 0 in
      binary_round_aux prec emax s q e l
  end.

(** The binary64 value nearest to [m * 10^e], as [strtod] gives it. *)
Definition of_decimal (s : bool) (m e : Z) : float :=
  if 0 <=? e then of_fraction s (m * 10 ^ e) 1
  else of_fraction s m (10 ^ (- e)).

Definition of_Z (z : Z) : float := of_decimal (z <? 0) (Z.abs z) 0.

(** [n / d] rounded to an integer, ties to even; [0 <= n] and [0 < d]. *)
Definition rne_div (n d : Z) : Z :=
  let q := n / d in
  match (2 * (n mod d)) ?= d with
  | Lt => q
  | Gt => q + 1
  | Eq => if Z.even q then q else q + 1
  end.

(** [|x| * 10] rounded to an integer for the finite [x = m * 2^e]: the digits
    that [_Py_dg_dtoa] yields in mode 3 with one digit after the point. *)
Definition tenths (m : positive) (e : Z) : Z :=
  if 0 <=? e then 10 * Z.pos m * 2 ^ e
  else rne_div (10 * Z.pos m) (2 ^ (- e)).

(** [round(x, 1)]: NaNs, infinities and zeros round to themselves; a finite
    value is rounded to a decimal string with one digit after the point, which
    is read back. *)
Definition round1 (x : float) : float :=
  match x with
  | S754_finite s m e => of_fraction s (tenths m e) 10
  | _ => x
  end.

(** [format(x, ".1f")] *)
Definition format_1f (x : float) : string :=
  match x with
  | S754_nan => "nan"
  | S754_infinity s => if s then "-inf" else "inf"
  | S754_zero s => (if s then "-" else "") ++ "0.0"
  | S754_finite s m e =>
      let n := tenths m e in
      (if s then "-" else "") ++ Text.of_Z (n / 10) ++ "." ++ Text.of_Z (n mod 10)
  end.

(** C's [floor]. *)
Definition floor (x : float) : float :=
  match x with
  | S754_finite s m e =>
      if 0 <=? e then x
      else binary_normalize prec emax (cond_Zopp s (Z.pos m) / 2 ^ (- e)) 0 s
  | _ => x
  end.

(** [x.is_integer()]: false on NaNs and infinities, else [floor(x) == x]. *)
Definition is_integer (x : float) : bool :=
  is_finite x && eqb (floor x) x.

(** *** [repr(x)]: the shortest decimal string that reads back as [x] *)

(** [x / 10^k] for the fraction [x = n / d]. *)
Definition scaled (n d k : Z) : Z * Z :=
  if 0 <=? k then (n, d * 10 ^ k) else (n * 10 ^ (- k), d).

(** The least [k >= k0] with [n / d < 10^k]. *)
Fixpoint decpt_from (fuel : nat) (n d k : Z) : Z :=
  match fuel with
  | O => k
  | S fuel' =>
      let '(n', d') := scaled n d k in
      if n' <? d' then k else decpt_from fuel' n d (k + 1)
  end.

(** The integer [q] with [q * 10^k] nearest to [x = n / d] among the
    multiples of [10^k] that read back as [x], if there is one. *)
Definition candidate (x : float) (n d k : Z) : option Z :=
  let '(n', d') := scaled n d k in
  let q := n' / d' in
  match eqb (of_decimal false q k) x, eqb (of_decimal false (q + 1) k) x with
  | true, true => Some (rne_div n' d')
  | true, false => Some q
  | false, true => Some (q + 1)
  | false, false => None
  end.

(** More and more digits, from the exponent [k] downwards. *)
Fixpoint shortest (fuel : nat) (x : float) (n d k : Z) : Z * Z :=
  match fuel with
  | O => let '(n', d') := scaled n d k in (rne_div n' d', k)
  | S fuel' =>
      match candidate x n d k with
      | Some q => (q, k)
      | None => shortest fuel' x n d (k - 1)
      end
  end.

Fixpoint drop_zeros (fuel : nat) (q k : Z) : Z * Z :=
  match fuel with
  | O => (q, k)
  | S fuel' =>
      if (q mod 10 =? 0) && negb (q =? 0) then drop_zeros fuel' (q / 10) (k + 1)
      else (q, k)
  end.

(** The digits of the shortest string for the finite positive [m * 2^e] and
    the position of its decimal point, as [_Py_dg_dtoa] gives them in mode 0. *)
Definition dtoa0 (m : positive) (e : Z) : string * Z :=
  let x := S754_finite false m e in
  let n := if 0 <=? e then Z.pos m * 2 ^ e else Z.pos m in
  let d := if 0 <=? e then 1 else 2 ^ (- e) in
  let k0 := (Z.log2 (Z.pos m) + e) * 30103 / 100000 - 1 in
  let decpt := decpt_from 8 n d k0 in
  let '(q, k) := shortest 17 x n d (decpt - 1) in
  let '(q', k') := drop_zeros 20 q k in
  let ds := Text.of_Z q' in
  (ds, Z.of_nat (String.length ds) + k').

(** [format_float_short] with format code ['r'] on the digits [ds] with the
    decimal point after the first [decpt] of them. *)
Definition format_repr (ds : string) (decpt : Z) : string :=
  let len := Z.of_nat (String.length ds) in
  if (decpt <=? -4) || (16 <? decpt) then
    let e := decpt - 1 in
    substring 0 1 ds
    ++ (if 1 <? len then "." ++ substring 1 (String.length ds - 1) ds else "")
    ++ "e" ++ (if e <? 0 then "-" else "+")
    ++ (if Z.abs e <? 10 then "0" else "") ++ Text.of_Z (Z.abs e)
  else if decpt <=? 0 then
    "0." ++ Text.zeros (Z.to_nat (- decpt)) ++ ds
  else if decpt <? len then
    substring 0 (Z.to_nat decpt) ds ++ "."
    ++ substring (Z.to_nat decpt) (Z.to_nat (len - decpt)) ds
  else
    ds ++ Text.zeros (Z.to_nat (decpt - len)) ++ ".0".

(** [repr(x)], which is also [str(x)] and what an f-string inserts. *)
Definition repr (x : float) : string :=
  match x with
  | S754_nan => "nan"
  | S754_infinity s => if s then "-inf" else "inf"
  | S754_zero s => if s then "-0.0" else "0.0"
  | S754_finite s m e =>
      let '(ds, decpt) := dtoa0 m e in
      (if s then "-" else "") ++ format_repr ds decpt
  end.

(** *** [float(s)] *)

Definition is_char (c d : ascii) : bool := Text.code c =? Text.code d.

(** [_Py_string_to_number_with_underscores]: an underscore is allowed only
    between two digits; the underscores are removed. *)
Fixpoint underscores (prev : ascii) (l : list ascii) : option (list ascii) :=
  match l with
  | [] => if is_char prev "_" then None else Some []
  | c :: l' =>
      if is_char c "_" then
        if Text.isdigit prev then underscores c l' else None
      else if is_char prev "_" && negb (Text.isdigit c) then None
      else
        match underscores c l' with
        | Some r => Some (c :: r)
        | None => None
        end
  end.

Fixpoint span_digits (l : list ascii) : list ascii * list ascii :=
  match l with
  | c :: l' =>
      if Text.isdigit c then let '(ds, r) := span_digits l' in (c :: ds, r)
      else ([], l)
  | [] => ([], [])
  end.

Definition digits_value (ds : list ascii) : Z :=
  fold_left (fun acc c => 10 * acc + Text.digit_value c) ds 0.

Definition parse_sign (l : list ascii) : bool * list ascii :=
  match l with
  | c :: r => if is_char c "-" then (true, r)
              else if is_char c "+" then (false, r) else (false, l)
  | [] => (false, l)
  end.

(** An exponent needs at least one digit; without one the ["e"] is not read. *)
Definition parse_exponent (l : list ascii) : Z * list ascii :=
  match l with
  | c :: r =>
      if is_char c "e" || is_char c "E" then
        let '(es, r1) := parse_sign r in
        let '(ds, r2) := span_digits r1 in
        match ds with
        | [] => (0, l)
        | _ => (if es then - digits_value ds else digits_value ds, r2)
        end
      else (0, l)
  | [] => (0, l)
  end.

(** [_Py_dg_strtod]: sign, digits, point, digits, exponent; the value read and
    what follows it, or [None] when there is no digit. *)
Definition strtod (l : list ascii) : option (float * list ascii) :=
  let '(s, r0) := parse_sign l in
  let '(ip, r1) := span_digits r0 in
  let '(fp, r2) :=
    match r1 with
    | c :: r => if is_char c "." then span_digits r else ([], r1)
    | [] => ([], r1)
    end in
  match (ip ++ fp)%list with
  | [] => None
  | ds =>
      let '(e, r3) := parse_exponent r2 in
      Some (of_decimal s (digits_value ds) (e - Z.of_nat (length fp)), r3)
  end.

(** [case_insensitive_match]: the rest of [l] after the lower-case word [t]. *)
Fixpoint match_ci (t : list ascii) (l : list ascii) : option (list ascii) :=
  match t, l with
  | [], _ => Some l
  | ct :: t', c :: l' =>
      if is_char (Text.tolower c) ct then match_ci t' l' else None
  | _ :: _, [] => None
  end.

(** [_Py_parse_inf_or_nan] *)
Definition parse_inf_or_nan (l : list ascii) : option (float * list ascii) :=
  let '(s, r) := parse_sign l in
  match match_ci (list_ascii_of_string "inf") r with
  | Some r1 =>
      match match_ci (list_ascii_of_string "inity") r1 with
      | Some r2 => Some (S754_infinity s, r2)
      | None => Some (S754_infinity s, r1)
      end
  | None =>
      match match_ci (list_ascii_of_string "nan") r with
      | Some r1 => Some (S754_nan, r1)
      | None => None
      end
  end.

(** [_PyUnicode_TransformDecimalAndSpaceToASCII] on the characters of a string
    that is not ASCII: a character below 127 is kept, a white space becomes a
    space, a decimal digit its ASCII digit, and at any other character the
    text ends with a question mark. *)
Fixpoint transform (cs : list (list ascii)) : list ascii :=
  match cs with
  | [] => []
  | ch :: cs' =>
      let cp := Text.code_point ch in
      if (0 <=? cp) && (cp <? 127) then ascii_of_N (Z.to_N cp) :: transform cs'
      else if Text.isspace cp then " "%char :: transform cs'
      else
        match Text.decimal cp with
        | Some d => ascii_of_N (Z.to_N (48 + d)) :: transform cs'
        | None => [ "?"%char ]
        end
  end.

Definition to_ascii (l : list ascii) : list ascii :=
  if forallb (fun b => Text.code b <? 128) l then l else transform (Text.chars l).

(** [float(s)]; [None] stands for the [ValueError]. *)
Definition of_string (s : string) : option float :=
  match underscores "000"%char (to_ascii (list_ascii_of_string s)) with
  | None => None
  | Some l =>
      let l' := Text.strip_with Text.c_isspace l in
      let r := match strtod l' with
               | Some r => Some r
               | None => parse_inf_or_nan l'
               end in
      match r with
      | Some (x, []) => Some x
      | _ => None
      end
  end.

End Float.

(** ** The records of [csv.DictReader] and [csv.DictWriter] *)

Module Csv.

(** The content of a CSV file: the records that [csv.reader] yields, a blank
    line being the empty record. *)
Definition file : Type := list (list string).

(** A row of the [DictReader]: [fields] are the string keys, holding a [str]
    or [None]; [rest] is the value of the key [None], when it is there. *)
Record Row := { fields : gmap string (option string); rest : option (list string) }.

(** [dict(zip(fieldnames, row))]: of two cells under one name the later stays. *)
Definition dict_zip (fieldnames cells : list string) : gmap string (option string) :=
  fold_left (fun d kv => <[kv.1 := Some kv.2]> d) (zip fieldnames cells) ∅.

(** The body of [DictReader.__next__], with [restkey] and [restval] [None]. *)
Definition make_row (fieldnames cells : list string) : Row :=
  let d := dict_zip fieldnames cells in
  let lf := length fieldnames in
  let lr := length cells in
  if (lf <? lr)%nat then {| fields := d; rest := Some (drop lf cells) |}
  else if (lr <? lf)%nat then
    {| fields := fold_left (fun d key => <[key := None]> d) (drop lr fieldnames) d;
       rest := None |}
  else {| fields := d; rest := None |}.

Definition is_empty_record (r : list string) : bool :=
  match r with [] => true | _ => false end.

(** [reader.fieldnames]: the first record, [None] when there is none. *)
Definition fieldnames (f : file) : option (list string) := head f.

(** The rows the reader yields after the header; empty records are skipped. *)
Definition rows (f : file) : list Row :=
  match f with
  | [] => []
  | header :: records =>
      map (make_row header) (List.filter (fun r => negb (is_empty_record r)) records)
  end.

(** [r.get(key, "")] *)
Definition get (r : Row) (key : string) : option string :=
  default (Some "") (fields r !! key).

(** [r[key] = value] *)
Definition set (r : Row) (key value : string) : Row :=
  {| fields := <[key := Some value]> (fields r); rest := rest r |}.

(** What [csv.writer] writes for a cell: [None] is written as the empty string. *)
Definition write_cell (v : option string) : string :=
  match v with Some s => s | None => "" end.

End Csv.

(** ** The validator *)

Import Csv.

(** A float literal of the source. *)
Definition lit (s : string) : Float.float :=
  default S754_nan (Float.of_string s).

Definition REQUIRED_COLUMNS : list string :=
  [ "date"; "clarity"; "calm"; "routine"; "stability"; "sleep_hours";
    "sleep_quality"; "exercise_minutes"; "caffeine_units"; "social_minutes";
    "stressors"; "notes" ].

(** The dict [RANGES], its items in the order of the keys. *)
Definition RANGES : list (string * (Float.float * Float.float)) :=
  Eval vm_compute in
  [ ("clarity", (lit "0.0", lit "10.0"));
    ("calm", (lit "0.0", lit "10.0"));
    ("routine", (lit "0.0", lit "10.0"));
    ("stability", (lit "0.0", lit "10.0"));
    ("sleep_hours", (lit "0.0", lit "16.0"));
    ("sleep_quality", (lit "1.0", lit "5.0"));
    ("exercise_minutes", (lit "0.0", lit "300.0"));
    ("caffeine_units", (lit "0.0", lit "20.0"));
    ("social_minutes", (lit "0.0", lit "1440.0"));
    ("stressors", (lit "0.0", lit "3.0")) ].

Definition INT_FIELDS : gset string :=
  {[ "sleep_quality"; "exercise_minutes"; "caffeine_units"; "social_minutes";
     "stressors" ]}.

Definition FLOAT_FIELDS : gset string :=
  {[ "clarity"; "calm"; "routine"; "stability"; "sleep_hours" ]}.

Record Issue := { row_number : Z; column : string; message : string }.

(** [str(v)] for a value that is a [str] or [None], as an f-string inserts it. *)
Definition py_str (v : option string) : string :=
  match v with Some s => s | None => "None" end.

Definition _is_blank (value : option string) : bool :=
  match value with
  | None => true
  | Some s => String.eqb (Text.strip s) ""
  end.

Definition _to_float (value : option string) : option Float.float :=
  if _is_blank value then None
  else match value with
       | Some s => Float.of_string s
       | None => None
       end.

Definition _validate_columns (header : list string) : list string :=
  let missing := filter (λ c, c ∉ header) REQUIRED_COLUMNS in
  let extras := filter (λ c, c ∉ REQUIRED_COLUMNS) header in
  List.app
    match missing with
    | [] => []
    | _ => ["Missing columns: " ++ Text.repr_list missing]
    end
    match extras with
    | [] => []
    | _ => ["Unexpected extra columns: " ++ Text.repr_list extras]
    end.

Definition compute_stability (clarity calm routine : Float.float) : Float.float :=
  Float.round1 (Float.div (Float.add (Float.add clarity calm) routine) (lit "3.0")).

(** *** The body of the loop over the rows *)

(** [v.strip() if isinstance(v, str) else v] *)
Definition strip_value (v : option string) : option string :=
  match v with
  | Some s => Some (Text.strip s)
  | None => None
  end.

(** [row_clean]: every [str] value stripped, the other values as they are. *)
Definition clean (row : Row) : Row :=
  {| fields := strip_value <$> fields row; rest := rest row |}.

(** The date checks: the issues raised and the dates seen afterwards. *)
Definition date_checks (idx : Z) (row_clean : Row) (seen_dates : gset (option string))
  : list Issue * gset (option string) :=
  let date := get row_clean "date" in
  if _is_blank date then
    ([ {| row_number := idx; column := "date"; message := "Missing date" |} ],
     seen_dates)
  else
    ((if bool_decide (date ∈ seen_dates) then
        [ {| row_number := idx; column := "date";
             message := "Duplicate date: " ++ py_str date |} ]
      else []),
     {[ date ]} ∪ seen_dates).

(** One turn of the loop over [RANGES]: the issues raised for [col] and the
    value of [numeric_values[col]]. *)
Definition check_column (idx : Z) (row_clean : Row) (col : string)
    (lo hi : Float.float) : list Issue * option Float.float :=
  let val := get row_clean col in
  if _is_blank val then ([], None)
  else
    match _to_float val with
    | None =>
        ([ {| row_number := idx; column := col;
              message := "Not a number: '" ++ py_str val ++ "'" |} ],
         None)
    | Some fval =>
        (List.app
           (if Float.ltb fval lo || Float.gtb fval hi then
              [ {| row_number := idx; column := col;
                   message := "Out of range " ++ Float.repr lo ++ "–"
                              ++ Float.repr hi ++ ": " ++ Float.repr fval |} ]
            else [])
           (if bool_decide (col ∈ INT_FIELDS) && negb (Float.is_integer fval) then
              [ {| row_number := idx; column := col;
                   message := "Expected integer, got: " ++ Float.repr fval |} ]
            else []),
         Some fval)
    end.

(** One turn of the loop over [RANGES] on the issues raised so far and
    [numeric_values]. *)
Definition numeric_step (idx : Z) (row_clean : Row)
    (acc : list Issue * gmap string (option Float.float))
    (item : string * (Float.float * Float.float))
  : list Issue * gmap string (option Float.float) :=
  let '(col, (lo, hi)) := item in
  let '(new, v) := check_column idx row_clean col lo hi in
  (List.app acc.1 new, <[col := v]> acc.2).

(** The type and range checks: the loop over [RANGES]. *)
Definition numeric_checks (idx : Z) (row_clean : Row)
  : list Issue * gmap string (option Float.float) :=
  fold_left (numeric_step idx row_clean) RANGES ([], ∅).

(** [numeric_values.get(col)] *)
Definition numeric_get (numeric_values : gmap string (option Float.float))
    (col : string) : option Float.float :=
  match numeric_values !! col with
  | Some v => v
  | None => None
  end.

(** The stability check or fill: the issues raised and the row afterwards. *)
Definition stability_checks (idx : Z)
    (numeric_values : gmap string (option Float.float)) (row_clean : Row)
  : list Issue * Row :=
  match numeric_get numeric_values "clarity",
        numeric_get numeric_values "calm",
        numeric_get numeric_values "routine" with
  | Some clarity, Some calm, Some routine =>
      let computed := compute_stability clarity calm routine in
      match numeric_get numeric_values "stability" with
      | None => ([], set row_clean "stability" (Float.format_1f computed))
      | Some existing =>
          if Float.gtb (Float.abs (Float.sub existing computed)) (lit "0.1") then
            ([ {| row_number := idx; column := "stability";
                  message := "Does not match (clarity+calm+routine)/3. "
                             ++ "Existing=" ++ Float.format_1f existing
                             ++ ", Computed=" ++ Float.format_1f computed |} ],
             row_clean)
          else ([], row_clean)
      end
  | _, _, _ => ([], row_clean)
  end.

(** The variables of [validate_csv] that the loop updates. *)
Record State := {
  issues : list Issue;
  rows_out : list Row;
  seen_dates : gset (option string);
  valid_rows : Z
}.

(** The issues that the body of the loop raises for [row], and the row it
    appends to [rows_out]. *)
Definition row_issues (idx : Z) (row : Row) (seen : gset (option string))
  : list Issue :=
  let row_clean := clean row in
  let numeric := numeric_checks idx row_clean in
  ((date_checks idx row_clean seen).1 ++ numeric.1
   ++ (stability_checks idx numeric.2 row_clean).1)%list.

Definition row_cleaned (idx : Z) (row : Row) : Row :=
  let row_clean := clean row in
  (stability_checks idx (numeric_checks idx row_clean).2 row_clean).2.

Definition row_body (idx : Z) (row : Row) (st : State) : State :=
  {| issues := (issues st ++ row_issues idx row (seen_dates st))%list;
     rows_out := (rows_out st ++ [row_cleaned idx row])%list;
     seen_dates := (date_checks idx (clean row) (seen_dates st)).2;
     valid_rows := valid_rows st + 1 |}.

(** [for idx, row in enumerate(reader, start=idx): ...] *)
Fixpoint loop (idx : Z) (rows : list Row) (st : State) : State :=
  match rows with
  | [] => st
  | row :: rows' => loop (idx + 1) rows' (row_body idx row st)
  end.

(** The record that [DictWriter.writerow] writes for a cleaned row. *)
Definition out_row (r : Row) : list string :=
  map (fun c => write_cell (get r c)) REQUIRED_COLUMNS.

(** The issues raised for the header. *)
Definition header_issues (header : list string) : list Issue :=
  map (fun msg => {| row_number := 0; column := "header"; message := msg |})
      (_validate_columns header).

(** The variables at the end of the [with] block, for a file with the header
    [header]. *)
Definition read_pass (header : list string) (f : file) : State :=
  loop 2 (rows f)
    {| issues := header_issues header; rows_out := [];
       seen_dates := ∅; valid_rows := 0 |}.

(** [validate_csv(path, write_back)] on the content [f] of the file at [path]:
    the issues and the number of rows, and the content of the file afterwards. *)
Definition validate_csv (f : file) (write_back : bool) : (list Issue * Z) * file :=
  match fieldnames f with
  | None =>
      (([ {| row_number := 0; column := ""; message := "CSV has no header row" |} ],
        0), f)
  | Some header =>
      let st := read_pass header f in
      ((issues st, valid_rows st),
       if write_back then REQUIRED_COLUMNS :: map out_row (rows_out st) else f)
  end.

(** ** Notions used to state the properties *)

(** The issues of [l] raised at row [n], and those of them on column [col]. *)
Definition issues_at (n : Z) (l : list Issue) : list Issue :=
  filter (λ x, row_number x = n) l.

Definition issues_on (n : Z) (col : string) (l : list Issue) : list Issue :=
  filter (λ x, column x = col) (issues_at n l).

(** The line number that [enumerate(reader, start=2)] gives the [i]-th row. *)
Definition line (i : nat) : Z := 2 + Z.of_nat i.

(** The date of a row as the loop reads it. *)
Definition date_of (row : Row) : option string := get (clean row) "date".

(** The text of a numeric column as the loop reads it, and the value that the
    loop records for it in [numeric_values]. *)
Definition text_of (row : Row) (col : string) : option string :=
  get (clean row) col.

Definition numeric_value (row : Row) (col : string) : option Float.float :=
  if _is_blank (text_of row col) then None else _to_float (text_of row col).

(** The date of [row] is the date of a row before the [i]-th of [rows]. *)
Definition seen_earlier (rows : list Row) (i : nat) (row : Row) : Prop :=
  ∃ j row', (j < i)%nat ∧ rows !! j = Some row' ∧ date_of row' = date_of row.

(** The issues of the rows [rows], numbered from [idx], when the dates [seen]
    have been seen before them; and the dates seen after them. *)
Fixpoint all_row_issues (idx : Z) (rows : list Row) (seen : gset (option string))
  : list Issue :=
  match rows with
  | [] => []
  | row :: rows' =>
      List.app (row_issues idx row seen)
        (all_row_issues (idx + 1) rows' (date_checks idx (clean row) seen).2)
  end.

Definition see (seen : gset (option string)) (row : Row) : gset (option string) :=
  if _is_blank (date_of row) then seen else {[ date_of row ]} ∪ seen.

Definition seen_after (seen : gset (option string)) (rows : list Row)
  : gset (option string) :=
  fold_left see rows seen.

(** The three issues of the numeric and stability checks. *)
Definition not_a_number (idx : Z) (col : string) (val : option string) : Issue :=
  {| row_number := idx; column := col;
     message := "Not a number: '" ++ py_str val ++ "'" |}.

Definition out_of_range (idx : Z) (col : string) (lo hi fval : Float.float) : Issue :=
  {| row_number := idx; column := col;
     message := "Out of range " ++ Float.repr lo ++ "–" ++ Float.repr hi ++ ": "
                ++ Float.repr fval |}.

Definition expected_integer (idx : Z) (col : string) (fval : Float.float) : Issue :=
  {| row_number := idx; column := col;
     message := "Expected integer, got: " ++ Float.repr fval |}.

Definition mismatch (idx : Z) (existing computed : Float.float) : Issue :=
  {| row_number := idx; column := "stability";
     message := "Does not match (clarity+calm+routine)/3. Existing="
                ++ Float.format_1f existing ++ ", Computed="
                ++ Float.format_1f computed |}.

(** The rows appended to [rows_out] for the rows [rows], numbered from [idx]. *)
Fixpoint cleaned_from (idx : Z) (rows : list Row) : list Row :=
  match rows with
  | [] => []
  | row :: rows' => row_cleaned idx row :: cleaned_from (idx + 1) rows'
  end.

(** ** Sample files *)

(** The row of the end-to-end scenario of the specification, and its file. *)
Definition sample_cells : list string :=
  [ "2024-01-01"; "8"; "7"; "9"; ""; "7"; "4"; "30"; "1"; "60"; "1"; "" ].

Definition sample_row : Row := make_row REQUIRED_COLUMNS sample_cells.

Definition sample : file := [ REQUIRED_COLUMNS; sample_cells ].

(** A file of three rows: a date, the same date between spaces, no date. *)
Definition dated (d : string) : list string := d :: tail sample_cells.

Definition dates_file : file :=
  [ REQUIRED_COLUMNS; dated "2024-01-01"; dated " 2024-01-01 "; dated "  " ].

(** The sample row with other cells for clarity, calm, routine and stability,
    and the file of this one row. *)
Definition cells (clarity calm routine stability : string) : list string :=
  [ "2024-01-01"; clarity; calm; routine; stability; "7"; "4"; "30"; "1"; "60";
    "1"; "" ].

Definition one_row (clarity calm routine stability : string) : file :=
  [ REQUIRED_COLUMNS; cells clarity calm routine stability ].

(** The sample row, its stability filled in, with another cell for
    exercise_minutes. *)
Definition exercise_cells (exercise_minutes : string) : list string :=
  [ "2024-01-01"; "8"; "7"; "9"; "8.0"; "7"; "4"; exercise_minutes; "1"; "60";
    "1"; "" ].

(** ** Reading back what was written *)

(** The text of a row under a column, as write-back writes it. *)
Definition cell (r : Row) (col : string) : string := write_cell (get r col).

(** The row the reader yields for the record that write-back wrote for [r]. *)
Definition reread (r : Row) : Row := make_row REQUIRED_COLUMNS (out_row r).

(** ** Characters *)

(** A character with all the bytes that its first byte announces. *)
Definition complete (ch : list ascii) : Prop :=
  match ch with
  | b :: t => length t = (Text.sequence_length b - 1)%nat
  | [] => False
  end.

(** A character that the end of the string may have cut short. *)
Definition partial (ch : list ascii) : Prop :=
  match ch with
  | b :: t => (length t ≤ Text.sequence_length b - 1)%nat
  | [] => False
  end.

(** The shape of what [Text.chars] gives: complete characters, the last one
    possibly cut short. *)
Fixpoint well_formed (cs : list (list ascii)) : Prop :=
  match cs with
  | [] => True
  | ch :: cs' =>
      match cs' with
      | [] => partial ch
      | _ :: _ => complete ch ∧ well_formed cs'
      end
  end.

(** The text has one digit after the point, and before it an integer with
    at least one digit. *)
Definition one_decimal (s : string) : bool :=
  let l := list_ascii_of_string s in
  let digits :=
    match l with
    | c :: r => if Float.is_char c "-" then r else l
    | [] => l
    end in
  match Float.span_digits digits with
  | (_ :: _, [p; d]) => Float.is_char p "." && Text.isdigit d
  | _ => false
  end.

(** The value that [float] reads from the text of [k] tenths. *)
Definition tenth (k : Z) : Float.float := Float.of_decimal false k (-1).

(** The pairs of a stability and a computed stability, both between 0.0 and
    10.0, that are one tenth apart. *)
Definition one_tenth_pairs : list (Float.float * Float.float) :=
  List.app
    (map (λ k, (tenth (Z.of_nat k + 1), tenth (Z.of_nat k))) (seq 0 100))
    (map (λ k, (tenth (Z.of_nat k - 1), tenth (Z.of_nat k))) (seq 1 100)).

(** The test of the comparison on an existing and a computed stability. *)
Definition reported (p : Float.float * Float.float) : bool :=
  Float.gtb (Float.abs (Float.sub p.1 p.2)) (lit "0.1").

(** [lo <= v <= hi]: the value is in the inclusive range. *)
Definition within (v lo hi : Float.float) : bool :=
  Float.leb lo v && Float.leb v hi.

(** An ASCII byte that is no white space. *)
Definition plain (b : ascii) : bool :=
  (Text.code b <? 128) && negb (Text.space [b]).

(** ** The command line *)

(** What a path names: a regular file, given by the records that
    [csv.reader] splits it in, or a directory. *)
Inductive Node :=
  | Regular (f : file)
  | Directory.

(** [csv.field_size_limit()]: the characters that a cell may have. *)
Definition FIELD_LIMIT : Z := 131072.

(** The cell can be read: its bytes decode as UTF-8 and it is no longer than
    the limit of [csv.reader]. *)
Definition cell_is_read (c : string) : bool :=
  Text.utf8 (list_ascii_of_string c)
  && (Z.of_nat (length (Text.chars (list_ascii_of_string c))) <=? FIELD_LIMIT).

(** Reading the file raises no exception ([UnicodeDecodeError] from the
    decoder, [csv.Error] from the reader). *)
Definition is_read (f : file) : bool := forallb (forallb cell_is_read) f.

(** What a run of [main] leaves: the lines printed on the standard output,
    the exit code, whether the run ended with an exception that nothing
    catches (the interpreter then prints the traceback on the standard error
    and exits with code 1), and the files. *)
Record Outcome := {
  stdout : list string;
  exit_code : Z;
  raised : bool;
  files : gmap string Node
}.

(** A run that an exception ends inside [validate_csv], while the file is
    opened or read: nothing was printed and nothing was written. *)
Definition uncaught (fs : gmap string Node) : Outcome :=
  {| stdout := []; exit_code := 1; raised := true; files := fs |}.

(** The line printed for an issue. *)
Definition issue_line (issue : Issue) : string :=
  if row_number issue =? 0 then "[HEADER] " ++ message issue
  else "[Line " ++ Text.of_Z (row_number issue) ++ "] " ++ column issue ++ ": "
       ++ message issue.

Section Main.

(** [pathlib] is not modelled: [expanduser arg] is the text of
    [Path(arg).expanduser()], which names the file. *)
Variable expanduser : string → string.

(** [main()] with [sys.argv = argv], on the files and directories [fs], named
    by the text of their paths; the files can be opened for reading and
    for writing.  [Path.exists] holds of the paths in [fs]; opening a
    directory raises [IsADirectoryError]. *)
Definition main (argv : list string) (fs : gmap string Node) : Outcome :=
  match argv with
  | _ :: arg :: options =>
      let csv_path := expanduser arg in
      let write_back := bool_decide ("--write" ∈ options) in
      match fs !! csv_path with
      | None =>
          {| stdout := [ "File not found: " ++ csv_path ];
             exit_code := 2; raised := false; files := fs |}
      | Some Directory => uncaught fs
      | Some (Regular f) =>
          if negb (is_read f) then uncaught fs
          else
          let result := validate_csv f write_back in
          let issues := result.1.1 in
          let row_count := result.1.2 in
          let fs' := <[csv_path := Regular result.2]> fs in
          let checked := [ "Checked: " ++ csv_path;
                           "Rows: " ++ Text.of_Z row_count ] in
          match issues with
          | [] =>
              {| stdout :=
                   List.app checked
                     (List.app [ "✅ No issues found." ]
                        (if write_back then
                           [ "✅ Wrote back computed stability values (if any were missing)." ]
                         else []));
                 exit_code := 0; raised := false; files := fs' |}
          | _ =>
              {| stdout :=
                   List.app checked
                     (("⚠️ Issues: " ++ Text.of_Z (Z.of_nat (length issues)))
                      :: map issue_line issues);
                 exit_code := 1; raised := false; files := fs' |}
          end
      end
  | _ =>
      {| stdout :=
           [ "Usage: python scripts/validate_and_compute_stability.py <path-to-csv> [--write]";
             "Example: python scripts/validate_and_compute_stability.py data/raw/habits.csv --write" ];
         exit_code := 2; raised := false; files := fs |}
  end.

End Main.

(** The line that confirms a write-back. *)
Definition wrote_back_line : string :=
  "✅ Wrote back computed stability values (if any were missing).".

(** The path names something that cannot be read as a CSV file. *)
Definition unreadable (node : Node) : Prop :=
  match node with
  | Directory => True
  | Regular f => is_read f = false
  end.

(** A directory of one file, for the examples. *)
Definition sample_files : gmap string Node :=
  {[ "habits.csv" := Regular sample ]}.

(** ** A file without issues *)



(** ** Records of another length than the header *)

(** A record cut or padded with empty cells to [n] cells; an empty record
    stays empty. *)
Definition fit (n : nat) (record : list string) : list string :=
  match record with
  | [] => []
  | _ => take n (record ++ replicate n "")
  end.

(** The fields of a row, built cell by cell along the header: a name that has
    a cell gets it, a name that has none gets [None]. *)
Fixpoint fill (fieldnames cells : list string) (d : gmap string (option string))
  : gmap string (option string) :=
  match fieldnames, cells with
  | [], _ => d
  | key :: fieldnames', x :: cells' => fill fieldnames' cells' (<[key := Some x]> d)
  | key :: fieldnames', [] => fill fieldnames' [] (<[key := None]> d)
  end.

(** The text that the loop and the write-back see under [col] in the fields
    [d]. *)
Definition shown (d : gmap string (option string)) (col : string) : string :=
  write_cell (default (Some "") (d !! col)).

(** * Properties *)

(** ** Lists *)

Section Filter.
Context {A : Type} (P : A → Prop) `{!∀ x, Decision (P x)}.

Lemma filter_all (l : list A) : Forall P l → filter P l = l.
Proof.
  induction 1 as [|x l Hx _ IH]; [done|].
  by rewrite filter_cons_True, IH.
Qed.

Lemma filter_none (l : list A) : Forall (λ x, ¬ P x) l → filter P l = [].
Proof.
  induction 1 as [|x l Hx _ IH]; [done|].
  by rewrite filter_cons_False.
Qed.

End Filter.

Section Column.
Variables (idx : Z) (rc : Row).

Lemma check_column_value col lo hi :
  (check_column idx rc col lo hi).2
  = if _is_blank (get rc col) then None else _to_float (get rc col).
Proof.
  unfold check_column.
  destruct (_is_blank (get rc col)); [done|].
  by destruct (_to_float (get rc col)).
Qed.

Lemma check_column_issues col lo hi :
  (check_column idx rc col lo hi).1
  = if _is_blank (get rc col) then []
    else match _to_float (get rc col) with
         | None => [not_a_number idx col (get rc col)]
         | Some v =>
             List.app
               (if Float.ltb v lo || Float.gtb v hi
                then [out_of_range idx col lo hi v] else [])
               (if bool_decide (col ∈ INT_FIELDS) && negb (Float.is_integer v)
                then [expected_integer idx col v] else [])
         end.
Proof.
  unfold check_column.
  destruct (_is_blank (get rc col)); [done|].
  by destruct (_to_float (get rc col)).
Qed.

Lemma check_column_where col lo hi :
  Forall (λ x, row_number x = idx ∧ column x = col) (check_column idx rc col lo hi).1.
Proof.
  rewrite check_column_issues.
  destruct (_is_blank (get rc col)); [constructor|].
  destruct (_to_float (get rc col)) as [v|]; [|by repeat constructor].
  apply Forall_app; split.
  - destruct (_ || _); by repeat constructor.
  - destruct (_ && _); by repeat constructor.
Qed.

(** The loop over an association list of ranges. *)
Lemma numeric_fold_issues l acc :
  (fold_left (numeric_step idx rc) l acc).1
  = List.app acc.1
      (flat_map (λ item, (check_column idx rc item.1 item.2.1 item.2.2).1) l).
Proof.
  revert acc. induction l as [|[col [lo hi]] l IH]; intros acc; simpl.
  - by rewrite app_nil_r.
  - rewrite IH. unfold numeric_step.
    destruct (check_column idx rc col lo hi) as [new v]; simpl.
    by rewrite <- app_assoc.
Qed.

Lemma numeric_fold_other l acc col :
  col ∉ l.*1 →
  (fold_left (numeric_step idx rc) l acc).2 !! col = acc.2 !! col.
Proof.
  revert acc. induction l as [|[c [lo hi]] l IH]; intros acc Hnot; simpl; [done|].
  rewrite fmap_cons in Hnot. apply not_elem_of_cons in Hnot as [Hne Hnot].
  rewrite IH by done. unfold numeric_step.
  destruct (check_column idx rc c lo hi) as [new v]; simpl.
  by rewrite lookup_insert_ne.
Qed.

Lemma numeric_fold_value l acc col lo hi :
  NoDup l.*1 → (col, (lo, hi)) ∈ l →
  (fold_left (numeric_step idx rc) l acc).2 !! col
  = Some (check_column idx rc col lo hi).2.
Proof.
  revert acc. induction l as [|[c [lo' hi']] l IH]; intros acc Hnd Hin; simpl.
  - by apply elem_of_nil in Hin.
  - rewrite fmap_cons in Hnd. apply NoDup_cons in Hnd as [Hc Hnd].
    apply elem_of_cons in Hin as [Heq|Hin].
    + inversion Heq; subst c lo' hi'.
      rewrite numeric_fold_other by done. unfold numeric_step.
      destruct (check_column idx rc col lo hi) as [new v]; simpl.
      by rewrite lookup_insert_eq.
    + by apply IH.
Qed.

Lemma numeric_fold_off l col :
  col ∉ l.*1 →
  filter (λ x, column x = col)
    (flat_map (λ item, (check_column idx rc item.1 item.2.1 item.2.2).1) l) = [].
Proof.
  induction l as [|[c [lo hi]] l IH]; intros Hnot; simpl; [done|].
  rewrite fmap_cons in Hnot. apply not_elem_of_cons in Hnot as [Hne Hk].
  rewrite filter_app, IH by done. rewrite app_nil_r.
  apply filter_none. eapply Forall_impl; [apply check_column_where|].
  intros x [_ Hx] Hcol; simpl in *; congruence.
Qed.

Lemma numeric_fold_on l col lo hi :
  NoDup l.*1 → (col, (lo, hi)) ∈ l →
  filter (λ x, column x = col)
    (flat_map (λ item, (check_column idx rc item.1 item.2.1 item.2.2).1) l)
  = (check_column idx rc col lo hi).1.
Proof.
  intros Hnd Hin.
  induction l as [|[c [lo' hi']] l IH]; simpl.
  - by apply elem_of_nil in Hin.
  - rewrite fmap_cons in Hnd. apply NoDup_cons in Hnd as [Hc Hnd].
    rewrite filter_app.
    apply elem_of_cons in Hin as [Heq|Hin].
    + inversion Heq; subst c lo' hi'. rewrite numeric_fold_off by done.
      rewrite app_nil_r. apply filter_all.
      eapply Forall_impl; [apply check_column_where|]. by intros x [_ Hx].
    + rewrite IH by done.
      assert (c ≠ col).
      { intros ->. apply Hc. apply list_elem_of_fmap. by exists (col, (lo, hi)). }
      rewrite filter_none; [done|].
      eapply Forall_impl; [apply check_column_where|].
      intros x [_ Hx] Hcol; simpl in *; congruence.
Qed.

End Column.

Lemma RANGES_NoDup : NoDup RANGES.*1.
Proof. apply (bool_decide_unpack _). by vm_compute. Qed.

Lemma RANGES_not_date : "date" ∉ RANGES.*1.
Proof. apply (bool_decide_unpack _). by vm_compute. Qed.

Section Row.
Variables (idx : Z) (row : Row).

Lemma numeric_checks_issues :
  (numeric_checks idx (clean row)).1
  = flat_map (λ item, (check_column idx (clean row) item.1 item.2.1 item.2.2).1) RANGES.
Proof. unfold numeric_checks. by rewrite numeric_fold_issues. Qed.

Lemma numeric_checks_value col lo hi :
  (col, (lo, hi)) ∈ RANGES →
  numeric_get (numeric_checks idx (clean row)).2 col = numeric_value row col.
Proof.
  intros Hin. unfold numeric_get, numeric_checks.
  rewrite (numeric_fold_value _ _ _ _ _ lo hi RANGES_NoDup Hin).
  apply check_column_value.
Qed.

Lemma date_checks_seen seen :
  (date_checks idx (clean row) seen).2 = see seen row.
Proof.
  unfold date_checks, see, date_of. by destruct (_is_blank _).
Qed.

Lemma date_checks_issues seen :
  (date_checks idx (clean row) seen).1
  = if _is_blank (date_of row) then
      [ {| row_number := idx; column := "date"; message := "Missing date" |} ]
    else if bool_decide (date_of row ∈ seen) then
      [ {| row_number := idx; column := "date";
           message := "Duplicate date: " ++ py_str (date_of row) |} ]
    else [].
Proof.
  unfold date_checks, date_of. by destruct (_is_blank _).
Qed.

Lemma date_checks_where seen :
  Forall (λ x, row_number x = idx ∧ column x = "date")
    (date_checks idx (clean row) seen).1.
Proof.
  rewrite date_checks_issues.
  destruct (_is_blank _); [by repeat constructor|].
  destruct (bool_decide _); by repeat constructor.
Qed.

Lemma stability_checks_where nv rc :
  Forall (λ x, row_number x = idx ∧ column x = "stability")
    (stability_checks idx nv rc).1.
Proof.
  unfold stability_checks.
  repeat (match goal with |- context [match ?x with _ => _ end] => destruct x end);
    by repeat constructor.
Qed.

Lemma numeric_checks_where :
  Forall (λ x, row_number x = idx) (numeric_checks idx (clean row)).1.
Proof.
  rewrite numeric_checks_issues. generalize RANGES.
  induction l as [|[c [lo hi]] l IH]; simpl; [constructor|].
  apply Forall_app; split; [|done].
  eapply Forall_impl; [apply check_column_where|]. by intros x [? _].
Qed.

Lemma row_issues_where seen :
  Forall (λ x, row_number x = idx) (row_issues idx row seen).
Proof.
  unfold row_issues. rewrite !Forall_app. split_and!.
  - eapply Forall_impl; [apply date_checks_where|]. by intros x [? _].
  - apply numeric_checks_where.
  - eapply Forall_impl; [apply stability_checks_where|]. by intros x [? _].
Qed.

(** The issues of a row on the column of the dates. *)
Lemma row_issues_on_date seen :
  filter (λ x, column x = "date") (row_issues idx row seen)
  = (date_checks idx (clean row) seen).1.
Proof.
  unfold row_issues. rewrite !filter_app.
  rewrite numeric_checks_issues, (numeric_fold_off _ _ _ _ RANGES_not_date).
  rewrite (filter_none _ (stability_checks _ _ _).1).
  - rewrite !app_nil_r. apply filter_all.
    eapply Forall_impl; [apply date_checks_where|]. by intros x [_ ?].
  - eapply Forall_impl; [apply stability_checks_where|].
    intros x [_ Hx] Hcol; simpl in *; congruence.
Qed.

(** The issues of a row on a numeric column. *)
Lemma row_issues_on_numeric seen col lo hi :
  (col, (lo, hi)) ∈ RANGES →
  filter (λ x, column x = col) (row_issues idx row seen)
  = List.app (check_column idx (clean row) col lo hi).1
      (filter (λ x, column x = col)
         (stability_checks idx (numeric_checks idx (clean row)).2 (clean row)).1).
Proof.
  intros Hin. unfold row_issues. rewrite !filter_app.
  rewrite numeric_checks_issues, (numeric_fold_on _ _ _ _ lo hi RANGES_NoDup Hin).
  rewrite filter_none; [done|].
  eapply Forall_impl; [apply date_checks_where|].
  intros x [_ Hx] Hcol; simpl in *.
  apply RANGES_not_date. apply list_elem_of_fmap. exists (col, (lo, hi)).
  split; [|done]. simpl. congruence.
Qed.

End Row.

(** *** The loop *)

Lemma loop_issues rows : ∀ idx st,
  issues (loop idx rows st)
  = List.app (issues st) (all_row_issues idx rows (seen_dates st)).
Proof.
  induction rows as [|row rows IH]; intros idx st; simpl.
  - by rewrite app_nil_r.
  - rewrite IH. simpl. by rewrite <- app_assoc.
Qed.

Lemma loop_rows_out rows : ∀ idx st,
  rows_out (loop idx rows st) = List.app (rows_out st) (cleaned_from idx rows).
Proof.
  induction rows as [|row rows IH]; intros idx st; simpl.
  - by rewrite app_nil_r.
  - rewrite IH. simpl. by rewrite <- app_assoc.
Qed.

Lemma loop_valid_rows rows : ∀ idx st,
  valid_rows (loop idx rows st) = valid_rows st + Z.of_nat (length rows).
Proof.
  induction rows as [|row rows IH]; intros idx st; simpl length.
  - simpl. lia.
  - simpl loop. rewrite IH. simpl. lia.
Qed.

Lemma cleaned_from_length rows : ∀ idx, length (cleaned_from idx rows) = length rows.
Proof. induction rows as [|row rows IH]; intros idx; simpl; [done|]. by rewrite IH. Qed.

Lemma cleaned_from_lookup rows : ∀ idx (i : nat) row,
  rows !! i = Some row →
  cleaned_from idx rows !! i = Some (row_cleaned (idx + Z.of_nat i) row).
Proof.
  induction rows as [|r rows IH]; intros idx i row Hi; [done|].
  destruct i as [|i]; simpl in *.
  - inversion Hi; subst. by rewrite Z.add_0_r.
  - rewrite (IH _ _ _ Hi). do 2 f_equal. lia.
Qed.

Lemma all_row_issues_numbers rows : ∀ idx seen,
  Forall (λ x, idx ≤ row_number x) (all_row_issues idx rows seen).
Proof.
  induction rows as [|row rows IH]; intros idx seen; simpl; [constructor|].
  apply Forall_app; split.
  - eapply Forall_impl; [apply row_issues_where|]. simpl. lia.
  - eapply Forall_impl; [apply IH|]. simpl. lia.
Qed.

Lemma all_row_issues_at rows : ∀ idx seen (i : nat) row,
  rows !! i = Some row →
  filter (λ x, row_number x = idx + Z.of_nat i) (all_row_issues idx rows seen)
  = row_issues (idx + Z.of_nat i) row (seen_after seen (take i rows)).
Proof.
  induction rows as [|r rows IH]; intros idx seen i row Hi; [done|].
  simpl all_row_issues. rewrite filter_app.
  destruct i as [|i]; simpl in Hi.
  - inversion Hi; subst r. simpl. rewrite Z.add_0_r.
    rewrite (filter_all _ _ (row_issues_where _ _ _)).
    rewrite filter_none; [by rewrite app_nil_r|].
    eapply Forall_impl; [apply all_row_issues_numbers|]. simpl. lia.
  - rewrite filter_none.
    + simpl. rewrite date_checks_seen.
      replace (idx + Z.of_nat (S i)) with (idx + 1 + Z.of_nat i) by lia.
      by apply IH.
    + eapply Forall_impl; [apply row_issues_where|]. simpl. lia.
Qed.

Lemma elem_of_seen_after rows : ∀ seen d,
  d ∈ seen_after seen rows
  ↔ d ∈ seen ∨ (_is_blank d = false ∧ ∃ row, row ∈ rows ∧ date_of row = d).
Proof.
  unfold seen_after.
  induction rows as [|r rows IH]; intros seen d; simpl.
  - split; [by left|]. intros [?|[_ (row & Hin & _)]]; [done|].
    by apply elem_of_nil in Hin.
  - rewrite IH. unfold see. split.
    + intros [Hd|[Hb (row & Hin & Hrow)]].
      * destruct (_is_blank (date_of r)) eqn:Hr; [by left|].
        apply elem_of_union in Hd as [Hd|Hd]; [|by left].
        apply elem_of_singleton in Hd. subst d. right. split; [done|].
        exists r. split; [by left|done].
      * right. split; [done|]. exists row. split; [by right|done].
    + intros [Hd|[Hb (row & Hin & Hrow)]].
      * left. destruct (_is_blank (date_of r)); [done|].
        apply elem_of_union. by right.
      * apply elem_of_cons in Hin as [->|Hin].
        -- left. rewrite Hrow, Hb. apply elem_of_union. left.
           by apply elem_of_singleton.
        -- right. split; [done|]. by exists row.
Qed.

(** *** Stripping *)

Section Strip.
Context {A : Type} (sp : A → bool).

Lemma lstrip_with_split l : ∃ k, l = (k ++ Text.lstrip_with sp l)%list.
Proof.
  induction l as [|c l [k IH]]; simpl.
  - by exists [].
  - destruct (sp c); [|by exists []].
    exists (c :: k). simpl. by rewrite <- IH.
Qed.

Lemma lstrip_with_head l c r : Text.lstrip_with sp l = c :: r → sp c = false.
Proof.
  induction l as [|d l IH]; simpl; [done|].
  destruct (sp d) eqn:Hd; [done|]. intros Heq. by inversion Heq; subst.
Qed.

Lemma lstrip_with_fixed l :
  match l with c :: _ => sp c = false | [] => True end →
  Text.lstrip_with sp l = l.
Proof. destruct l as [|c l]; simpl; [done|]. by intros ->. Qed.

Lemma strip_with_split l : ∃ k1 k2, l = (k1 ++ Text.strip_with sp l ++ k2)%list.
Proof.
  unfold Text.strip_with.
  destruct (lstrip_with_split l) as [k1 Hk1].
  destruct (lstrip_with_split (rev (Text.lstrip_with sp l))) as [k2 Hk2].
  exists k1, (rev k2). rewrite <- rev_app_distr, <- Hk2, rev_involutive.
  exact Hk1.
Qed.

Lemma strip_with_idemp l :
  Text.strip_with sp (Text.strip_with sp l) = Text.strip_with sp l.
Proof.
  unfold Text.strip_with.
  set (m := Text.lstrip_with sp l).
  set (n := Text.lstrip_with sp (rev m)).
  assert (Hn : Text.lstrip_with sp n = n).
  { apply lstrip_with_fixed. destruct n as [|c n'] eqn:Hn; [done|].
    by apply (lstrip_with_head (rev m) c n'). }
  assert (Hr : Text.lstrip_with sp (rev n) = rev n).
  { apply lstrip_with_fixed. destruct (rev n) as [|c r] eqn:Hrev; [done|].
    destruct (lstrip_with_split (rev m)) as [k Hk]. fold n in Hk.
    apply (f_equal (@rev A)) in Hk.
    rewrite rev_involutive, rev_app_distr, Hrev in Hk. simpl in Hk.
    by apply (lstrip_with_head l c (r ++ rev k)%list). }
  by rewrite Hr, rev_involutive, Hn.
Qed.

End Strip.

(** *** Characters *)

Lemma chars_of_nil fuel : Text.chars_of fuel [] = [].
Proof. by destruct fuel. Qed.

Lemma complete_partial ch : complete ch → partial ch.
Proof. destruct ch as [|b t]; simpl; [done|]. intros ->. done. Qed.

Lemma well_formed_tail ch cs : well_formed (ch :: cs) → well_formed cs.
Proof. destruct cs as [|c cs]; [done|]. by intros [_ H]. Qed.

Lemma well_formed_suffix k cs : well_formed (k ++ cs)%list → well_formed cs.
Proof.
  induction k as [|c k IH]; [done|]. intros H. apply IH.
  by apply (well_formed_tail c).
Qed.

Lemma well_formed_prefix cs k : well_formed (cs ++ k)%list → well_formed cs.
Proof.
  induction cs as [|c cs IH]; [done|].
  destruct cs as [|c2 cs].
  - simpl. destruct k as [|d k]; [done|]. intros [H _]. by apply complete_partial.
  - intros [Hc Hw]. split; [done|]. by apply IH.
Qed.

Lemma well_formed_strip (sp : list ascii → bool) cs :
  well_formed cs → well_formed (Text.strip_with sp cs).
Proof.
  intros Hw. destruct (strip_with_split sp cs) as (k1 & k2 & Hk).
  rewrite Hk in Hw. by apply well_formed_suffix, well_formed_prefix in Hw.
Qed.

Lemma chars_of_well_formed fuel l : well_formed (Text.chars_of fuel l).
Proof.
  revert l. induction fuel as [|fuel IH]; intros [|b l]; try done.
  cbn [Text.chars_of].
  pose proof (IH (drop (Text.sequence_length b - 1) l)) as Hw.
  destruct (Text.chars_of fuel (drop (Text.sequence_length b - 1) l))
    as [|c cs] eqn:Hrest.
  - simpl. rewrite length_take. lia.
  - split; [|done]. simpl. rewrite length_take.
    destruct (drop (Text.sequence_length b - 1) l) as [|d r] eqn:Hdrop.
    + by rewrite chars_of_nil in Hrest.
    + apply (f_equal (@length ascii)) in Hdrop.
      rewrite length_drop in Hdrop. simpl in Hdrop. lia.
Qed.

Lemma concat_chars_of fuel l :
  (length l ≤ fuel)%nat → List.concat (Text.chars_of fuel l) = l.
Proof.
  revert l. induction fuel as [|fuel IH]; intros [|b l] Hlen; try done.
  { simpl in Hlen. lia. }
  cbn [Text.chars_of List.concat]. rewrite IH.
  - simpl. by rewrite take_drop.
  - rewrite length_drop. simpl in Hlen. lia.
Qed.

Lemma chars_of_concat cs fuel :
  well_formed cs → (length (List.concat cs) ≤ fuel)%nat →
  Text.chars_of fuel (List.concat cs) = cs.
Proof.
  revert fuel. induction cs as [|ch cs IH]; intros fuel Hw Hlen.
  { apply chars_of_nil. }
  destruct ch as [|b t].
  { destruct cs; [done|]. by destruct Hw. }
  cbn [List.concat] in *. simpl app in *.
  destruct fuel as [|fuel]; [simpl in Hlen; lia|].
  cbn [Text.chars_of].
  destruct cs as [|c cs].
  - simpl in Hw. simpl List.concat. rewrite app_nil_r.
    rewrite take_ge by lia. rewrite drop_ge by lia.
    by rewrite chars_of_nil.
  - destruct Hw as [Hc Hw]. simpl in Hc.
    rewrite <- Hc, take_app_length, drop_app_length.
    rewrite IH; [done|done|].
    simpl in Hlen. rewrite length_app in Hlen.
    change (c ++ List.concat cs)%list with (List.concat (c :: cs)) in Hlen. lia.
Qed.

Lemma chars_concat cs : well_formed cs → Text.chars (List.concat cs) = cs.
Proof. intros Hw. by apply chars_of_concat. Qed.

Lemma concat_chars l : List.concat (Text.chars l) = l.
Proof. by apply concat_chars_of. Qed.

Lemma well_formed_concat_nil cs :
  well_formed cs → List.concat cs = [] → cs = [].
Proof.
  destruct cs as [|[|b t] cs]; [done| |done].
  destruct cs; [done|]. by intros [].
Qed.

Lemma strip_idemp s : Text.strip (Text.strip s) = Text.strip s.
Proof.
  unfold Text.strip.
  rewrite list_ascii_of_string_of_list_ascii, chars_concat.
  - by rewrite strip_with_idemp.
  - apply well_formed_strip, chars_of_well_formed.
Qed.

Lemma is_blank_strip_value v : _is_blank (strip_value v) = _is_blank v.
Proof. destruct v as [s|]; simpl; [|done]. by rewrite strip_idemp. Qed.

Lemma get_clean row col : get (clean row) col = strip_value (get row col).
Proof.
  unfold get, clean. simpl. rewrite lookup_fmap.
  by destruct (fields row !! col).
Qed.

(** *** The whole pass *)

Lemma header_issues_where header :
  Forall (λ x, row_number x = 0 ∧ column x = "header") (header_issues header).
Proof.
  unfold header_issues. apply Forall_forall. intros x Hx.
  apply list_elem_of_fmap in Hx as (msg & -> & _). done.
Qed.

Lemma validate_csv_with_header header records wb :
  validate_csv (header :: records) wb
  = ((List.app (header_issues header)
        (all_row_issues 2 (rows (header :: records)) ∅),
      Z.of_nat (length (rows (header :: records)))),
     if wb then REQUIRED_COLUMNS :: map out_row (cleaned_from 2 (rows (header :: records)))
     else header :: records).
Proof.
  unfold validate_csv, read_pass. simpl fieldnames. cbv iota.
  by rewrite loop_issues, loop_valid_rows, loop_rows_out.
Qed.

Lemma issues_at_line header records wb i row :
  rows (header :: records) !! i = Some row →
  issues_at (line i) (validate_csv (header :: records) wb).1.1
  = row_issues (line i) row (seen_after ∅ (take i (rows (header :: records)))).
Proof.
  intros Hi. rewrite validate_csv_with_header. unfold issues_at, line. simpl fst.
  rewrite filter_app, filter_none.
  - by apply all_row_issues_at.
  - eapply Forall_impl; [apply header_issues_where|]. simpl. lia.
Qed.

Lemma rows_out_line header records i row :
  rows (header :: records) !! i = Some row →
  rows_out (read_pass header (header :: records)) !! i
  = Some (row_cleaned (line i) row).
Proof.
  intros Hi. unfold read_pass. rewrite loop_rows_out. simpl.
  by apply cleaned_from_lookup.
Qed.

(** ** The file without a header *)

(** C8. A file with no header row at all is the empty file; on it
    [validate_csv] returns the single issue [Issue(0, "", "CSV has no header
    row")] and the row count 0, and does nothing else: the file is left as it
    is, also when write-back is requested. *)
Theorem no_header_row f wb :
  fieldnames f = None →
  f = []
  ∧ validate_csv f wb
    = (([ {| row_number := 0; column := ""; message := "CSV has no header row" |} ],
        0), f).
Proof.
  intros Hf. split.
  - by destruct f.
  - unfold validate_csv. by rewrite Hf.
Qed.

Lemma no_header_row_witness :
  fieldnames [] = None
  ∧ ([] = ([] : file)
     ∧ validate_csv [] true
       = (([ {| row_number := 0; column := ""; message := "CSV has no header row" |} ],
           0), [])).
Proof. split; [reflexivity | apply (no_header_row [] true); reflexivity]. Defined.

(** ** Rows are never skipped *)

(** C9. For a file with a header, the rows are the records after the header
    that are not empty; each of them appends exactly one cleaned row to
    [rows_out], at its own position, and adds one to the row count, whatever
    the state of the loop, hence whatever issues were raised. *)
Theorem every_row_is_cleaned_and_counted header records wb i row :
  rows (header :: records) !! i = Some row →
  (validate_csv (header :: records) wb).1.2
    = Z.of_nat (length (rows (header :: records)))
  ∧ length (rows (header :: records))
    = length (List.filter (fun r => negb (is_empty_record r)) records)
  ∧ length (rows_out (read_pass header (header :: records)))
    = length (rows (header :: records))
  ∧ rows_out (read_pass header (header :: records)) !! i
    = Some (row_cleaned (line i) row)
  ∧ (∀ idx st,
       valid_rows (row_body idx row st) = valid_rows st + 1
       ∧ rows_out (row_body idx row st)
         = List.app (rows_out st) [row_cleaned idx row]).
Proof.
  intros Hi. split_and!.
  - by rewrite validate_csv_with_header.
  - simpl. by rewrite length_map.
  - unfold read_pass. rewrite loop_rows_out. simpl.
    by rewrite cleaned_from_length, length_map.
  - by apply rows_out_line.
  - done.
Qed.

Lemma every_row_is_cleaned_and_counted_witness :
  rows sample !! 0%nat = Some sample_row
  ∧ (validate_csv sample false).1.2 = Z.of_nat (length (rows sample))
  ∧ length (rows sample)
    = length (List.filter (fun r => negb (is_empty_record r)) [sample_cells])
  ∧ length (rows_out (read_pass REQUIRED_COLUMNS sample)) = length (rows sample)
  ∧ rows_out (read_pass REQUIRED_COLUMNS sample) !! 0%nat
    = Some (row_cleaned (line 0) sample_row)
  ∧ (∀ idx st,
       valid_rows (row_body idx sample_row st) = valid_rows st + 1
       ∧ rows_out (row_body idx sample_row st)
         = List.app (rows_out st) [row_cleaned idx sample_row]).
Proof.
  split; [reflexivity|].
  apply (every_row_is_cleaned_and_counted REQUIRED_COLUMNS [sample_cells] false 0
           sample_row).
  reflexivity.
Defined.

(** ** Write-back *)

Lemma out_row_length r : length (out_row r) = 12%nat.
Proof. unfold out_row. by rewrite length_map. Qed.

Lemma out_row_lookup r (k : nat) c :
  REQUIRED_COLUMNS !! k = Some c → out_row r !! k = Some (write_cell (get r c)).
Proof. intros Hk. unfold out_row. by rewrite list_lookup_fmap, Hk. Qed.

(** C7, as stated, fails on the empty file: nothing is written although
    write-back is requested; the file stays empty and holds no header of
    twelve columns. *)
Lemma write_back_skipped_without_header :
  (validate_csv [] true).2 = []
  ∧ ¬ ∃ written, (validate_csv [] true).2 = REQUIRED_COLUMNS :: written.
Proof. split; [reflexivity|]. intros [written Hw]. discriminate Hw. Qed.

(** C7, amended. When write-back is enabled and the file has a header row,
    the file becomes the record of the twelve required columns, in their
    fixed order, followed by one record of twelve cells for each cleaned row,
    in order (none for a file that has only its header); the cell under a
    required column is the value of the row there, and the empty string when
    the row has no such key or holds [None] there; the other keys of the row
    are not written.  This holds for every file with a header, whatever
    issues were found.  Without write-back the file is left as it is. *)
Theorem write_back_with_header header records :
  (validate_csv (header :: records) true).2
    = REQUIRED_COLUMNS
      :: map out_row (rows_out (read_pass header (header :: records)))
  ∧ length (validate_csv (header :: records) true).2
    = S (length (rows (header :: records)))
  ∧ Forall (λ r, length r = 12%nat) (validate_csv (header :: records) true).2
  ∧ (validate_csv (header :: records) true).2 !! 0%nat = Some REQUIRED_COLUMNS
  ∧ (∀ i row, rows (header :: records) !! i = Some row →
       (validate_csv (header :: records) true).2 !! S i
       = Some (out_row (row_cleaned (line i) row)))
  ∧ (∀ r (k : nat) c, REQUIRED_COLUMNS !! k = Some c →
       out_row r !! k = Some (write_cell (get r c))
       ∧ (fields r !! c = None ∨ fields r !! c = Some None →
          out_row r !! k = Some ""))
  ∧ (∀ r r', (∀ c', c' ∈ REQUIRED_COLUMNS → fields r !! c' = fields r' !! c') →
             out_row r = out_row r')
  ∧ (validate_csv (header :: records) false).2 = header :: records.
Proof.
  assert (Hw : (validate_csv (header :: records) true).2
               = REQUIRED_COLUMNS
                 :: map out_row (rows_out (read_pass header (header :: records)))).
  { done. }
  split_and!.
  - done.
  - rewrite Hw. simpl length. unfold read_pass. rewrite length_map, loop_rows_out.
    simpl. by rewrite cleaned_from_length, length_map.
  - rewrite Hw. constructor; [done|].
    apply Forall_forall. intros r Hr.
    apply list_elem_of_fmap in Hr as (r0 & -> & _). apply out_row_length.
  - by rewrite Hw.
  - intros i row Hi. rewrite Hw. simpl. rewrite list_lookup_fmap.
    by rewrite (rows_out_line _ _ _ _ Hi).
  - intros r k c Hk. split; [by apply out_row_lookup|].
    intros Hr. rewrite (out_row_lookup _ _ _ Hk). unfold get.
    by destruct Hr as [-> | ->].
  - intros r r' Heq. unfold out_row. apply list_eq. intros j.
    rewrite !list_lookup_fmap.
    destruct (REQUIRED_COLUMNS !! j) as [c'|] eqn:Hj; [|done].
    simpl. unfold get. rewrite Heq; [done|]. by eapply list_elem_of_lookup_2.
  - by rewrite validate_csv_with_header.
Qed.

(** On the sample, and on a file that has only a header of two columns,
    which becomes the header of the twelve required columns. *)
Lemma write_back_with_header_witness :
  (validate_csv sample true).2 !! 1%nat
    = Some (out_row (row_cleaned (line 0) sample_row))
  ∧ out_row (row_cleaned (line 0) sample_row) !! 4%nat = Some "8.0"
  ∧ (validate_csv [ [ "date"; "mood" ] ] true).2 = [ REQUIRED_COLUMNS ]
  ∧ length (validate_csv [ [ "date"; "mood" ] ] true).2 = 1%nat.
Proof.
  pose proof (write_back_with_header REQUIRED_COLUMNS [sample_cells])
    as (_ & _ & _ & _ & H4 & H5 & _).
  pose proof (write_back_with_header [ "date"; "mood" ] [])
    as (H1 & H2 & _).
  split; [exact (H4 0%nat sample_row eq_refl)|].
  split.
  { destruct (H5 (row_cleaned (line 0) sample_row) 4%nat "stability" eq_refl)
      as [Hcell _].
    etransitivity; [exact Hcell|]. vm_compute. reflexivity. }
  split; [etransitivity; [exact H1|]; vm_compute; reflexivity|].
  etransitivity; [exact H2|]. vm_compute. reflexivity.
Defined.

(** A file that has only its header is rewritten too: its header becomes the
    twelve required columns, although the header issues are reported. *)
Example write_back_of_header_only :
  validate_csv [ [ "date"; "mood" ] ] true
  = (([ {| row_number := 0; column := "header";
           message := "Missing columns: ['clarity', 'calm', 'routine', 'stability', 'sleep_hours', 'sleep_quality', 'exercise_minutes', 'caffeine_units', 'social_minutes', 'stressors', 'notes']" |};
        {| row_number := 0; column := "header";
           message := "Unexpected extra columns: ['mood']" |} ], 0),
     [ REQUIRED_COLUMNS ]).
Proof. by vm_compute. Qed.

(** ** The header *)





Example header_without_date_with_mood :
  header_issues ("mood" :: tail REQUIRED_COLUMNS)
  = [ {| row_number := 0; column := "header"; message := "Missing columns: ['date']" |};
      {| row_number := 0; column := "header";
         message := "Unexpected extra columns: ['mood']" |} ].
Proof. by vm_compute. Qed.

(** Names that [repr] does not copy: a no-break space is escaped, a name with
    a single quote is shown between double quotes, and a name of letters
    outside ASCII is copied. *)
Example header_with_escapes :
  _validate_columns
    (List.app REQUIRED_COLUMNS
       [ String "194" (String "160" "x"); "it's";
         String "195" (String "169" "t" ++ String "195" (String "169" "")) ])
  = [ "Unexpected extra columns: ['\xa0x', " ++ String "034" "it's" ++ String "034" ""
      ++ ", '" ++ String "195" (String "169" "t" ++ String "195" (String "169" ""))
      ++ "']" ].
Proof. by vm_compute. Qed.

(** ** Dates *)

Lemma is_blank_date_of row : _is_blank (date_of row) = _is_blank (get row "date").
Proof. unfold date_of. by rewrite get_clean, is_blank_strip_value. Qed.

Lemma seen_before_line rows (i : nat) row :
  _is_blank (date_of row) = false →
  date_of row ∈ seen_after ∅ (take i rows) ↔ seen_earlier rows i row.
Proof.
  intros Hb. rewrite elem_of_seen_after. unfold seen_earlier. split.
  - intros [Hin|[_ (row' & Hin & Hd)]]; [by apply not_elem_of_empty in Hin|].
    apply list_elem_of_lookup in Hin as [j Hj].
    apply lookup_take_Some in Hj as [Hj Hlt]. by exists j, row'.
  - intros (j & row' & Hlt & Hj & Hd). right. split; [done|].
    exists row'. split; [|done].
    apply list_elem_of_lookup. exists j. by apply lookup_take_Some.
Qed.

(** C3. A row whose date field is blank (the key is absent, or its value is
    [None], empty or white space only, the white space being that of
    [str.strip], with the spaces of Unicode) has exactly one issue on column
    ["date"], [Issue(row, "date", "Missing date")].  A row whose stripped date
    [d] is not blank has exactly one, [Issue(row, "date", "Duplicate date: d")],
    when an earlier row of the file has the same stripped date, and none when
    no earlier row has it. *)
Theorem date_issues header records wb i row :
  rows (header :: records) !! i = Some row →
  let found := issues_on (line i) "date" (validate_csv (header :: records) wb).1.1 in
  (_is_blank (get row "date") = true →
   found = [ {| row_number := line i; column := "date"; message := "Missing date" |} ])
  ∧ (∀ d, _is_blank (get row "date") = false → date_of row = Some d →
       (seen_earlier (rows (header :: records)) i row →
        found = [ {| row_number := line i; column := "date";
                     message := "Duplicate date: " ++ d |} ])
       ∧ (¬ seen_earlier (rows (header :: records)) i row → found = [])).
Proof.
  intros Hi found.
  assert (Hf : found
    = (date_checks (line i) (clean row)
         (seen_after ∅ (take i (rows (header :: records))))).1).
  { unfold found, issues_on. rewrite (issues_at_line _ _ _ _ _ Hi).
    apply row_issues_on_date. }
  rewrite Hf, date_checks_issues, is_blank_date_of. split.
  - by intros ->.
  - intros d Hb Hd. rewrite Hb. split; intros Hs.
    + rewrite bool_decide_eq_true_2; [by rewrite Hd|].
      apply seen_before_line; [by rewrite is_blank_date_of|done].
    + rewrite bool_decide_eq_false_2; [done|]. intros Hin. apply Hs.
      apply seen_before_line; [by rewrite is_blank_date_of|done].
Qed.

Lemma date_issues_witness :
  rows dates_file !! 1%nat = Some (make_row REQUIRED_COLUMNS (dated " 2024-01-01 "))
  ∧ _is_blank (get (make_row REQUIRED_COLUMNS (dated " 2024-01-01 ")) "date") = false
  ∧ date_of (make_row REQUIRED_COLUMNS (dated " 2024-01-01 ")) = Some "2024-01-01"
  ∧ seen_earlier (rows dates_file) 1 (make_row REQUIRED_COLUMNS (dated " 2024-01-01 "))
  ∧ issues_on (line 1) "date" (validate_csv dates_file false).1.1
    = [ {| row_number := line 1; column := "date";
           message := "Duplicate date: " ++ "2024-01-01" |} ].
Proof.
  assert (Hs : seen_earlier (rows dates_file) 1
                 (make_row REQUIRED_COLUMNS (dated " 2024-01-01 "))).
  { exists 0%nat, (make_row REQUIRED_COLUMNS (dated "2024-01-01")).
    split; [lia|]. split; [reflexivity|]. vm_compute. reflexivity. }
  split; [reflexivity|]. split; [vm_compute; reflexivity|].
  split; [vm_compute; reflexivity|]. split; [exact Hs|].
  pose proof (date_issues REQUIRED_COLUMNS (tail dates_file) false 1
                (make_row REQUIRED_COLUMNS (dated " 2024-01-01 ")) eq_refl) as [_ Hd].
  apply (Hd "2024-01-01"); [vm_compute; reflexivity | vm_compute; reflexivity | exact Hs].
Defined.

Example dates_file_issues :
  (validate_csv dates_file false).1
  = ([ {| row_number := 3; column := "date"; message := "Duplicate date: 2024-01-01" |};
       {| row_number := 4; column := "date"; message := "Missing date" |} ], 3).
Proof. by vm_compute. Qed.

(** The white space is that of [str.strip]: a date after an em space
    (U+2003) is the date, and a date of one no-break space (U+00A0) is
    missing. *)
Example dates_of_unicode :
  (validate_csv
     [ REQUIRED_COLUMNS; dated "2024-01-01";
       dated (String "226" (String "128" (String "131" "2024-01-01")));
       dated (String "194" (String "160" "")) ] true)
  = (([ {| row_number := 3; column := "date"; message := "Duplicate date: 2024-01-01" |};
        {| row_number := 4; column := "date"; message := "Missing date" |} ], 3),
     [ REQUIRED_COLUMNS;
       [ "2024-01-01"; "8"; "7"; "9"; "8.0"; "7"; "4"; "30"; "1"; "60"; "1"; "" ];
       [ "2024-01-01"; "8"; "7"; "9"; "8.0"; "7"; "4"; "30"; "1"; "60"; "1"; "" ];
       [ ""; "8"; "7"; "9"; "8.0"; "7"; "4"; "30"; "1"; "60"; "1"; "" ] ]).
Proof. by vm_compute. Qed.

(** ** Numeric columns *)

Lemma RANGES_has col : col ∈ RANGES.*1 → ∃ lo hi, (col, (lo, hi)) ∈ RANGES.
Proof.
  intros Hin. apply list_elem_of_fmap in Hin as ([c [lo hi]] & -> & Hin).
  by exists lo, hi.
Qed.

Lemma RANGES_key col lo hi : (col, (lo, hi)) ∈ RANGES → col ∈ RANGES.*1.
Proof. intros Hin. apply list_elem_of_fmap. by exists (col, (lo, hi)). Qed.

Lemma numeric_values_get idx row col :
  col ∈ RANGES.*1 →
  numeric_get (numeric_checks idx (clean row)).2 col = numeric_value row col.
Proof.
  intros Hin. destruct (RANGES_has col Hin) as (lo & hi & Hr).
  by apply (numeric_checks_value idx row col lo hi).
Qed.

Lemma core_columns :
  "clarity" ∈ RANGES.*1 ∧ "calm" ∈ RANGES.*1 ∧ "routine" ∈ RANGES.*1
  ∧ "stability" ∈ RANGES.*1.
Proof. split_and!; apply (bool_decide_unpack _); by vm_compute. Qed.

Section Stability.
Variables (idx : Z) (row : Row) (a b c : Float.float).
Hypothesis Ha : numeric_value row "clarity" = Some a.
Hypothesis Hb : numeric_value row "calm" = Some b.
Hypothesis Hc : numeric_value row "routine" = Some c.

Lemma stability_checks_fill :
  numeric_value row "stability" = None →
  stability_checks idx (numeric_checks idx (clean row)).2 (clean row)
  = ([], set (clean row) "stability" (Float.format_1f (compute_stability a b c))).
Proof.
  intros He. unfold stability_checks.
  destruct core_columns as (H1 & H2 & H3 & H4).
  rewrite !numeric_values_get by done. by rewrite Ha, Hb, Hc, He.
Qed.

Lemma stability_checks_compare e :
  numeric_value row "stability" = Some e →
  stability_checks idx (numeric_checks idx (clean row)).2 (clean row)
  = (if Float.gtb (Float.abs (Float.sub e (compute_stability a b c))) (lit "0.1")
     then [mismatch idx e (compute_stability a b c)] else [],
     clean row).
Proof.
  intros He. unfold stability_checks.
  destruct core_columns as (H1 & H2 & H3 & H4).
  rewrite !numeric_values_get by done. rewrite Ha, Hb, Hc, He.
  by destruct (Float.gtb _ _).
Qed.

End Stability.

Lemma issues_on_numeric header records wb i row col lo hi :
  rows (header :: records) !! i = Some row →
  (col, (lo, hi)) ∈ RANGES →
  issues_on (line i) col (validate_csv (header :: records) wb).1.1
  = List.app (check_column (line i) (clean row) col lo hi).1
      (if decide (col = "stability") then
         (stability_checks (line i) (numeric_checks (line i) (clean row)).2
            (clean row)).1
       else []).
Proof.
  intros Hi Hin. unfold issues_on. rewrite (issues_at_line _ _ _ _ _ Hi).
  rewrite (row_issues_on_numeric _ _ _ _ lo hi Hin). f_equal.
  destruct (decide (col = "stability")) as [->|Hne].
  - apply filter_all. eapply Forall_impl; [apply stability_checks_where|].
    by intros x [_ ?].
  - apply filter_none. eapply Forall_impl; [apply stability_checks_where|].
    intros x [_ Hx] Hcol; simpl in *; congruence.
Qed.

Lemma stability_range :
  ("stability", (S754_zero false, lit "10.0")) ∈ RANGES.
Proof. unfold RANGES. do 3 apply list_elem_of_further. apply list_elem_of_here. Qed.

Lemma get_set r col v : get (set r col v) col = Some v.
Proof. unfold get, set. simpl. by rewrite lookup_insert_eq. Qed.

Lemma append_assoc (s1 s2 s3 : string) : (s1 ++ s2) ++ s3 = s1 ++ (s2 ++ s3).
Proof.
  induction s1 as [|ch s1 IH]; [done|].
  change (String ch ((s1 ++ s2) ++ s3) = String ch (s1 ++ (s2 ++ s3))).
  by rewrite IH.
Qed.

(** [format(x, ".1f")] of a finite [x] ends with the point and one digit. *)
Lemma format_1f_one_decimal x :
  Float.is_finite x = true →
  ∃ whole d, Float.format_1f x = whole ++ "." ++ String d ""
             ∧ Text.isdigit d = true.
Proof.
  destruct x as [s|s| |s m e]; try done; intros _.
  - exists ((if s then "-" else "") ++ "0"), "0"%char. by destruct s.
  - set (n := Float.tenths m e).
    assert (Hd : ∃ d, Text.of_Z (n mod 10) = String d "" ∧ Text.isdigit d = true).
    { pose proof (Z.mod_pos_bound n 10 eq_refl) as Hn.
      assert (n mod 10 = 0 ∨ n mod 10 = 1 ∨ n mod 10 = 2 ∨ n mod 10 = 3
              ∨ n mod 10 = 4 ∨ n mod 10 = 5 ∨ n mod 10 = 6 ∨ n mod 10 = 7
              ∨ n mod 10 = 8 ∨ n mod 10 = 9) as Hcases by lia.
      repeat destruct Hcases as [-> | Hcases]; [..|rewrite Hcases];
        eexists; split; reflexivity. }
    destruct Hd as (d & Hd & Hdig).
    exists ((if s then "-" else "") ++ Text.of_Z (n / 10)), d. split; [|done].
    unfold Float.format_1f. fold n. rewrite Hd.
    by rewrite append_assoc.
Qed.

Lemma list_ascii_of_string_app s1 s2 :
  list_ascii_of_string (s1 ++ s2)
  = (list_ascii_of_string s1 ++ list_ascii_of_string s2)%list.
Proof.
  induction s1 as [|ch s1 IH]; [done|].
  change (ch :: list_ascii_of_string (s1 ++ s2)
          = ch :: (list_ascii_of_string s1 ++ list_ascii_of_string s2)%list).
  by rewrite IH.
Qed.

Lemma span_digits_app ds r :
  forallb Text.isdigit ds = true →
  match r with c :: _ => Text.isdigit c = false | [] => True end →
  Float.span_digits (ds ++ r)%list = (ds, r).
Proof.
  intros Hds Hr. induction ds as [|d ds IH]; cbn [app Float.span_digits].
  - destruct r as [|c r]; [done|]. cbn [Float.span_digits]. by rewrite Hr.
  - cbn [forallb] in Hds. apply andb_prop in Hds as [Hd Hds].
    by rewrite Hd, IH.
Qed.

Lemma unsigned_digits d :
  forallb Text.isdigit (list_ascii_of_string (NilEmpty.string_of_uint d)) = true.
Proof. induction d; try done; simpl; by rewrite IHd. Qed.

Lemma of_N_digits n :
  ∃ d ds, list_ascii_of_string (Text.of_N n) = d :: ds
          ∧ forallb Text.isdigit (d :: ds) = true.
Proof.
  unfold Text.of_N, NilZero.string_of_uint.
  destruct (N.to_uint n) as [|u|u|u|u|u|u|u|u|u|u] eqn:Hd;
    [by exists "0"%char, []|..];
    eexists _, _; (split; [reflexivity|]); cbn [forallb];
    by rewrite unsigned_digits.
Qed.

Lemma rne_div_nonneg n d : 0 ≤ n → 0 < d → 0 ≤ Float.rne_div n d.
Proof.
  intros Hn Hd. unfold Float.rne_div.
  pose proof (Z.div_pos n d Hn Hd).
  destruct (2 * (n mod d) ?= d); [destruct (Z.even _)|..]; lia.
Qed.

Lemma tenths_nonneg m e : 0 ≤ Float.tenths m e.
Proof.
  unfold Float.tenths. destruct (0 <=? e) eqn:He.
  - apply Z.leb_le in He. pose proof (Z.pow_nonneg 2 e). nia.
  - apply rne_div_nonneg; [lia|]. apply Z.pow_pos_nonneg; lia.
Qed.

(** The text of [format(x, ".1f")] has one decimal place exactly when [x] is
    finite; it is [nan], [inf] or [-inf] when it is not. *)
Lemma format_1f_decimal x :
  one_decimal (Float.format_1f x) = Float.is_finite x
  ∧ (Float.is_finite x = false → Float.format_1f x ∈ [ "nan"; "inf"; "-inf" ]).
Proof.
  destruct x as [s|s| |s m e].
  - by destruct s.
  - split; [by destruct s|]. intros _. destruct s.
    + do 2 apply list_elem_of_further. apply list_elem_of_here.
    + apply list_elem_of_further, list_elem_of_here.
  - split; [done|]. intros _. apply list_elem_of_here.
  - split; [|done]. simpl Float.is_finite.
    destruct (format_1f_one_decimal (S754_finite s m e) eq_refl)
      as (whole & d & Hfmt & Hd).
    unfold Float.format_1f in *. set (n := Float.tenths m e) in *.
    assert (Hn : 0 ≤ n / 10).
    { apply Z.div_pos; [apply tenths_nonneg|lia]. }
    assert (Hlast : ∃ d', Text.of_Z (n mod 10) = String d' ""
                          ∧ Text.isdigit d' = true).
    { pose proof (Z.mod_pos_bound n 10 eq_refl) as Hm.
      assert (n mod 10 = 0 ∨ n mod 10 = 1 ∨ n mod 10 = 2 ∨ n mod 10 = 3
              ∨ n mod 10 = 4 ∨ n mod 10 = 5 ∨ n mod 10 = 6 ∨ n mod 10 = 7
              ∨ n mod 10 = 8 ∨ n mod 10 = 9) as Hcases by lia.
      repeat destruct Hcases as [-> | Hcases]; [..|rewrite Hcases];
        eexists; split; reflexivity. }
    destruct Hlast as (d' & -> & Hd').
    unfold Text.of_Z. destruct (n / 10 <? 0) eqn:Hneg; [lia|].
    destruct (of_N_digits (Z.to_N (n / 10))) as (d0 & ds & Hds & Hall).
    unfold one_decimal.
    assert (Hl : list_ascii_of_string
                   ((if s then "-" else "") ++ Text.of_N (Z.to_N (n / 10)) ++ "."
                    ++ String d' "")
                 = ((if s then ["-"%char] else [])
                    ++ (d0 :: ds) ++ ["."%char; d'])%list).
    { rewrite !list_ascii_of_string_app, Hds. by destruct s. }
    rewrite Hl.
    assert (Hd0 : Float.is_char d0 "-" = false).
    { simpl in Hall. apply andb_prop in Hall as [H0 _].
      unfold Text.isdigit in H0. unfold Float.is_char.
      change (Text.code "-") with 45. lia. }
    assert (Hspan : Float.span_digits ((d0 :: ds) ++ ["."%char; d'])%list
                    = (d0 :: ds, ["."%char; d'])).
    { by apply span_digits_app. }
    destruct s.
    + change ((["-"%char] ++ (d0 :: ds) ++ ["."%char; d'])%list)
        with ("-"%char :: ((d0 :: ds) ++ ["."%char; d'])%list).
      cbv iota. change (Float.is_char "-" "-") with true. cbv iota.
      rewrite Hspan. by rewrite Hd'.
    + change (([] ++ (d0 :: ds) ++ ["."%char; d'])%list)
        with (d0 :: (ds ++ ["."%char; d'])%list).
      cbv iota. rewrite Hd0.
      change (d0 :: (ds ++ ["."%char; d'])%list)
        with ((d0 :: ds) ++ ["."%char; d'])%list.
      rewrite Hspan. by rewrite Hd'.
Qed.

(** ** Stability: fill *)

(** C1, as stated, fails when the computed value is not finite.  The text
    [inf] parses: clarity is numeric (and out of range), the computed
    stability is infinite and the stability written is [inf], which has no
    decimal place. *)
Lemma stability_filled_without_decimal :
  numeric_value (make_row REQUIRED_COLUMNS (cells "inf" "7" "9" "")) "clarity"
    = Some (S754_infinity false)
  ∧ numeric_value (make_row REQUIRED_COLUMNS (cells "inf" "7" "9" "")) "calm"
    = Some (lit "7")
  ∧ numeric_value (make_row REQUIRED_COLUMNS (cells "inf" "7" "9" "")) "routine"
    = Some (lit "9")
  ∧ numeric_value (make_row REQUIRED_COLUMNS (cells "inf" "7" "9" "")) "stability"
    = None
  ∧ (validate_csv (one_row "inf" "7" "9" "") true).2
    = [ REQUIRED_COLUMNS; cells "inf" "7" "9" "inf" ]
  ∧ one_decimal "inf" = false.
Proof. by vm_compute. Qed.

(** C1, amended. In a row where clarity, calm and routine have a numeric
    value (with or without range or integer issues on them), the stability is
    computed by [compute_stability], that is
    [round((clarity + calm + routine) / 3.0, 1)].  When the numeric value of
    stability is none, the cleaned row is the stripped row with its stability
    field set to the computed value formatted with [".1f"], which is also
    what write-back writes in the fifth cell.  This text has exactly one
    decimal place when the computed value is finite, and only then: otherwise
    it is [nan], [inf] or [-inf].  The row has no issue on column
    ["stability"] when the field is blank, and the ["Not a number"] issue
    alone when it is not. *)
Theorem stability_is_filled header records wb i row a b c :
  rows (header :: records) !! i = Some row →
  numeric_value row "clarity" = Some a →
  numeric_value row "calm" = Some b →
  numeric_value row "routine" = Some c →
  numeric_value row "stability" = None →
  let computed := compute_stability a b c in
  let filled := set (clean row) "stability" (Float.format_1f computed) in
  computed = Float.round1 (Float.div (Float.add (Float.add a b) c) (lit "3.0"))
  ∧ rows_out (read_pass header (header :: records)) !! i = Some filled
  ∧ get filled "stability" = Some (Float.format_1f computed)
  ∧ (validate_csv (header :: records) true).2 !! S i = Some (out_row filled)
  ∧ out_row filled !! 4%nat = Some (Float.format_1f computed)
  ∧ one_decimal (Float.format_1f computed) = Float.is_finite computed
  ∧ (Float.is_finite computed = false →
     Float.format_1f computed ∈ [ "nan"; "inf"; "-inf" ])
  ∧ issues_on (line i) "stability" (validate_csv (header :: records) wb).1.1
    = (if _is_blank (text_of row "stability") then []
       else [ not_a_number (line i) "stability" (text_of row "stability") ]).
Proof.
  intros Hi Ha Hb Hc He computed filled.
  assert (Hrow : row_cleaned (line i) row = filled).
  { unfold row_cleaned. by rewrite (stability_checks_fill _ _ a b c). }
  split_and!.
  - done.
  - by rewrite (rows_out_line _ _ _ _ Hi), Hrow.
  - apply get_set.
  - rewrite validate_csv_with_header. simpl. rewrite list_lookup_fmap.
    by rewrite (cleaned_from_lookup _ _ _ _ Hi), <- Hrow.
  - rewrite (out_row_lookup filled 4 "stability" eq_refl). unfold filled.
    by rewrite get_set.
  - apply format_1f_decimal.
  - apply format_1f_decimal.
  - rewrite (issues_on_numeric _ _ _ _ _ _ _ _ Hi stability_range).
    rewrite decide_True by done.
    rewrite (stability_checks_fill _ _ a b c) by done.
    rewrite check_column_issues, app_nil_r.
    unfold numeric_value, text_of in *.
    destruct (_is_blank (get (clean row) "stability")); [done|].
    by rewrite He.
Qed.

Lemma stability_is_filled_witness :
  rows sample !! 0%nat = Some sample_row
  ∧ numeric_value sample_row "clarity" = Some (lit "8")
  ∧ numeric_value sample_row "calm" = Some (lit "7")
  ∧ numeric_value sample_row "routine" = Some (lit "9")
  ∧ numeric_value sample_row "stability" = None
  ∧ (validate_csv sample true).2 !! 1%nat
    = Some (out_row (set (clean sample_row) "stability"
                       (Float.format_1f (compute_stability (lit "8") (lit "7") (lit "9")))))
  ∧ Float.format_1f (compute_stability (lit "8") (lit "7") (lit "9")) = "8.0"
  ∧ one_decimal (Float.format_1f (compute_stability (lit "8") (lit "7") (lit "9")))
    = true
  ∧ issues_on (line 0) "stability" (validate_csv sample false).1.1 = [].
Proof.
  assert (H1 : numeric_value sample_row "clarity" = Some (lit "8"))
    by (vm_compute; reflexivity).
  assert (H2 : numeric_value sample_row "calm" = Some (lit "7"))
    by (vm_compute; reflexivity).
  assert (H3 : numeric_value sample_row "routine" = Some (lit "9"))
    by (vm_compute; reflexivity).
  assert (H4 : numeric_value sample_row "stability" = None)
    by (vm_compute; reflexivity).
  pose proof (stability_is_filled REQUIRED_COLUMNS [sample_cells] false 0 sample_row
                (lit "8") (lit "7") (lit "9") eq_refl H1 H2 H3 H4)
    as (_ & _ & _ & Hw & _ & Hd & _ & Hn).
  split; [reflexivity|]. split; [exact H1|]. split; [exact H2|].
  split; [exact H3|]. split; [exact H4|]. split; [exact Hw|].
  split; [vm_compute; reflexivity|].
  split; [etransitivity; [exact Hd|]; vm_compute; reflexivity|].
  etransitivity; [exact Hn|]. vm_compute. reflexivity.
Defined.

(** The computed value is infinite also for finite cells, when the sum
    overflows; a NaN cell gives the stability [nan]. *)
Example stability_overflows :
  (validate_csv (one_row "1e308" "1e308" "1e308" "") true).2
  = [ REQUIRED_COLUMNS; cells "1e308" "1e308" "1e308" "inf" ]
  ∧ (validate_csv (one_row "nan" "7" "9" "") true).2
    = [ REQUIRED_COLUMNS; cells "nan" "7" "9" "nan" ].
Proof. by vm_compute. Qed.

(** The cells are read as [float] reads them.  Between no-break spaces
    (U+00A0) the stability ["5.0"] is numeric: it is compared and kept, not
    filled; the full-width digits of ["８"] (U+FF18) make a clarity of 8. *)
Example cells_of_unicode :
  numeric_value
    (make_row REQUIRED_COLUMNS
       (cells "8" "7" "9" (String "194" (String "160" ("5.0" ++ String "194" (String "160" ""))))))
    "stability"
  = Some (lit "5.0")
  ∧ (validate_csv
       (one_row "8" "7" "9" (String "194" (String "160" ("5.0" ++ String "194" (String "160" "")))))
       true)
    = (([ {| row_number := 2; column := "stability";
             message := "Does not match (clarity+calm+routine)/3. Existing=5.0, Computed=8.0" |} ],
        1),
       [ REQUIRED_COLUMNS; cells "8" "7" "9" "5.0" ])
  ∧ validate_csv
      (one_row (String "239" (String "188" (String "152" ""))) "7" "9" "") true
    = (([], 1),
       [ REQUIRED_COLUMNS;
         cells (String "239" (String "188" (String "152" ""))) "7" "9" "8.0" ]).
Proof. by vm_compute. Qed.

(** The end-to-end scenario of the specification: no issue, one row, and the
    stability filled as ["8.0"]. *)
Example sample_is_filled :
  validate_csv sample true
  = (([], 1),
     [ REQUIRED_COLUMNS;
       [ "2024-01-01"; "8"; "7"; "9"; "8.0"; "7"; "4"; "30"; "1"; "60"; "1"; "" ] ]).
Proof. by vm_compute. Qed.



(** ** Stability: comparison *)

Lemma mismatch_not_out_of_range idx e computed col lo hi v :
  mismatch idx e computed ≠ out_of_range idx col lo hi v.
Proof. intros Heq. apply (f_equal message) in Heq. discriminate Heq. Qed.

(** The comparison as the code makes it.  In a row where clarity, calm,
    routine and stability have a numeric value, the issue [Issue(row,
    "stability", "Does not match (clarity+calm+routine)/3.
    Existing=<existing:.1f>, Computed=<computed:.1f>")] is raised if and only
    if the binary64 value [abs(existing - computed)] is above the binary64
    value of [0.1]; it is then the last issue of the row on that column, after
    the range issue if there is one.  The difference is the rounded one of
    binary64: it is the value of [0.1] or [0.10001] only for few rows. *)
Theorem stability_mismatch header records wb i row a b c e :
  rows (header :: records) !! i = Some row →
  numeric_value row "clarity" = Some a →
  numeric_value row "calm" = Some b →
  numeric_value row "routine" = Some c →
  numeric_value row "stability" = Some e →
  let computed := compute_stability a b c in
  let difference := Float.abs (Float.sub e computed) in
  let found := (validate_csv (header :: records) wb).1.1 in
  (mismatch (line i) e computed ∈ found ↔ Float.gtb difference (lit "0.1") = true)
  ∧ issues_on (line i) "stability" found
    = List.app
        (if Float.ltb e (lit "0.0") || Float.gtb e (lit "10.0")
         then [out_of_range (line i) "stability" (lit "0.0") (lit "10.0") e] else [])
        (if Float.gtb difference (lit "0.1")
         then [mismatch (line i) e computed] else [])
  ∧ (difference = lit "0.1" → mismatch (line i) e computed ∉ found)
  ∧ (difference = lit "0.10001" → mismatch (line i) e computed ∈ found)
  ∧ rows_out (read_pass header (header :: records)) !! i = Some (clean row).
Proof.
  intros Hi Ha Hb Hc He computed difference found.
  assert (Hon : issues_on (line i) "stability" found
    = List.app
        (if Float.ltb e (lit "0.0") || Float.gtb e (lit "10.0")
         then [out_of_range (line i) "stability" (lit "0.0") (lit "10.0") e] else [])
        (if Float.gtb difference (lit "0.1")
         then [mismatch (line i) e computed] else [])).
  { unfold found. rewrite (issues_on_numeric _ _ _ _ _ _ _ _ Hi stability_range).
    rewrite decide_True by done.
    rewrite (stability_checks_compare _ _ a b c Ha Hb Hc e He). simpl fst.
    rewrite check_column_issues.
    assert (Hv : numeric_value row "stability" = Some e) by done.
    unfold numeric_value, text_of in Hv.
    destruct (_is_blank (get (clean row) "stability")); [done|].
    rewrite Hv. rewrite bool_decide_eq_false_2; [|by vm_compute].
    simpl andb. cbv iota. by rewrite app_nil_r. }
  assert (Hiff : mismatch (line i) e computed ∈ found
                 ↔ Float.gtb difference (lit "0.1") = true).
  { split.
    - intros Hin.
      assert (Hin' : mismatch (line i) e computed
                     ∈ issues_on (line i) "stability" found).
      { unfold issues_on, issues_at. rewrite !list_elem_of_filter. done. }
      rewrite Hon in Hin'. apply elem_of_app in Hin' as [Hin'|Hin'].
      + destruct (_ || _); [|by apply elem_of_nil in Hin'].
        apply list_elem_of_singleton in Hin'.
        by apply mismatch_not_out_of_range in Hin'.
      + destruct (Float.gtb difference (lit "0.1")); [done|].
        by apply elem_of_nil in Hin'.
    - intros Hgt.
      assert (Hin' : mismatch (line i) e computed
                     ∈ issues_on (line i) "stability" found).
      { rewrite Hon, Hgt. apply elem_of_app. right. by apply list_elem_of_singleton. }
      unfold issues_on, issues_at in Hin'.
      rewrite !list_elem_of_filter in Hin'. tauto. }
  split_and!.
  - exact Hiff.
  - exact Hon.
  - intros Hd Hin. apply Hiff in Hin. rewrite Hd in Hin. by vm_compute in Hin.
  - intros Hd. apply Hiff. rewrite Hd. by vm_compute.
  - rewrite (rows_out_line _ _ _ _ Hi). unfold row_cleaned.
    by rewrite (stability_checks_compare _ _ a b c Ha Hb Hc e He).
Qed.

Lemma stability_mismatch_witness :
  rows (one_row "0" "0" "0" "0.1") !! 0%nat
    = Some (make_row REQUIRED_COLUMNS (cells "0" "0" "0" "0.1"))
  ∧ numeric_value (make_row REQUIRED_COLUMNS (cells "0" "0" "0" "0.1")) "stability"
    = Some (lit "0.1")
  ∧ Float.abs (Float.sub (lit "0.1") (compute_stability (lit "0") (lit "0") (lit "0")))
    = lit "0.1"
  ∧ mismatch (line 0) (lit "0.1") (compute_stability (lit "0") (lit "0") (lit "0"))
    ∉ (validate_csv (one_row "0" "0" "0" "0.1") false).1.1.
Proof.
  set (row := make_row REQUIRED_COLUMNS (cells "0" "0" "0" "0.1")).
  assert (H1 : numeric_value row "clarity" = Some (lit "0"))
    by (vm_compute; reflexivity).
  assert (H2 : numeric_value row "calm" = Some (lit "0"))
    by (vm_compute; reflexivity).
  assert (H3 : numeric_value row "routine" = Some (lit "0"))
    by (vm_compute; reflexivity).
  assert (H4 : numeric_value row "stability" = Some (lit "0.1"))
    by (vm_compute; reflexivity).
  assert (H5 : Float.abs (Float.sub (lit "0.1")
                            (compute_stability (lit "0") (lit "0") (lit "0")))
               = lit "0.1") by (vm_compute; reflexivity).
  pose proof (stability_mismatch REQUIRED_COLUMNS [cells "0" "0" "0" "0.1"] false 0
                row (lit "0") (lit "0") (lit "0") (lit "0.1") eq_refl H1 H2 H3 H4)
    as (_ & _ & Hexact & _).
  split; [reflexivity|]. split; [exact H4|]. split; [exact H5|].
  exact (Hexact H5).
Defined.

(** C2. The code does not accept every difference of one tenth.  With
    clarity, calm and routine 1 the computed stability is 1.0; a stability of
    1.1 is one tenth away and the specification accepts it, but the binary64
    difference [1.1 - 1.0] is 0.10000000000000009, above the binary64 value
    of [0.1], and the code reports the row.  So do 88 of the 200 pairs of a
    computed stability between 0.0 and 10.0 and a stability one tenth below
    or above it, such as 0.4 against 0.3; the others, such as 0.1 against 0.0
    and 8.1 against 8.0, are accepted. *)
Theorem one_tenth_apart_is_reported :
  numeric_value (make_row REQUIRED_COLUMNS (cells "1" "1" "1" "1.1")) "stability"
    = Some (lit "1.1")
  ∧ compute_stability (lit "1") (lit "1") (lit "1") = lit "1.0"
  ∧ Float.repr (Float.abs (Float.sub (lit "1.1") (lit "1.0")))
    = "0.10000000000000009"
  ∧ Float.gtb (Float.abs (Float.sub (lit "1.1") (lit "1.0"))) (lit "0.1") = true
  ∧ validate_csv (one_row "1" "1" "1" "1.1") false
    = (([ {| row_number := 2; column := "stability";
             message := "Does not match (clarity+calm+routine)/3. Existing=1.1, Computed=1.0" |} ],
        1),
       one_row "1" "1" "1" "1.1").
Proof. by vm_compute. Qed.

(** Of the 200 pairs that are one tenth apart, 88 are reported; 1.1 against
    1.0 is the eleventh pair and is reported, 0.1 against 0.0 is the first
    and is not. *)
Example one_tenth_pairs_reported :
  length one_tenth_pairs = 200%nat
  ∧ length (List.filter reported one_tenth_pairs) = 88%nat
  ∧ one_tenth_pairs !! 10%nat = Some (lit "1.1", lit "1.0")
  ∧ reported (lit "1.1", lit "1.0") = true
  ∧ one_tenth_pairs !! 0%nat = Some (lit "0.1", lit "0.0")
  ∧ reported (lit "0.1", lit "0.0") = false.
Proof. by vm_compute. Qed.

(** The boundary on files: stability 0.1 against the computed 0.0 is accepted,
    stability 0.10001 is reported. *)
Example difference_of_one_tenth :
  (validate_csv (one_row "0" "0" "0" "0.1") false).1 = ([], 1).
Proof. by vm_compute. Qed.

Example difference_above_one_tenth :
  (validate_csv (one_row "0" "0" "0" "0.10001") false).1
  = ([ {| row_number := 2; column := "stability";
          message := "Does not match (clarity+calm+routine)/3. Existing=0.1, Computed=0.0" |} ],
     1).
Proof. by vm_compute. Qed.

(** The second end-to-end scenario of the specification. *)
Example sample_mismatch :
  (validate_csv (one_row "8" "7" "9" "5.0") false).1
  = ([ {| row_number := 2; column := "stability";
          message := "Does not match (clarity+calm+routine)/3. Existing=5.0, Computed=8.0" |} ],
     1).
Proof. by vm_compute. Qed.

(** The difference is the binary64 one: between the texts 0.4 and 0.3 it is
    0.10000000000000003, above 0.1, and between 8.1 and 8.0 it is
    0.09999999999999964, below. *)
Example binary_difference :
  Float.repr (Float.abs (Float.sub (lit "0.4") (compute_stability (lit "0.3") (lit "0.3") (lit "0.3"))))
  = "0.10000000000000003"
  ∧ (validate_csv (one_row "0.3" "0.3" "0.3" "0.4") false).1
    = ([ {| row_number := 2; column := "stability";
            message := "Does not match (clarity+calm+routine)/3. Existing=0.4, Computed=0.3" |} ],
       1)
  ∧ Float.repr (Float.abs (Float.sub (lit "8.1") (compute_stability (lit "8") (lit "8") (lit "8"))))
    = "0.09999999999999964"
  ∧ (validate_csv (one_row "8" "8" "8" "8.1") false).1 = ([], 1).
Proof. by vm_compute. Qed.

(** ** Integer columns *)

Lemma expected_integer_not_out_of_range idx col v col' lo hi v' :
  expected_integer idx col v ≠ out_of_range idx col' lo hi v'.
Proof. intros Heq. apply (f_equal message) in Heq. discriminate Heq. Qed.

Lemma INT_FIELDS_not_stability : "stability" ∉ INT_FIELDS.
Proof. apply (bool_decide_unpack _). by vm_compute. Qed.

Lemma INT_FIELDS_names col :
  col ∈ INT_FIELDS
  ↔ col ∈ [ "sleep_quality"; "exercise_minutes"; "caffeine_units";
            "social_minutes"; "stressors" ].
Proof. unfold INT_FIELDS. set_unfold. tauto. Qed.

(** C5. In an integer-only column whose value parses to [v], the issues of the
    row on that column are the range issue, when [v] is out of range, followed
    by [Issue(row, column, "Expected integer, got: <v>")] when [v.is_integer()]
    is false, that is when [v] has a fractional part (or is infinite or a NaN):
    the integer issue is raised whether or not the range issue is. *)
Theorem integer_columns header records wb i row col lo hi v :
  rows (header :: records) !! i = Some row →
  col ∈ INT_FIELDS →
  (col, (lo, hi)) ∈ RANGES →
  numeric_value row col = Some v →
  let found := (validate_csv (header :: records) wb).1.1 in
  issues_on (line i) col found
  = List.app
      (if Float.ltb v lo || Float.gtb v hi
       then [out_of_range (line i) col lo hi v] else [])
      (if Float.is_integer v then [] else [expected_integer (line i) col v])
  ∧ (expected_integer (line i) col v ∈ found ↔ Float.is_integer v = false).
Proof.
  intros Hi Hint Hin Hv found.
  assert (Hon : issues_on (line i) col found
    = List.app
        (if Float.ltb v lo || Float.gtb v hi
         then [out_of_range (line i) col lo hi v] else [])
        (if Float.is_integer v then [] else [expected_integer (line i) col v])).
  { unfold found. rewrite (issues_on_numeric _ _ _ _ _ _ _ _ Hi Hin).
    rewrite decide_False.
    2:{ intros ->. by apply INT_FIELDS_not_stability. }
    rewrite app_nil_r, check_column_issues.
    unfold numeric_value, text_of in Hv.
    destruct (_is_blank (get (clean row) col)); [done|].
    rewrite Hv, bool_decide_eq_true_2 by done.
    by destruct (Float.is_integer v). }
  split; [exact Hon|]. split.
  - intros Hin'.
    assert (Hin'' : expected_integer (line i) col v ∈ issues_on (line i) col found).
    { unfold issues_on, issues_at. rewrite !list_elem_of_filter. done. }
    rewrite Hon in Hin''. apply elem_of_app in Hin'' as [Hin''|Hin''].
    + destruct (_ || _); [|by apply elem_of_nil in Hin''].
      apply list_elem_of_singleton in Hin''.
      by apply expected_integer_not_out_of_range in Hin''.
    + destruct (Float.is_integer v); [|done]. by apply elem_of_nil in Hin''.
  - intros Hfrac.
    assert (Hin'' : expected_integer (line i) col v ∈ issues_on (line i) col found).
    { rewrite Hon, Hfrac. apply elem_of_app. right. by apply list_elem_of_singleton. }
    unfold issues_on, issues_at in Hin''.
    rewrite !list_elem_of_filter in Hin''. tauto.
Qed.

Lemma exercise_range :
  ("exercise_minutes", (lit "0.0", lit "300.0")) ∈ RANGES.
Proof. unfold RANGES. do 6 apply list_elem_of_further. apply list_elem_of_here. Qed.

Lemma integer_columns_witness :
  rows [REQUIRED_COLUMNS; exercise_cells "30.5"] !! 0%nat
    = Some (make_row REQUIRED_COLUMNS (exercise_cells "30.5"))
  ∧ "exercise_minutes" ∈ INT_FIELDS
  ∧ ("exercise_minutes", (lit "0.0", lit "300.0")) ∈ RANGES
  ∧ numeric_value (make_row REQUIRED_COLUMNS (exercise_cells "30.5")) "exercise_minutes"
    = Some (lit "30.5")
  ∧ issues_on (line 0) "exercise_minutes"
      (validate_csv [REQUIRED_COLUMNS; exercise_cells "30.5"] false).1.1
    = [ {| row_number := 2; column := "exercise_minutes";
           message := "Expected integer, got: 30.5" |} ].
Proof.
  set (row := make_row REQUIRED_COLUMNS (exercise_cells "30.5")).
  assert (H1 : "exercise_minutes" ∈ INT_FIELDS).
  { apply (bool_decide_unpack _). vm_compute. exact I. }
  assert (H2 : numeric_value row "exercise_minutes" = Some (lit "30.5"))
    by (vm_compute; reflexivity).
  pose proof (integer_columns REQUIRED_COLUMNS [exercise_cells "30.5"] false 0 row
                "exercise_minutes" (lit "0.0") (lit "300.0") (lit "30.5")
                eq_refl H1 exercise_range H2) as [Hon _].
  split; [reflexivity|]. split; [exact H1|]. split; [exact exercise_range|].
  split; [exact H2|].
  etransitivity; [exact Hon|]. vm_compute. reflexivity.
Defined.

(** The scenario of the specification: 30.5 minutes of exercise give one
    integer issue and no range issue; 400.5 minutes give both. *)
Example exercise_30_5 :
  (validate_csv [REQUIRED_COLUMNS; exercise_cells "30.5"] false).1
  = ([ {| row_number := 2; column := "exercise_minutes";
          message := "Expected integer, got: 30.5" |} ], 1).
Proof. by vm_compute. Qed.

Example exercise_400_5 :
  (validate_csv [REQUIRED_COLUMNS; exercise_cells "400.5"] false).1
  = ([ {| row_number := 2; column := "exercise_minutes";
          message := "Out of range 0.0–300.0: 400.5" |};
       {| row_number := 2; column := "exercise_minutes";
          message := "Expected integer, got: 400.5" |} ], 1).
Proof. by vm_compute. Qed.

Example is_integer_samples :
  Float.is_integer (lit "30.5") = false ∧ Float.is_integer (lit "30") = true
  ∧ Float.is_integer (lit "-0.0") = true ∧ Float.is_integer (lit "1e22") = true
  ∧ Float.is_integer (lit "inf") = false ∧ Float.is_integer (lit "nan") = false.
Proof. by vm_compute. Qed.

(** ** Ranges *)

Lemma compare_antisym (x y : Float.float) :
  SFcompare y x = CompOpp <$> SFcompare x y.
Proof.
  destruct x as [s|s| |s m e], y as [s'|s'| |s' m' e']; simpl; try done;
    try (by destruct s); try (by destruct s'); try (by destruct s, s').
  destruct s, s'; simpl; try done;
    rewrite (Z.compare_antisym e e'); destruct (e ?= e'); simpl; try done;
    rewrite (Pos.compare_cont_antisym m m' Eq); simpl;
    by rewrite ?CompOpp_involutive.
Qed.

(** On values that are not NaNs, the test of the range check, [v < lo or
    v > hi], is the negation of [lo <= v <= hi]. *)
Lemma outside_range v lo hi :
  Float.is_nan v = false → Float.is_nan lo = false → Float.is_nan hi = false →
  Float.ltb v lo || Float.gtb v hi = negb (Float.leb lo v && Float.leb v hi).
Proof.
  intros Hv Hlo Hhi.
  unfold Float.ltb, Float.gtb, Float.leb, SFltb, SFleb.
  rewrite (compare_antisym v lo), (compare_antisym v hi).
  destruct (SFcompare v lo) as [[]|] eqn:H1, (SFcompare v hi) as [[]|] eqn:H2;
    simpl; try done;
    destruct v, lo, hi; simpl in *; done.
Qed.

(** A NaN is neither below nor above: the range check lets it pass. *)
Lemma nan_passes_range_check lo hi :
  Float.ltb S754_nan lo || Float.gtb S754_nan hi = false.
Proof. unfold Float.ltb, Float.gtb, SFltb. simpl. by destruct hi. Qed.

Lemma stability_checks_mismatch idx nv rc :
  Forall (λ x, ∃ e computed, x = mismatch idx e computed)
    (stability_checks idx nv rc).1.
Proof.
  unfold stability_checks.
  repeat (match goal with |- context [match ?x with _ => _ end] => destruct x end);
    repeat constructor. by eexists _, _.
Qed.

(** The test of the range check in terms of the range: the value is not in
    [lo, hi] and is no NaN. *)
Lemma range_test v lo hi :
  Float.is_nan lo = false → Float.is_nan hi = false →
  Float.ltb v lo || Float.gtb v hi = negb (within v lo hi) && negb (Float.is_nan v).
Proof.
  intros Hlo Hhi. destruct (Float.is_nan v) eqn:Hv.
  - destruct v; try done. rewrite nan_passes_range_check. by rewrite andb_false_r.
  - rewrite andb_true_r. by apply outside_range.
Qed.

Lemma RANGES_no_nan col lo hi :
  (col, (lo, hi)) ∈ RANGES → Float.is_nan lo = false ∧ Float.is_nan hi = false.
Proof.
  unfold RANGES. intros Hin.
  repeat (apply elem_of_cons in Hin as [Hin|Hin];
          [by inversion Hin; subst; vm_compute|]).
  by apply elem_of_nil in Hin.
Qed.

(** C6, as stated, fails for a NaN.  The text [nan] parses; its value is not
    in the inclusive range of clarity, and no issue is raised for it. *)
Lemma nan_is_outside_and_not_reported :
  _to_float (text_of (make_row REQUIRED_COLUMNS (cells "nan" "7" "9" "")) "clarity")
    = Some S754_nan
  ∧ ("clarity", (lit "0.0", lit "10.0")) ∈ RANGES
  ∧ within S754_nan (lit "0.0") (lit "10.0") = false
  ∧ (validate_csv (one_row "nan" "7" "9" "") false).1 = ([], 1).
Proof.
  split; [by vm_compute|]. split; [apply list_elem_of_here|].
  split; by vm_compute.
Qed.

(** C6, amended. In a ranged column whose value parses to [v], the issue
    [Issue(row, column, "Out of range <lo>–<hi>: <v>")] is raised exactly when
    [v < lo or v > hi], that is when [v] is not in the inclusive range [lo,
    hi] and is no NaN: a NaN, which is in no range, raises no issue.  In
    either case [v] is the numeric value of the column: the loop records it
    in [numeric_values].  So an out-of-range clarity takes part in the
    stability: with calm and routine and no stability, the cleaned row is
    filled with the stability computed from it. *)
Theorem out_of_range_is_reported_and_kept header records wb i row col lo hi v :
  rows (header :: records) !! i = Some row →
  (col, (lo, hi)) ∈ RANGES →
  _to_float (text_of row col) = Some v →
  (out_of_range (line i) col lo hi v ∈ (validate_csv (header :: records) wb).1.1
   ↔ Float.ltb v lo || Float.gtb v hi = true)
  ∧ Float.ltb v lo || Float.gtb v hi
    = negb (within v lo hi) && negb (Float.is_nan v)
  ∧ numeric_value row col = Some v
  ∧ numeric_get (numeric_checks (line i) (clean row)).2 col = Some v
  ∧ (∀ b c, col = "clarity" →
       numeric_value row "calm" = Some b →
       numeric_value row "routine" = Some c →
       numeric_value row "stability" = None →
       rows_out (read_pass header (header :: records)) !! i
       = Some (set (clean row) "stability"
                 (Float.format_1f (compute_stability v b c)))).
Proof.
  intros Hi Hin Hparse.
  assert (Hblank : _is_blank (text_of row col) = false).
  { unfold _to_float in Hparse. by destruct (_is_blank (text_of row col)). }
  assert (Hv : numeric_value row col = Some v).
  { unfold numeric_value. by rewrite Hblank. }
  assert (Hon : issues_on (line i) col (validate_csv (header :: records) wb).1.1
    = List.app
        (List.app
           (if Float.ltb v lo || Float.gtb v hi
            then [out_of_range (line i) col lo hi v] else [])
           (if bool_decide (col ∈ INT_FIELDS) && negb (Float.is_integer v)
            then [expected_integer (line i) col v] else []))
        (if decide (col = "stability") then
           (stability_checks (line i) (numeric_checks (line i) (clean row)).2
              (clean row)).1
         else [])).
  { rewrite (issues_on_numeric _ _ _ _ _ _ _ _ Hi Hin). f_equal.
    rewrite check_column_issues. unfold text_of in *.
    by rewrite Hblank, Hparse. }
  split_and!.
  - split.
    + intros Hfound.
      assert (Hin' : out_of_range (line i) col lo hi v
                     ∈ issues_on (line i) col (validate_csv (header :: records) wb).1.1).
      { unfold issues_on, issues_at. rewrite !list_elem_of_filter. done. }
      rewrite Hon in Hin'.
      destruct (Float.ltb v lo || Float.gtb v hi); [done|]. exfalso.
      apply elem_of_app in Hin' as [Hin'|Hin'].
      * simpl in Hin'. destruct (_ && _); [|by apply elem_of_nil in Hin'].
        apply list_elem_of_singleton in Hin'. symmetry in Hin'.
        by apply expected_integer_not_out_of_range in Hin'.
      * destruct (decide (col = "stability")) as [Hcol|Hcol];
          [|by apply elem_of_nil in Hin'].
        pose proof (stability_checks_mismatch (line i)
                      (numeric_checks (line i) (clean row)).2 (clean row)) as Hall.
        rewrite Forall_forall in Hall.
        destruct (Hall _ Hin') as (e & computed & Heq). symmetry in Heq.
        by apply mismatch_not_out_of_range in Heq.
    + intros Hout.
      assert (Hin' : out_of_range (line i) col lo hi v
                     ∈ issues_on (line i) col (validate_csv (header :: records) wb).1.1).
      { rewrite Hon, Hout. apply elem_of_app. left. apply elem_of_app. left.
        by apply list_elem_of_singleton. }
      unfold issues_on, issues_at in Hin'.
      rewrite !list_elem_of_filter in Hin'. tauto.
  - destruct (RANGES_no_nan _ _ _ Hin). by apply range_test.
  - exact Hv.
  - rewrite numeric_values_get; [done|]. by eapply RANGES_key.
  - intros b c -> Hb Hc He. rewrite (rows_out_line _ _ _ _ Hi). unfold row_cleaned.
    by rewrite (stability_checks_fill _ _ v b c).
Qed.

Lemma clarity_range : ("clarity", (lit "0.0", lit "10.0")) ∈ RANGES.
Proof. unfold RANGES. apply list_elem_of_here. Qed.

Lemma out_of_range_is_reported_and_kept_witness :
  rows (one_row "11" "7" "9" "") !! 0%nat
    = Some (make_row REQUIRED_COLUMNS (cells "11" "7" "9" ""))
  ∧ ("clarity", (lit "0.0", lit "10.0")) ∈ RANGES
  ∧ _to_float (text_of (make_row REQUIRED_COLUMNS (cells "11" "7" "9" "")) "clarity")
    = Some (lit "11")
  ∧ Float.ltb (lit "11") (lit "0.0") || Float.gtb (lit "11") (lit "10.0") = true
  ∧ out_of_range (line 0) "clarity" (lit "0.0") (lit "10.0") (lit "11")
    ∈ (validate_csv (one_row "11" "7" "9" "") false).1.1
  ∧ rows_out (read_pass REQUIRED_COLUMNS (one_row "11" "7" "9" "")) !! 0%nat
    = Some (set (clean (make_row REQUIRED_COLUMNS (cells "11" "7" "9" "")))
              "stability"
              (Float.format_1f (compute_stability (lit "11") (lit "7") (lit "9")))).
Proof.
  set (row := make_row REQUIRED_COLUMNS (cells "11" "7" "9" "")).
  assert (H1 : _to_float (text_of row "clarity") = Some (lit "11"))
    by (vm_compute; reflexivity).
  assert (H2 : Float.ltb (lit "11") (lit "0.0") || Float.gtb (lit "11") (lit "10.0")
               = true) by (vm_compute; reflexivity).
  pose proof (out_of_range_is_reported_and_kept REQUIRED_COLUMNS
                [cells "11" "7" "9" ""] false 0 row "clarity" (lit "0.0") (lit "10.0")
                (lit "11") eq_refl clarity_range H1) as (Hin & _ & _ & _ & Hfill).
  split; [reflexivity|]. split; [exact clarity_range|]. split; [exact H1|].
  split; [exact H2|]. split; [exact (proj2 Hin H2)|].
  apply (Hfill (lit "7") (lit "9")); [reflexivity | | |]; vm_compute; reflexivity.
Defined.

(** A clarity of 11 is reported and still gives the stability 9.0. *)
Example clarity_11 :
  validate_csv (one_row "11" "7" "9" "") true
  = (([ {| row_number := 2; column := "clarity";
           message := "Out of range 0.0–10.0: 11.0" |} ], 1),
     [ REQUIRED_COLUMNS; cells "11" "7" "9" "9.0" ]).
Proof. by vm_compute. Qed.

(** The text nan parses to a NaN, which raises no range issue and is the
    numeric value of the column; the text inf is out of range, and both reach
    the stability, whose text then has no decimal place. *)
Example clarity_nan_and_inf :
  validate_csv (one_row "nan" "7" "9" "") true
  = (([], 1), [ REQUIRED_COLUMNS; cells "nan" "7" "9" "nan" ])
  ∧ validate_csv (one_row "inf" "7" "9" "") true
    = (([ {| row_number := 2; column := "clarity";
             message := "Out of range 0.0–10.0: inf" |} ], 1),
       [ REQUIRED_COLUMNS; cells "inf" "7" "9" "inf" ]).
Proof. by vm_compute. Qed.

(** * Further properties *)

(** ** The order and the places of the issues *)

Lemma all_row_issues_bounds rows : ∀ idx seen,
  Forall (λ x, idx ≤ row_number x < idx + Z.of_nat (length rows))
    (all_row_issues idx rows seen).
Proof.
  induction rows as [|row rows IH]; intros idx seen; simpl all_row_issues;
    [constructor|].
  apply Forall_app; split.
  - eapply Forall_impl; [apply row_issues_where|]. simpl. intros x ->.
    simpl length. lia.
  - eapply Forall_impl; [apply IH|]. simpl. intros x Hx. simpl length. lia.
Qed.

Lemma all_row_issues_sorted rows : ∀ idx seen,
  StronglySorted Z.le (row_number <$> all_row_issues idx rows seen).
Proof.
  induction rows as [|row rows IH]; intros idx seen; simpl all_row_issues;
    [constructor|].
  rewrite fmap_app. apply StronglySorted_app_2.
  - intros n1 n2 H1 H2.
    apply list_elem_of_fmap in H1 as (x1 & -> & H1).
    apply list_elem_of_fmap in H2 as (x2 & -> & H2).
    pose proof (row_issues_where idx row seen) as Hw1.
    rewrite Forall_forall in Hw1. specialize (Hw1 x1 H1). simpl in Hw1.
    pose proof (all_row_issues_numbers rows (idx + 1)
                  (date_checks idx (clean row) seen).2) as Hw2.
    rewrite Forall_forall in Hw2. specialize (Hw2 x2 H2). simpl in Hw2. lia.
  - pose proof (row_issues_where idx row seen) as Hw.
    induction Hw as [|x l Hx Hl IHl]; [constructor|].
    rewrite fmap_cons. constructor; [done|].
    apply Forall_fmap. eapply Forall_impl; [exact Hl|]. simpl. intros y Hy.
    simpl in Hx. lia.
  - apply IH.
Qed.

(** X1. The issues come in the order of the file: the header issues, at row
    0, then the issues of the rows by increasing line number; every line
    number of an issue is that of a row that was counted. *)
Theorem issues_follow_the_file f wb :
  StronglySorted Z.le (row_number <$> (validate_csv f wb).1.1)
  ∧ Forall (λ x, row_number x = 0
                 ∨ 2 ≤ row_number x ≤ (validate_csv f wb).1.2 + 1)
      (validate_csv f wb).1.1.
Proof.
  destruct f as [|header records].
  - split; [repeat constructor|]. repeat constructor.
  - rewrite validate_csv_with_header. simpl fst. simpl snd. split.
    + rewrite fmap_app. apply StronglySorted_app_2.
      * intros n1 n2 H1 H2.
        apply list_elem_of_fmap in H1 as (x1 & -> & H1).
        apply list_elem_of_fmap in H2 as (x2 & -> & H2).
        pose proof (header_issues_where header) as Hw1.
        rewrite Forall_forall in Hw1. destruct (Hw1 x1 H1) as [Hx1 _].
        pose proof (all_row_issues_numbers (rows (header :: records)) 2 ∅) as Hw2.
        rewrite Forall_forall in Hw2. specialize (Hw2 x2 H2). simpl in Hw2. lia.
      * pose proof (header_issues_where header) as Hw.
        induction Hw as [|x l [Hx _] Hl IHl]; [constructor|].
        rewrite fmap_cons. constructor; [done|].
        apply Forall_fmap. eapply Forall_impl; [exact Hl|]. simpl.
        intros y [Hy _]. lia.
      * apply all_row_issues_sorted.
    + apply Forall_app; split.
      * eapply Forall_impl; [apply header_issues_where|]. simpl. intros x [? _].
        by left.
      * eapply Forall_impl; [apply all_row_issues_bounds|]. simpl. intros x Hx.
        right. lia.
Qed.

(** ** Blank values *)

Lemma lstrip_with_nil {A} (sp : A → bool) l :
  Text.lstrip_with sp l = [] ↔ forallb sp l = true.
Proof.
  induction l as [|c l IH]; simpl; [done|].
  destruct (sp c); simpl; [done|]. split; discriminate.
Qed.

Lemma forallb_rev {A} (p : A → bool) l : forallb p (rev l) = forallb p l.
Proof.
  induction l as [|x l IH]; simpl; [done|].
  rewrite forallb_app, IH. simpl. rewrite andb_true_r. apply andb_comm.
Qed.

Lemma strip_with_nil {A} (sp : A → bool) l :
  Text.strip_with sp l = [] ↔ forallb sp l = true.
Proof.
  unfold Text.strip_with. split.
  - intros Hnil. apply (f_equal (@rev A)) in Hnil.
    rewrite rev_involutive in Hnil. simpl in Hnil.
    apply lstrip_with_nil in Hnil. rewrite forallb_rev in Hnil.
    destruct (Text.lstrip_with sp l) as [|c m] eqn:Hm.
    + by apply lstrip_with_nil.
    + apply lstrip_with_head in Hm. simpl in Hnil. by rewrite Hm in Hnil.
  - intros Hall. apply lstrip_with_nil in Hall. by rewrite Hall.
Qed.

(** X2. A value is blank exactly when it is [None] or a string whose
    characters are all white space as [str.isspace] has it (the empty string
    included): the ASCII blanks and controls, and also the no-break space,
    the next-line control and the spaces of Unicode. *)
Theorem blank_is_white_space v :
  _is_blank v = true
  ↔ match v with
    | None => True
    | Some s =>
        forallb Text.space (Text.chars (list_ascii_of_string s)) = true
    end.
Proof.
  destruct v as [s|]; simpl; [|done].
  rewrite String.eqb_eq, <- strip_with_nil. unfold Text.strip. split.
  - intros Hs. apply (f_equal list_ascii_of_string) in Hs.
    rewrite list_ascii_of_string_of_list_ascii in Hs. simpl in Hs.
    apply well_formed_concat_nil in Hs; [done|].
    apply well_formed_strip, chars_of_well_formed.
  - by intros ->.
Qed.

(** A no-break space and an ideographic space make a blank value; a
    zero-width space does not. *)
Example blank_values :
  _is_blank (Some (String "194" (String "160" (String "227" (String "128" (String "128" " "))))))
  = true
  ∧ _is_blank (Some (String "226" (String "128" (String "139" "")))) = false.
Proof. by vm_compute. Qed.

(** ** Cells without a numeric value *)

Lemma mismatch_not_in_check_column idx e computed idx' rc col lo hi :
  mismatch idx e computed ∉ (check_column idx' rc col lo hi).1.
Proof.
  rewrite check_column_issues. intros Hin.
  destruct (_is_blank (get rc col)); [by apply elem_of_nil in Hin|].
  destruct (_to_float (get rc col)) as [v|].
  - apply elem_of_app in Hin as [Hin|Hin].
    + destruct (_ || _); [|by apply elem_of_nil in Hin].
      apply list_elem_of_singleton in Hin.
      apply (f_equal message) in Hin. discriminate Hin.
    + destruct (_ && _); [|by apply elem_of_nil in Hin].
      apply list_elem_of_singleton in Hin.
      apply (f_equal message) in Hin. discriminate Hin.
  - apply list_elem_of_singleton in Hin.
    apply (f_equal message) in Hin. discriminate Hin.
Qed.

Lemma stability_checks_without_existing idx row :
  numeric_value row "stability" = None →
  (stability_checks idx (numeric_checks idx (clean row)).2 (clean row)).1 = [].
Proof.
  intros He. unfold stability_checks.
  destruct core_columns as (H1 & H2 & H3 & H4).
  rewrite !numeric_values_get by done. rewrite He.
  by destruct (numeric_value row "clarity"), (numeric_value row "calm"),
              (numeric_value row "routine").
Qed.

(** X3. In any ranged column, a cell that is blank raises no issue on the
    column, and a cell that is not blank and that [float] rejects raises
    exactly one, [Issue(row, column, "Not a number: '<text>'")]; in both cases
    the column has no numeric value. *)
Theorem cells_without_a_number header records wb i row col lo hi :
  rows (header :: records) !! i = Some row →
  (col, (lo, hi)) ∈ RANGES →
  _to_float (text_of row col) = None →
  numeric_value row col = None
  ∧ numeric_get (numeric_checks (line i) (clean row)).2 col = None
  ∧ issues_on (line i) col (validate_csv (header :: records) wb).1.1
    = if _is_blank (text_of row col) then []
      else [ {| row_number := line i; column := col;
                message := "Not a number: '" ++ py_str (text_of row col) ++ "'" |} ].
Proof.
  intros Hi Hin Hparse.
  assert (Hv : numeric_value row col = None).
  { unfold numeric_value. by destruct (_is_blank (text_of row col)). }
  split_and!.
  - exact Hv.
  - rewrite numeric_values_get; [done|]. by eapply RANGES_key.
  - rewrite (issues_on_numeric _ _ _ _ _ _ _ _ Hi Hin).
    assert (Hs : (if decide (col = "stability")
                  then (stability_checks (line i)
                          (numeric_checks (line i) (clean row)).2 (clean row)).1
                  else []) = []).
    { destruct (decide (col = "stability")) as [->|]; [|done].
      by apply stability_checks_without_existing. }
    rewrite Hs, app_nil_r, check_column_issues. unfold text_of in *.
    destruct (_is_blank (get (clean row) col)); [done|]. by rewrite Hparse.
Qed.

Lemma calm_range : ("calm", (lit "0.0", lit "10.0")) ∈ RANGES.
Proof. unfold RANGES. apply list_elem_of_further, list_elem_of_here. Qed.

Lemma cells_without_a_number_witness :
  rows (one_row "8" "n/a" "9" "") !! 0%nat
    = Some (make_row REQUIRED_COLUMNS (cells "8" "n/a" "9" ""))
  ∧ ("calm", (lit "0.0", lit "10.0")) ∈ RANGES
  ∧ _to_float (text_of (make_row REQUIRED_COLUMNS (cells "8" "n/a" "9" "")) "calm")
    = None
  ∧ issues_on (line 0) "calm" (validate_csv (one_row "8" "n/a" "9" "") false).1.1
    = [ {| row_number := 2; column := "calm"; message := "Not a number: 'n/a'" |} ].
Proof.
  set (row := make_row REQUIRED_COLUMNS (cells "8" "n/a" "9" "")).
  assert (H1 : _to_float (text_of row "calm") = None) by (vm_compute; reflexivity).
  pose proof (cells_without_a_number REQUIRED_COLUMNS [cells "8" "n/a" "9" ""] false 0
                row "calm" (lit "0.0") (lit "10.0") eq_refl calm_range H1)
    as (_ & _ & Hon).
  split; [reflexivity|]. split; [exact calm_range|]. split; [exact H1|].
  etransitivity; [exact Hon|]. vm_compute. reflexivity.
Defined.

(** ** Stability without its three inputs *)

(** X4. In a row where clarity, calm or routine has no numeric value, the
    stability is neither checked nor filled: the cleaned row is the stripped
    row, also when its stability is blank, and no mismatch issue is raised
    for the row. *)
Theorem stability_is_left_alone header records wb i row :
  rows (header :: records) !! i = Some row →
  numeric_value row "clarity" = None ∨ numeric_value row "calm" = None
  ∨ numeric_value row "routine" = None →
  rows_out (read_pass header (header :: records)) !! i = Some (clean row)
  ∧ (validate_csv (header :: records) true).2 !! S i = Some (out_row (clean row))
  ∧ (∀ e computed,
       mismatch (line i) e computed ∉ (validate_csv (header :: records) wb).1.1).
Proof.
  intros Hi Hnone.
  assert (Hs : stability_checks (line i) (numeric_checks (line i) (clean row)).2
                 (clean row) = ([], clean row)).
  { unfold stability_checks. destruct core_columns as (H1 & H2 & H3 & H4).
    rewrite !numeric_values_get by done.
    destruct Hnone as [-> | [-> | ->]]; [done| |].
    - by destruct (numeric_value row "clarity").
    - by destruct (numeric_value row "clarity"), (numeric_value row "calm"). }
  assert (Hrow : row_cleaned (line i) row = clean row).
  { unfold row_cleaned. by rewrite Hs. }
  split_and!.
  - by rewrite (rows_out_line _ _ _ _ Hi), Hrow.
  - rewrite validate_csv_with_header. simpl. rewrite list_lookup_fmap.
    by rewrite (cleaned_from_lookup _ _ _ _ Hi), <- Hrow.
  - intros e computed Hin.
    assert (Hin' : mismatch (line i) e computed
                   ∈ issues_on (line i) "stability"
                       (validate_csv (header :: records) wb).1.1).
    { unfold issues_on, issues_at. rewrite !list_elem_of_filter. done. }
    rewrite (issues_on_numeric _ _ _ _ _ _ _ _ Hi stability_range) in Hin'.
    rewrite decide_True, Hs, app_nil_r in Hin' by done.
    by apply mismatch_not_in_check_column in Hin'.
Qed.

Lemma stability_is_left_alone_witness :
  rows (one_row "8" "" "9" "") !! 0%nat
    = Some (make_row REQUIRED_COLUMNS (cells "8" "" "9" ""))
  ∧ numeric_value (make_row REQUIRED_COLUMNS (cells "8" "" "9" "")) "calm" = None
  ∧ (validate_csv (one_row "8" "" "9" "") true).2 !! 1%nat
    = Some (cells "8" "" "9" "").
Proof.
  set (row := make_row REQUIRED_COLUMNS (cells "8" "" "9" "")).
  assert (H1 : numeric_value row "calm" = None) by (vm_compute; reflexivity).
  pose proof (stability_is_left_alone REQUIRED_COLUMNS [cells "8" "" "9" ""] false 0
                row eq_refl (or_intror (or_introl H1))) as (_ & Hw & _).
  split; [reflexivity|]. split; [exact H1|].
  etransitivity; [exact Hw|]. vm_compute. reflexivity.
Defined.

(** ** Write-back twice *)

Lemma concat_singletons {A} (l : list A) : List.concat (map (λ b, [b]) l) = l.
Proof. induction l as [|b l IH]; [done|]. simpl. by rewrite IH. Qed.

Lemma well_formed_plain l :
  forallb plain l = true → well_formed (map (λ b, [b]) l).
Proof.
  induction l as [|b l IH]; [done|]. intros Hl.
  apply andb_prop in Hl as [Hb Hl]. specialize (IH Hl).
  assert (Hc : complete [b]).
  { unfold plain in Hb. apply andb_prop in Hb as [Hb _].
    unfold complete, Text.sequence_length. simpl.
    destruct (Text.code b <? 192) eqn:Hlt; [done|lia]. }
  destruct l as [|c l]; [by apply complete_partial|]. by split.
Qed.

Lemma chars_plain l :
  forallb plain l = true → Text.chars l = map (λ b, [b]) l.
Proof.
  intros Hl. rewrite <- (concat_singletons l) at 1.
  by apply chars_concat, well_formed_plain.
Qed.

Lemma lstrip_plain l :
  forallb plain l = true →
  Text.lstrip_with Text.space (map (λ b, [b]) l) = map (λ b, [b]) l.
Proof.
  intros Hl. apply lstrip_with_fixed. destruct l as [|b l]; [done|].
  simpl in *. apply andb_prop in Hl as [Hb _]. unfold plain in Hb.
  apply andb_prop in Hb as [_ Hb]. by apply negb_true_iff.
Qed.

Lemma strip_plain s :
  forallb plain (list_ascii_of_string s) = true → Text.strip s = s.
Proof.
  intros Hl. unfold Text.strip, Text.strip_with.
  rewrite (chars_plain _ Hl), (lstrip_plain _ Hl), <- map_rev.
  rewrite lstrip_plain by by rewrite forallb_rev.
  rewrite map_rev, rev_involutive, concat_singletons.
  apply string_of_list_ascii_of_string.
Qed.

Lemma plain_app s1 s2 :
  forallb plain (list_ascii_of_string s1) = true →
  forallb plain (list_ascii_of_string s2) = true →
  forallb plain (list_ascii_of_string (s1 ++ s2)) = true.
Proof.
  intros H1 H2. by rewrite list_ascii_of_string_app, forallb_app, H1, H2.
Qed.

Lemma unsigned_plain d :
  forallb plain (list_ascii_of_string (NilEmpty.string_of_uint d)) = true.
Proof. induction d; try done; simpl; by rewrite IHd. Qed.

Lemma of_N_plain n : forallb plain (list_ascii_of_string (Text.of_N n)) = true.
Proof.
  unfold Text.of_N, NilZero.string_of_uint.
  destruct (N.to_uint n) eqn:Hd; try done; rewrite <- Hd; apply unsigned_plain.
Qed.

Lemma of_Z_plain z : forallb plain (list_ascii_of_string (Text.of_Z z)) = true.
Proof.
  unfold Text.of_Z. destruct (z <? 0); [apply plain_app; [done|]|];
    apply of_N_plain.
Qed.

Lemma format_1f_plain x :
  forallb plain (list_ascii_of_string (Float.format_1f x)) = true.
Proof.
  destruct x as [s|s| |s m e]; try (by destruct s); try done.
  unfold Float.format_1f.
  repeat apply plain_app; try apply of_Z_plain; try done. by destruct s.
Qed.

Lemma strip_format_1f x : Text.strip (Float.format_1f x) = Float.format_1f x.
Proof. apply strip_plain, format_1f_plain. Qed.

(** *** A row and its record *)

Lemma dict_zip_fold_other (names cells : list string)
    (m : gmap string (option string)) col :
  col ∉ names →
  fold_left (fun d kv => <[kv.1 := Some kv.2]> d) (zip names cells) m !! col
  = m !! col.
Proof.
  revert cells m. induction names as [|n names IH]; intros cells m Hnot; [done|].
  apply not_elem_of_cons in Hnot as [Hne Hnot].
  destruct cells as [|x cells]; [done|]. simpl.
  rewrite IH by done. by rewrite lookup_insert_ne.
Qed.

Lemma dict_zip_fold_lookup (names cells : list string)
    (m : gmap string (option string)) (k : nat) col v :
  NoDup names → names !! k = Some col → cells !! k = Some v →
  fold_left (fun d kv => <[kv.1 := Some kv.2]> d) (zip names cells) m !! col
  = Some (Some v).
Proof.
  revert cells m k. induction names as [|n names IH]; intros cells m k Hnd Hk Hv;
    [done|].
  apply NoDup_cons in Hnd as [Hn Hnd].
  destruct cells as [|x cells]; [done|]. simpl.
  destruct k as [|k]; simpl in *.
  - inversion Hk; inversion Hv; subst.
    rewrite dict_zip_fold_other by done. by rewrite lookup_insert_eq.
  - by apply (IH _ _ k).
Qed.

Lemma REQUIRED_COLUMNS_NoDup : NoDup REQUIRED_COLUMNS.
Proof. apply (bool_decide_unpack _). by vm_compute. Qed.

Lemma get_reread r col :
  col ∈ REQUIRED_COLUMNS → get (reread r) col = Some (cell r col).
Proof.
  intros Hin. apply list_elem_of_lookup in Hin as [k Hk].
  unfold reread, make_row. rewrite out_row_length.
  change (length REQUIRED_COLUMNS) with 12%nat.
  rewrite Nat.ltb_irrefl. unfold get. simpl fields. unfold dict_zip.
  rewrite (dict_zip_fold_lookup _ _ _ k col (cell r col) REQUIRED_COLUMNS_NoDup Hk);
    [done|].
  by apply out_row_lookup.
Qed.

Lemma row_cleaned_cases idx row :
  row_cleaned idx row
  = match numeric_value row "clarity", numeric_value row "calm",
          numeric_value row "routine" with
    | Some a, Some b, Some c =>
        match numeric_value row "stability" with
        | None => set (clean row) "stability"
                    (Float.format_1f (compute_stability a b c))
        | Some _ => clean row
        end
    | _, _, _ => clean row
    end.
Proof.
  unfold row_cleaned, stability_checks.
  destruct core_columns as (H1 & H2 & H3 & H4).
  rewrite !numeric_values_get by done.
  destruct (numeric_value row "clarity"), (numeric_value row "calm"),
    (numeric_value row "routine"), (numeric_value row "stability"); try done.
  by destruct (Float.gtb _ _).
Qed.

Lemma cell_clean row col : cell (clean row) col = Text.strip (cell row col).
Proof. unfold cell. rewrite get_clean. by destruct (get row col). Qed.

Lemma cell_set r key v col :
  cell (set r key v) col = if decide (key = col) then v else cell r col.
Proof.
  unfold cell, get, set. simpl. rewrite lookup_insert.
  by destruct (decide (key = col)).
Qed.

(** The cells of a cleaned row have no white space at their ends. *)
Lemma row_cleaned_stripped idx row col :
  Text.strip (cell (row_cleaned idx row) col) = cell (row_cleaned idx row) col.
Proof.
  assert (Hc : Text.strip (cell (clean row) col) = cell (clean row) col).
  { by rewrite cell_clean, strip_idemp. }
  rewrite row_cleaned_cases.
  destruct (numeric_value row "clarity"), (numeric_value row "calm"),
    (numeric_value row "routine"), (numeric_value row "stability"); try done.
  rewrite cell_set. destruct (decide ("stability" = col)); [|done].
  apply strip_format_1f.
Qed.

Lemma numeric_of_cell v :
  (if _is_blank (Some (write_cell v)) then None else _to_float (Some (write_cell v)))
  = (if _is_blank v then None else _to_float v).
Proof. by destruct v. Qed.

Section Reread.
Variables (r : Row).
Hypothesis Hstripped : ∀ col, Text.strip (cell r col) = cell r col.

Lemma text_of_reread col :
  col ∈ REQUIRED_COLUMNS → text_of (reread r) col = Some (cell r col).
Proof.
  intros Hin. unfold text_of. rewrite get_clean, (get_reread _ _ Hin). simpl.
  by rewrite Hstripped.
Qed.

Lemma numeric_value_reread col :
  col ∈ REQUIRED_COLUMNS →
  numeric_value (reread r) col
  = if _is_blank (get r col) then None else _to_float (get r col).
Proof.
  intros Hin. unfold numeric_value. rewrite (text_of_reread _ Hin).
  apply numeric_of_cell.
Qed.

Lemma cell_clean_reread col :
  col ∈ REQUIRED_COLUMNS → cell (clean (reread r)) col = cell r col.
Proof.
  intros Hin. rewrite cell_clean. unfold cell at 1.
  rewrite (get_reread _ _ Hin). simpl. apply Hstripped.
Qed.

End Reread.

Lemma required_core :
  "clarity" ∈ REQUIRED_COLUMNS ∧ "calm" ∈ REQUIRED_COLUMNS
  ∧ "routine" ∈ REQUIRED_COLUMNS ∧ "stability" ∈ REQUIRED_COLUMNS.
Proof. split_and!; apply (bool_decide_unpack _); by vm_compute. Qed.

(** Cleaning the record written for a cleaned row gives the same record. *)
Lemma out_row_reread idx idx' row :
  out_row (row_cleaned idx' (reread (row_cleaned idx row)))
  = out_row (row_cleaned idx row).
Proof.
  set (r := row_cleaned idx row).
  assert (Hs : ∀ col, Text.strip (cell r col) = cell r col).
  { intros col. apply row_cleaned_stripped. }
  destruct required_core as (R1 & R2 & R3 & R4).
  assert (Hnum : ∀ col, col ∈ REQUIRED_COLUMNS → col ≠ "stability" →
            numeric_value (reread r) col = numeric_value row col).
  { intros col Hin Hne. rewrite (numeric_value_reread r Hs col Hin).
    unfold numeric_value, text_of.
    assert (Hget : get r col = get (clean row) col).
    { unfold r. rewrite row_cleaned_cases.
      destruct (numeric_value row "clarity"), (numeric_value row "calm"),
        (numeric_value row "routine"), (numeric_value row "stability"); try done.
      unfold get, set. simpl. by rewrite lookup_insert_ne. }
    by rewrite Hget. }
  unfold out_row. apply map_ext_in. intros col Hin.
  apply list_elem_of_In in Hin. fold (cell (row_cleaned idx' (reread r)) col).
  fold (cell r col).
  rewrite row_cleaned_cases.
  rewrite !Hnum by done.
  rewrite (numeric_value_reread r Hs "stability" R4).
  destruct (numeric_value row "clarity") as [a|] eqn:Ha;
    [|by apply cell_clean_reread].
  destruct (numeric_value row "calm") as [b|] eqn:Hb;
    [|by apply cell_clean_reread].
  destruct (numeric_value row "routine") as [c|] eqn:Hc;
    [|by apply cell_clean_reread].
  assert (Hr : r = match numeric_value row "stability" with
                   | None => set (clean row) "stability"
                               (Float.format_1f (compute_stability a b c))
                   | Some _ => clean row
                   end).
  { unfold r. rewrite row_cleaned_cases. by rewrite Ha, Hb, Hc. }
  destruct (if _is_blank (get r "stability") then None
            else _to_float (get r "stability")) as [e'|] eqn:He';
    [by apply cell_clean_reread|].
  rewrite cell_set. destruct (decide ("stability" = col)) as [<-|Hne];
    [|by apply cell_clean_reread].
  destruct (numeric_value row "stability") as [e|] eqn:He.
  - exfalso. rewrite Hr in He'. unfold numeric_value, text_of in He.
    by rewrite He in He'.
  - rewrite Hr. by rewrite cell_set, decide_True.
Qed.

Lemma out_row_not_empty r : is_empty_record (out_row r) = false.
Proof. done. Qed.

Lemma cleaned_from_reread rows : ∀ idx idx',
  map out_row
    (cleaned_from idx' (map (make_row REQUIRED_COLUMNS)
                          (map out_row (cleaned_from idx rows))))
  = map out_row (cleaned_from idx rows).
Proof.
  induction rows as [|row rows IH]; intros idx idx'; [done|].
  simpl. rewrite IH. f_equal. apply out_row_reread.
Qed.

Lemma filter_out_rows (l : list Row) :
  List.filter (fun r => negb (is_empty_record r)) (map out_row l) = map out_row l.
Proof. induction l as [|r l IH]; [done|]. simpl. by rewrite IH. Qed.

(** X5. Write-back is idempotent: on the file that write-back produced from a
    file with a header, a second write-back writes the same file, and counts
    the same number of rows as the first. *)
Theorem write_back_is_idempotent header records wb :
  (validate_csv (validate_csv (header :: records) true).2 true).2
  = (validate_csv (header :: records) true).2
  ∧ (validate_csv (validate_csv (header :: records) true).2 wb).1.2
    = (validate_csv (header :: records) wb).1.2.
Proof.
  assert (Hw : (validate_csv (header :: records) true).2
               = REQUIRED_COLUMNS
                 :: map out_row (cleaned_from 2 (rows (header :: records)))).
  { by rewrite validate_csv_with_header. }
  rewrite Hw, !validate_csv_with_header. cbn [fst snd].
  assert (Hrows : rows (REQUIRED_COLUMNS
                          :: map out_row (cleaned_from 2 (rows (header :: records))))
                  = map (make_row REQUIRED_COLUMNS)
                      (map out_row (cleaned_from 2 (rows (header :: records))))).
  { unfold rows at 1. by rewrite filter_out_rows. }
  rewrite Hrows. split.
  - f_equal. apply cleaned_from_reread.
  - by rewrite !length_map, cleaned_from_length.
Qed.

(** ** The command line *)


Lemma validate_csv_without_write f : (validate_csv f false).2 = f.
Proof. unfold validate_csv. by destruct (fieldnames f). Qed.

Lemma validate_csv_twice f wb :
  (validate_csv (validate_csv f wb).2 wb).2 = (validate_csv f wb).2.
Proof.
  destruct wb; [|by rewrite !validate_csv_without_write].
  destruct f as [|header records]; [done|].
  apply (write_back_is_idempotent header records true).
Qed.

Section MainFacts.
Variable expanduser : string → string.

(** A run on a file that is read. *)
Lemma main_found prog arg options fs f :
  fs !! expanduser arg = Some (Regular f) →
  is_read f = true →
  let result := validate_csv f (bool_decide ("--write" ∈ options)) in
  let out := main expanduser (prog :: arg :: options) fs in
  files out = <[expanduser arg := Regular result.2]> fs
  ∧ exit_code out = (if decide (result.1.1 = []) then 0 else 1)
  ∧ raised out = false
  ∧ stdout out
    = List.app [ "Checked: " ++ expanduser arg; "Rows: " ++ Text.of_Z result.1.2 ]
        (if decide (result.1.1 = []) then
           "✅ No issues found."
           :: (if bool_decide ("--write" ∈ options) then [wrote_back_line] else [])
         else
           ("⚠️ Issues: " ++ Text.of_Z (Z.of_nat (length result.1.1)))
           :: map issue_line result.1.1).
Proof.
  intros Hf Hr result out. unfold out, main. rewrite Hf, Hr. cbn [negb].
  fold result. by destruct (result.1.1).
Qed.

(** A run on a path that cannot be read. *)
Lemma main_uncaught prog arg options fs node :
  fs !! expanduser arg = Some node → unreadable node →
  main expanduser (prog :: arg :: options) fs = uncaught fs.
Proof.
  intros Hf Hun. unfold main. rewrite Hf.
  destruct node as [f|]; [|done]. simpl in Hun. by rewrite Hun.
Qed.

Lemma readable_or_not node :
  unreadable node ∨ ∃ f, node = Regular f ∧ is_read f = true.
Proof.
  destruct node as [f|]; [|left; exact I]. simpl.
  destruct (is_read f) eqn:Hr; [right; by exists f|by left].
Qed.

(** X6. A run of [main] changes no file but the one its first argument names,
    and changes none at all when ["--write"] is not among the arguments after
    the path or when it exits with code 2; a second run with the same
    arguments leaves the files as the first run left them. *)
Theorem main_writes_only_on_request argv fs :
  (∀ path, (∀ arg, argv !! 1%nat = Some arg → path ≠ expanduser arg) →
           files (main expanduser argv fs) !! path = fs !! path)
  ∧ ("--write" ∉ drop 2 argv → files (main expanduser argv fs) = fs)
  ∧ (exit_code (main expanduser argv fs) = 2 → files (main expanduser argv fs) = fs)
  ∧ files (main expanduser argv (files (main expanduser argv fs)))
    = files (main expanduser argv fs).
Proof.
  destruct argv as [|prog [|arg options]]; [done..|].
  destruct (fs !! expanduser arg) as [node|] eqn:Hf.
  2:{ unfold main. rewrite Hf. cbn [files exit_code]. by rewrite Hf. }
  destruct (readable_or_not node) as [Hun|(f & -> & Hr)].
  { rewrite (main_uncaught _ _ _ _ _ Hf Hun). cbn [files uncaught].
    by rewrite (main_uncaught _ _ _ _ _ Hf Hun). }
  destruct (main_found prog arg options fs f Hf Hr) as (Hfiles & Hexit & _).
  split_and!.
  - intros path Hpath. rewrite Hfiles, lookup_insert_ne; [done|].
    intros Heq. by apply (Hpath arg).
  - simpl drop. intros Hno. rewrite Hfiles, bool_decide_eq_false_2 by done.
    rewrite validate_csv_without_write. by apply insert_id.
  - rewrite Hexit. by destruct (decide _).
  - rewrite Hfiles.
    set (written := (validate_csv f (bool_decide ("--write" ∈ options))).2).
    assert (Hw : <[expanduser arg := Regular written]> fs !! expanduser arg
                 = Some (Regular written)) by apply lookup_insert_eq.
    destruct (readable_or_not (Regular written)) as [Hun|(g & Hg & Hr')].
    + by rewrite (main_uncaught _ _ _ _ _ Hw Hun).
    + inversion Hg; subst g.
      destruct (main_found prog arg options _ _ Hw Hr') as (Hfiles' & _).
      rewrite Hfiles'. unfold written. rewrite validate_csv_twice.
      by rewrite insert_insert_eq.
Qed.


End MainFacts.

Lemma main_writes_only_on_request_witness :
  ("--write" ∉ drop 2 [ "validate"; "habits.csv" ])
  ∧ files (main id [ "validate"; "habits.csv" ] sample_files) = sample_files.
Proof.
  assert (Hno : "--write" ∉ drop 2 [ "validate"; "habits.csv" ]).
  { apply not_elem_of_nil. }
  split; [exact Hno|].
  by apply (main_writes_only_on_request id [ "validate"; "habits.csv" ] sample_files).
Defined.

(** The first end-to-end scenario through [main], and an empty file. *)
Example main_on_sample :
  main id [ "validate"; "habits.csv"; "--write" ] sample_files
  = {| stdout := [ "Checked: habits.csv"; "Rows: 1"; "✅ No issues found.";
                   wrote_back_line ];
       exit_code := 0; raised := false;
       files := {[ "habits.csv" := Regular [ REQUIRED_COLUMNS; cells "8" "7" "9" "8.0" ] ]} |}.
Proof. by vm_compute. Qed.

Example main_on_empty_file :
  main id [ "validate"; "empty.csv"; "--write" ] {[ "empty.csv" := Regular [] ]}
  = {| stdout := [ "Checked: empty.csv"; "Rows: 0"; "⚠️ Issues: 1";
                   "[HEADER] CSV has no header row" ];
       exit_code := 1; raised := false;
       files := {[ "empty.csv" := Regular [] ]} |}.
Proof. by vm_compute. Qed.

(** A directory, and a file whose only cell is the byte 255, which is no
    UTF-8: the run raises, with or without ["--write"]. *)
Example main_on_unreadable :
  main id [ "validate"; "data"; "--write" ] {[ "data" := Directory ]}
  = {| stdout := []; exit_code := 1; raised := true;
       files := {[ "data" := Directory ]} |}
  ∧ main id [ "validate"; "bad.csv" ] {[ "bad.csv" := Regular [ [ String "255" "" ] ] ]}
    = {| stdout := []; exit_code := 1; raised := true;
         files := {[ "bad.csv" := Regular [ [ String "255" "" ] ] ]} |}.
Proof. by vm_compute. Qed.

(** ** A file without issues *)







(** ** Records of another length than the header *)

Lemma fill_make_row fieldnames : ∀ cells d,
  fold_left (fun d key => <[key := None]> d) (drop (length cells) fieldnames)
    (fold_left (fun d kv => <[kv.1 := Some kv.2]> d) (zip fieldnames cells) d)
  = fill fieldnames cells d.
Proof.
  induction fieldnames as [|key names IH]; intros cells d.
  - by rewrite drop_nil.
  - destruct cells as [|x cells]; simpl.
    + rewrite <- (IH [] (<[key := None]> d)). simpl. by destruct names.
    + apply IH.
Qed.

Lemma fields_make_row fieldnames cells :
  fields (make_row fieldnames cells) = fill fieldnames cells ∅.
Proof.
  rewrite <- fill_make_row. unfold make_row, dict_zip.
  destruct (length fieldnames <? length cells)%nat eqn:H1.
  - apply Nat.ltb_lt in H1. simpl. rewrite drop_ge by lia. done.
  - destruct (length cells <? length fieldnames)%nat eqn:H2; [done|].
    apply Nat.ltb_ge in H1, H2. simpl. rewrite drop_ge by lia. done.
Qed.

Lemma shown_insert d key v col :
  shown (<[key := v]> d) col = if decide (key = col) then write_cell v else shown d col.
Proof.
  unfold shown. rewrite lookup_insert. by destruct (decide (key = col)).
Qed.

Lemma fill_shown fieldnames : ∀ cells cells' d d',
  (∀ k : nat, (k < length fieldnames)%nat →
      default "" (cells !! k) = default "" (cells' !! k)) →
  (∀ col, shown d col = shown d' col) →
  ∀ col, shown (fill fieldnames cells d) col = shown (fill fieldnames cells' d') col.
Proof.
  induction fieldnames as [|key names IH]; intros cells cells' d d' Hcells Hd;
    [done|].
  assert (H0 := Hcells 0%nat ltac:(simpl; lia)).
  assert (Hs : ∀ k : nat, (k < length names)%nat →
             default "" (tail cells !! k) = default "" (tail cells' !! k)).
  { intros k Hk. specialize (Hcells (S k) ltac:(simpl; lia)).
    by destruct cells, cells'. }
  destruct cells as [|x cells], cells' as [|x' cells']; simpl in *.
  - apply IH; [done|]. intros col. rewrite !shown_insert. by rewrite Hd.
  - apply IH; [done|]. intros col. rewrite !shown_insert, Hd. by rewrite <- H0.
  - apply IH; [done|]. intros col. rewrite !shown_insert, Hd. by rewrite H0.
  - apply IH; [done|]. intros col. rewrite !shown_insert, Hd. by rewrite H0.
Qed.

Lemma cell_shown r col : cell r col = shown (fields r) col.
Proof. done. Qed.

Lemma fit_lookup n record (k : nat) :
  record ≠ [] → (k < n)%nat →
  default "" (fit n record !! k) = default "" (record !! k).
Proof.
  intros Hne Hk. unfold fit. destruct record as [|x record]; [done|].
  rewrite lookup_take_lt by done.
  destruct (decide (k < length (x :: record))%nat) as [Hlt|Hge].
  - by rewrite lookup_app_l.
  - rewrite lookup_app_r by lia. rewrite lookup_replicate_2 by lia.
    by rewrite lookup_ge_None_2 by lia.
Qed.

Lemma cell_make_row_fit header record col :
  record ≠ [] →
  cell (make_row header (fit (length header) record)) col
  = cell (make_row header record) col.
Proof.
  intros Hne. rewrite !cell_shown, !fields_make_row.
  apply fill_shown; [|done]. intros k Hk. by apply fit_lookup.
Qed.

Lemma alike_values v1 v2 :
  write_cell v1 = write_cell v2 →
  _is_blank v1 = _is_blank v2 ∧ (_is_blank v1 = false → v1 = v2).
Proof.
  destruct v1 as [s1|], v2 as [s2|]; simpl; intros Heq; subst; split; try done.
Qed.

Section Alike.
Variables (r1 r2 : Row).
Hypothesis Hcells : ∀ col, cell r1 col = cell r2 col.

Lemma alike_clean col :
  write_cell (get (clean r1) col) = write_cell (get (clean r2) col).
Proof.
  change (cell (clean r1) col = cell (clean r2) col).
  by rewrite !cell_clean, Hcells.
Qed.

Lemma date_checks_alike idx seen :
  date_checks idx (clean r1) seen = date_checks idx (clean r2) seen.
Proof.
  unfold date_checks.
  destruct (alike_values _ _ (alike_clean "date")) as [Hb Hv]. rewrite <- Hb.
  destruct (_is_blank (get (clean r1) "date")); [done|]. by rewrite <- Hv.
Qed.

Lemma check_column_alike idx col lo hi :
  check_column idx (clean r1) col lo hi = check_column idx (clean r2) col lo hi.
Proof.
  unfold check_column.
  destruct (alike_values _ _ (alike_clean col)) as [Hb Hv]. rewrite <- Hb.
  destruct (_is_blank (get (clean r1) col)); [done|]. by rewrite <- Hv.
Qed.

Lemma numeric_checks_alike idx :
  numeric_checks idx (clean r1) = numeric_checks idx (clean r2).
Proof.
  unfold numeric_checks. generalize (([], ∅) : list Issue * gmap string (option Float.float)).
  induction RANGES as [|[col [lo hi]] l IH]; intros acc; [done|].
  simpl. rewrite IH. f_equal. unfold numeric_step.
  by rewrite check_column_alike.
Qed.

Lemma stability_checks_alike idx nv :
  (stability_checks idx nv (clean r1)).1 = (stability_checks idx nv (clean r2)).1
  ∧ ∀ col, cell (stability_checks idx nv (clean r1)).2 col
           = cell (stability_checks idx nv (clean r2)).2 col.
Proof.
  assert (Hc : ∀ col, cell (clean r1) col = cell (clean r2) col).
  { intros col. by rewrite !cell_clean, Hcells. }
  unfold stability_checks.
  destruct (numeric_get nv "clarity"), (numeric_get nv "calm"),
    (numeric_get nv "routine"); try done.
  destruct (numeric_get nv "stability").
  - by destruct (Float.gtb _ _).
  - split; [done|]. intros col. cbn [snd]. by rewrite !cell_set, Hc.
Qed.

Lemma row_issues_alike idx seen : row_issues idx r1 seen = row_issues idx r2 seen.
Proof.
  unfold row_issues.
  rewrite date_checks_alike, numeric_checks_alike.
  by rewrite (proj1 (stability_checks_alike idx _)).
Qed.

Lemma out_row_alike idx :
  out_row (row_cleaned idx r1) = out_row (row_cleaned idx r2).
Proof.
  unfold out_row. apply map_ext. intros col. unfold row_cleaned.
  rewrite numeric_checks_alike.
  apply (proj2 (stability_checks_alike idx _) col).
Qed.

End Alike.

Lemma loop_alike rows1 : ∀ rows2 idx seen,
  Forall2 (λ r1 r2, ∀ col, cell r1 col = cell r2 col) rows1 rows2 →
  all_row_issues idx rows1 seen = all_row_issues idx rows2 seen
  ∧ map out_row (cleaned_from idx rows1) = map out_row (cleaned_from idx rows2).
Proof.
  induction rows1 as [|r1 rows1 IH]; intros rows2 idx seen Hall;
    inversion Hall as [|? r2 ? rows2' Hr Hrest]; subst; [done|].
  simpl. rewrite (date_checks_alike r1 r2 Hr).
  destruct (IH rows2' (idx + 1) (date_checks idx (clean r2) seen).2 Hrest)
    as [-> ->].
  by rewrite (row_issues_alike r1 r2 Hr), (out_row_alike r1 r2 Hr).
Qed.

Lemma filter_fit n records :
  (0 < n)%nat →
  List.filter (fun r => negb (is_empty_record r)) (map (fit n) records)
  = map (fit n) (List.filter (fun r => negb (is_empty_record r)) records).
Proof.
  intros Hn. induction records as [|r records IH]; [done|].
  simpl. rewrite IH. destruct r as [|x r]; [done|].
  destruct n as [|n]; [lia|]. done.
Qed.

(** X9. Only the cells under the header count, and a missing cell counts as an
    empty one: when the header is not empty, cutting or padding with empty
    cells every record to the length of the header changes neither the issues,
    nor the row count, nor what write-back writes. *)
Theorem records_are_read_along_the_header header records wb :
  header ≠ [] →
  (validate_csv (header :: map (fit (length header)) records) wb).1
  = (validate_csv (header :: records) wb).1
  ∧ (validate_csv (header :: map (fit (length header)) records) true).2
    = (validate_csv (header :: records) true).2.
Proof.
  intros Hne.
  assert (Hn : (0 < length header)%nat) by (destruct header; [done|simpl; lia]).
  rewrite !validate_csv_with_header. cbn [fst snd].
  assert (Hrows : rows (header :: map (fit (length header)) records)
                  = map (make_row header)
                      (map (fit (length header))
                         (List.filter (fun r => negb (is_empty_record r)) records))).
  { unfold rows. by rewrite filter_fit. }
  rewrite Hrows. unfold rows.
  set (kept := List.filter (fun r => negb (is_empty_record r)) records).
  assert (Hall : Forall2 (λ r1 r2, ∀ col, cell r1 col = cell r2 col)
                   (map (make_row header) (map (fit (length header)) kept))
                   (map (make_row header) kept)).
  { rewrite map_map. apply Forall2_fmap, Forall2_same_length_lookup_2; [done|].
    intros i r r' Hi Hi'. rewrite Hi in Hi'. inversion Hi'; subst r'.
    intros col. apply cell_make_row_fit.
    assert (Hin : In r kept).
    { apply list_elem_of_In. by eapply list_elem_of_lookup_2. }
    apply filter_In in Hin as [_ Hr]. by destruct r. }
  destruct (loop_alike _ _ 2 ∅ Hall) as [-> ->].
  by rewrite !length_map.
Qed.

Lemma records_are_read_along_the_header_witness :
  REQUIRED_COLUMNS ≠ []
  ∧ (validate_csv
       (REQUIRED_COLUMNS
        :: map (fit (length REQUIRED_COLUMNS))
             [ [ "2024-01-01"; "8"; "7"; "9" ]; (sample_cells ++ [ "more" ])%list ])
       false).1
    = (validate_csv
         [ REQUIRED_COLUMNS; [ "2024-01-01"; "8"; "7"; "9" ];
           (sample_cells ++ [ "more" ])%list ] false).1.
Proof.
  split; [done|].
  by apply (records_are_read_along_the_header REQUIRED_COLUMNS
              [ [ "2024-01-01"; "8"; "7"; "9" ]; (sample_cells ++ [ "more" ])%list ]
              false).
Defined.

Example short_and_long_records :
  validate_csv
    [ REQUIRED_COLUMNS; [ "2024-01-01"; "8"; "7"; "9" ];
      (sample_cells ++ [ "more" ])%list ] true
  = (([ {| row_number := 3; column := "date";
           message := "Duplicate date: 2024-01-01" |} ], 2),
     [ REQUIRED_COLUMNS;
       [ "2024-01-01"; "8"; "7"; "9"; "8.0"; ""; ""; ""; ""; ""; ""; "" ];
       cells "8" "7" "9" "8.0" ]).
Proof. by vm_compute. Qed.

(** ** What write-back writes *)

Lemma cleaned_from_elem rows : ∀ idx r,
  r ∈ cleaned_from idx rows → ∃ idx' row, row ∈ rows ∧ r = row_cleaned idx' row.
Proof.
  induction rows as [|row rows IH]; intros idx r Hin; simpl in Hin.
  - by apply elem_of_nil in Hin.
  - apply elem_of_cons in Hin as [->|Hin].
    + exists idx, row. split; [by left|done].
    + destruct (IH _ _ Hin) as (idx' & row' & Hrow & ->).
      exists idx', row'. split; [by right|done].
Qed.

(** X10. Every cell that write-back writes is stripped: in the file written
    for a file with a header no cell, of the header or of a row, has white
    space at its ends. *)
Theorem written_cells_are_stripped header records :
  Forall (Forall (λ c, Text.strip c = c))
    (validate_csv (header :: records) true).2.
Proof.
  rewrite validate_csv_with_header. cbn [snd]. constructor.
  - apply (bool_decide_unpack _). by vm_compute.
  - apply Forall_forall. intros cells Hin.
    apply list_elem_of_fmap in Hin as (r & -> & Hr).
    apply cleaned_from_elem in Hr as (idx & row & _ & ->).
    apply Forall_forall. intros c Hc. unfold out_row in Hc.
    apply list_elem_of_fmap in Hc as (col & -> & _).
    apply (row_cleaned_stripped idx row col).
Qed.

(** ** The computed stability *)

Lemma add_comm x y : Float.add x y = Float.add y x.
Proof.
  unfold Float.add, SFadd.
  destruct x as [sx|sx| |sx mx ex], y as [sy|sy| |sy my ey]; try done;
    try (by destruct sx, sy).
  by rewrite (Z.min_comm ex ey), Z.add_comm.
Qed.

(** X11. The computed stability does not depend on the order of clarity and
    calm. *)
Theorem compute_stability_swap clarity calm routine :
  compute_stability clarity calm routine = compute_stability calm clarity routine.
Proof. unfold compute_stability. by rewrite (add_comm clarity calm). Qed.
